(** * ifb-crawl: the crawl-extract-merge pipeline

    A shallow embedding of the decision logic of [main.py], [v7.py],
    [deduplicate.py] and [sheets.py]: the listing paginator and its
    data-driven stop condition, the per-row record extractor, the
    destination dispatcher, the card matching of the site adapters, the
    union of listing record and enrichment, and the merge filters in front
    of the spreadsheet.

    Python [str] values are sequences of Unicode code points and are
    modelled as [list N]; field names and attribute names, which are ASCII
    literals of the source, are Rocq strings. *)

From Stdlib Require Import NArith Ascii String Lia.
From stdpp Require Import base option list gmap strings.

Local Open Scope N_scope.

(** ** Python strings *)

Abbreviation str := (list N) (only parsing).

(** An ASCII literal of the source as a Python string. *)
Definition lit (s : string) : str := N_of_ascii <$> list_ascii_of_string s.

(** The part of the interpreter's Unicode database the programs consult
    through [re] ([\d] on a [str] pattern is the category Nd), [str.strip]
    (white space) and [str.lower].  The ASCII rows of these tables are
    written out below; whatever lies beyond ASCII depends on the Unicode
    version of the interpreter and is taken as given. *)
Record unicode_db := {
  decimal_beyond_ascii : N → bool;
  space_beyond_ascii : N → bool;
  str_lower : list N → list N
}.

(** The database of an interpreter that knows ASCII only; it agrees with
    every CPython on ASCII input and serves to run the model on examples. *)
Definition ascii_lower_char (c : N) : N :=
  if (65 <=? c) && (c <=? 90) then c + 32 else c.

Definition ascii_db : unicode_db := {|
  decimal_beyond_ascii := λ _, false;
  space_beyond_ascii := λ _, false;
  str_lower := fmap ascii_lower_char
|}.

Section Strings.
Context (U : unicode_db).

(** [\d] of [re] on a [str] pattern. *)
Definition is_digit (c : N) : bool :=
  (48 <=? c) && (c <=? 57) || decimal_beyond_ascii U c.

(** The characters removed by [str.strip()]. *)
Definition is_space (c : N) : bool :=
  (9 <=? c) && (c <=? 13) || (28 <=? c) && (c <=? 32) || space_beyond_ascii U c.

Fixpoint lstrip (s : str) : str :=
  match s with
  | c :: s' => if is_space c then lstrip s' else s
  | [] => []
  end.

Definition strip (s : str) : str := reverse (lstrip (reverse (lstrip s))).

(** [p] matches at the head of [s] ([s.startswith(p)]). *)
Fixpoint starts_with (p s : str) : bool :=
  match p, s with
  | [], _ => true
  | a :: p', b :: s' => (a =? b) && starts_with p' s'
  | _ :: _, [] => false
  end.

(** [p in s] on Python strings. *)
Fixpoint contains (p s : str) : bool :=
  starts_with p s ||
  match s with
  | [] => false
  | _ :: s' => contains p s'
  end.

(** [\d{n}] anchored at the head of [s]: the [n] digits matched. *)
Fixpoint match_digits (n : nat) (s : str) : option str :=
  match n with
  | O => Some []
  | S n' =>
      match s with
      | c :: s' => if is_digit c then cons c <$> match_digits n' s' else None
      | [] => None
      end
  end.

(** [re.search(r'(\d{4})', s)]: group 1 of the leftmost match, [None]
    when the pattern occurs nowhere. *)
Fixpoint search_year (s : str) : option str :=
  match match_digits 4 s with
  | Some y => Some y
  | None =>
      match s with
      | [] => None
      | _ :: s' => search_year s'
      end
  end.

(** [\d+] anchored at the head of [s], greedy: the digits and the rest. *)
Fixpoint span_digits (s : str) : str * str :=
  match s with
  | c :: s' =>
      if is_digit c then let '(ds, r) := span_digits s' in (c :: ds, r)
      else ([], s)
  | [] => ([], [])
  end.

(** [pre(\d+)post] anchored at the head of [s], for literal [pre] and
    [post] where [post] does not start with a digit: group 1. *)
Definition match_framed (pre post s : str) : option str :=
  if starts_with pre s then
    let '(ds, r) := span_digits (drop (length pre) s) in
    match ds with
    | [] => None
    | _ :: _ => if starts_with post r then Some ds else None
    end
  else None.

(** [re.search] for such a pattern: the leftmost match. *)
Fixpoint search_framed (pre post s : str) : option str :=
  match match_framed pre post s with
  | Some ds => Some ds
  | None =>
      match s with
      | [] => None
      | _ :: s' => search_framed pre post s'
      end
  end.

(** [re.sub(r'[^\d]', '', s)]. *)
Definition keep_digits (s : str) : str := List.filter is_digit s.

End Strings.

(** ** The log

    Every [logger] call of the traversal and extraction code is one event;
    the interpolated exception texts are left out. *)

Inductive level := INFO | WARNING | ERROR.

Inductive event :=
| NavigationFailed (page_number : nat)
| DescriptionFailed (desc_id : str)
| TableNotFound
| RowExtracted (row_number project_name : str) (ifb_id : option str)
| RowExtractedDated (row_number project_name start_date : str)
| RowFailed
| TraversalStarted
| PageStarted (page_num : nat)
| CannotAdvance
| PageEmpty (page_num : nat)
| NonTargetYear (project_name start : str)
| InvalidDate (start : str)
| PageSummary (page_num count total : nat)
| TraversalStopped (page_num : nat)
| TraversalFinished (total : nat)
| ProjectStarted (idx total : nat) (project_name : str)
| EnrichmentStarted (domain project_name : str)
| FieldsExtracted (count : nat)
| ClientUnavailable
| SheetMissing (sheet_name : str)
| HeaderWritten
| IdColumnMissing
| ReadFailed
| ExistingCount (count : nat)
| RowWithoutId (project_name : str)
| RowsAppended (count : nat)
| NothingToAppend.

Definition level_of (e : event) : level :=
  match e with
  | NavigationFailed _ | DescriptionFailed _ | TableNotFound | RowFailed
  | ClientUnavailable | ReadFailed => ERROR
  | InvalidDate _ | IdColumnMissing | RowWithoutId _ => WARNING
  | _ => INFO
  end.

(** ** The listing page as BeautifulSoup shows it *)

(** A tag: its [.text] and its attribute dictionary. *)
Record element := { el_text : str; el_attrs : gmap string (list N) }.

(** A [td] of the grid: its text, [cell.find('a')] and
    [cell.find('i', {'class': 'icon-folder'})]. *)
Record cell := {
  cell_text : str;
  cell_a : option element;
  cell_icon_folder : option element
}.

(** What the modal shows after [showDesc(id)]: the value of the script
    that reads [#Message] (the empty string when the element is absent)
    and [get_text(strip=True)] of [small#Message] or [div#Message] in the
    re-parsed page source. *)
Record modal_view := { js_message : str; soup_message : option (list N) }.

(** The source site behind the driver.  [postback n] tells whether
    [__doPostBack] to page [n] and the wait for the grid go through;
    [listing n] is [soup.find('table', ...)] on page [n] with its
    [find_all('tr')] and, per row, [find_all('td')]; [show_desc id] is
    [None] when a driver call of the modal step raises; [now t] is the
    formatted reading of the wall clock at its [t]-th reading. *)
Record site := {
  postback : nat → bool;
  listing : nat → option (list (list cell));
  show_desc : list N → option modal_view;
  now : nat → list N
}.

(** The state of the driver that the traversal depends on. *)
Record driver := { current_page : nat; clock : nat }.

Definition IFB_MAIN_URL : str :=
  lit "https://www.ifb.ir/Finstars/AllCrowdFundingProject.aspx".

(** "توضیحات در دسترس نیست" *)
Definition description_unavailable : str :=
  [1578; 1608; 1590; 1740; 1581; 1575; 1578; 32; 1583; 1585; 32; 1583; 1587;
   1578; 1585; 1587; 32; 1606; 1740; 1587; 1578].

(** "خطا در دریافت توضیحات" *)
Definition description_error : str :=
  [1582; 1591; 1575; 32; 1583; 1585; 32; 1583; 1585; 1740; 1575; 1601; 1578;
   32; 1578; 1608; 1590; 1740; 1581; 1575; 1578].

Section Driver.
Context (U : unicode_db) (W : site).

(** [IFBScraper._navigate_to_page] *)
Definition _navigate_to_page (page_number : nat) (d : driver)
    : bool * list event * driver :=
  if postback W page_number
  then (true, [], {| current_page := page_number; clock := clock d |})
  else (false, [NavigationFailed page_number], d).

(** [IFBScraper._extract_description_from_modal] *)
Definition _extract_description_from_modal (desc_id : str) : str * list event :=
  match show_desc W desc_id with
  | Some view =>
      match js_message view with
      | _ :: _ => (strip U (js_message view), [])
      | [] =>
          match soup_message view with
          | Some description => (description, [])
          | None => (description_unavailable, [])
          end
      end
  | None => (description_error, [DescriptionFailed desc_id])
  end.

(** [datetime.now().strftime(...)]: one reading of the clock. *)
Definition read_clock (d : driver) : str * driver :=
  (now W (clock d), {| current_page := current_page d; clock := S (clock d) |}).

(** The handler attribute of a control and the identifier in it:
    [re.search(r"name\('(\d+)'\)", tag['onclick'])] for a tag that is
    present and has the attribute. *)
Definition handler_id (name : string) (tag : option element) : option str :=
  tag ≫= λ t, el_attrs t !! "onclick"%string ≫=
    search_framed U (lit name ++ lit "('") (lit "')").

End Driver.

#[global] Instance element_inhabited : Inhabited element :=
  populate {| el_text := []; el_attrs := ∅ |}.
#[global] Instance cell_inhabited : Inhabited cell :=
  populate {| cell_text := []; cell_a := None; cell_icon_folder := None |}.

(** Truth value of an [Optional[str]]. *)
Definition truthy (o : option str) : bool :=
  match o with
  | Some (_ :: _) => true
  | _ => false
  end.

(** ** The paginator, as written in both [main.py] and [v7.py] *)

(** What a traversal leaves behind: the list it returns, the value of
    [page_num] when the loop was left, the log and the driver. *)
Record traversal (project : Type) := Traversal {
  found : list project;
  last_page : nat;
  trace : list event;
  driver_after : driver
}.
Arguments Traversal {project}.
Arguments found {project}.
Arguments last_page {project}.
Arguments trace {project}.
Arguments driver_after {project}.

Module Paginator.
Section Loop.
Context (U : unicode_db) {project : Type}.
Context (start_of name_of : project → str).
Context (navigate : nat → driver → bool * list event * driver).
Context (extract : driver → list project * list event * driver).

(** The year a record is classified into:
    [re.search(r'(\d{4})', proj.fund_collection_start_date)]. *)
Definition year_of (proj : project) : option str := search_year U (start_of proj).

(** One turn of [for proj in page_projects] on the triple
    [(all_projects, page_has_non_1404, log)]. *)
Definition scan_step (st : list project * bool * list event) (proj : project)
    : list project * bool * list event :=
  let '(all_projects, page_has_non_1404, log) := st in
  match year_of proj with
  | Some year =>
      if decide (year ≠ lit "1404")
      then (all_projects, true, log ++ [NonTargetYear (name_of proj) (start_of proj)])
      else (all_projects ++ [proj], page_has_non_1404, log)
  | None => (all_projects, page_has_non_1404, log ++ [InvalidDate (start_of proj)])
  end.

Definition scan_page (page_projects all_projects : list project)
    : list project * bool * list event :=
  foldl scan_step (all_projects, false, []) page_projects.

(** The [while] loop of [scrape_all_pages]; [fuel] bounds the number of
    pages visited, [None] means the bound was reached before a [break]. *)
Fixpoint traverse (fuel : nat) (page_num : nat) (all_projects : list project)
    (log : list event) (d : driver) : option (traversal project) :=
  match fuel with
  | O => None
  | S fuel' =>
      let log := log ++ [PageStarted page_num] in
      let '(ok, nav_log, d) :=
        if decide (1 < page_num)%nat then navigate page_num d else (true, [], d) in
      if negb ok
      then Some (Traversal all_projects page_num (log ++ nav_log ++ [CannotAdvance]) d)
      else
        let '(page_projects, page_log, d) := extract d in
        let log := log ++ nav_log ++ page_log in
        match page_projects with
        | [] => Some (Traversal all_projects page_num (log ++ [PageEmpty page_num]) d)
        | _ :: _ =>
            let '(all_projects, page_has_non_1404, scan_log) :=
              scan_page page_projects all_projects in
            let log := log ++ scan_log ++
              [PageSummary page_num (length page_projects) (length all_projects)] in
            if page_has_non_1404
            then Some (Traversal all_projects page_num (log ++ [TraversalStopped page_num]) d)
            else traverse fuel' (S page_num) all_projects log d
        end
  end.

(** [IFBScraper.scrape_all_pages], from a driver that loads the listing
    URL. *)
Definition scrape_all_pages (fuel : nat) (d : driver) : option (traversal project) :=
  match traverse fuel 1 [] [TraversalStarted] {| current_page := 1; clock := clock d |} with
  | Some t =>
      Some (Traversal (found t) (last_page t)
              (trace t ++ [TraversalFinished (length (found t))]) (driver_after t))
  | None => None
  end.

(** *** The run, page by page

    [entering n] is the driver at the head of the loop when [page_num]
    is [n], provided the pages before were passed; [arriving n] is the
    driver after the navigation step of that turn, and [page_at n] what
    the extractor returns then. *)
Definition arrive (n : nat) (d : driver) : driver :=
  if decide (1 < n)%nat then (navigate n d).2 else d.

Fixpoint entering (d0 : driver) (n : nat) : driver :=
  match n with
  | O | S O => {| current_page := 1; clock := clock d0 |}
  | S n' => (extract (arrive n' (entering d0 n'))).2
  end.

Definition arriving (d0 : driver) (n : nat) : driver := arrive n (entering d0 n).

Definition page_at (d0 : driver) (n : nat) : list project :=
  (extract (arriving d0 n)).1.1.

Definition navigation_fails (d0 : driver) (n : nat) : Prop :=
  (1 < n)%nat ∧ (navigate n (entering d0 n)).1.1 = false.

(** A record with a classifiable year other than the target year. *)
Definition off_target (proj : project) : bool :=
  match year_of proj with
  | Some year => bool_decide (year ≠ lit "1404")
  | None => false
  end.

(** A record classified into the target year. *)
Definition on_target (proj : project) : bool :=
  match year_of proj with
  | Some year => bool_decide (year = lit "1404")
  | None => false
  end.

(** The stop condition read from the data of a page: it yields no record,
    or one of its records is classified into another year. *)
Definition page_stops (d0 : driver) (n : nat) : Prop :=
  page_at d0 n = [] ∨ Exists (λ proj, off_target proj = true) (page_at d0 n).

(** The stop condition of the loop. *)
Definition halts_at (d0 : driver) (n : nat) : Prop :=
  navigation_fails d0 n ∨ page_stops d0 n.

Definition first_halt (d0 : driver) (n : nat) : Prop :=
  (1 ≤ n)%nat ∧ halts_at d0 n ∧ ∀ m, (1 ≤ m < n)%nat → ¬ halts_at d0 m.

(** The target-year records of pages [1..n], in order. *)
Fixpoint kept_upto (d0 : driver) (n : nat) : list project :=
  match n with
  | O => []
  | S n' => kept_upto d0 n' ++ List.filter on_target (page_at d0 n)
  end.

(** The pages whose records count when the loop is left at page [n]: the
    page itself unless it could not be reached. *)
Definition kept_at_halt (d0 : driver) (n : nat) : list project :=
  if decide (navigation_fails d0 n) then kept_upto d0 (pred n) else kept_upto d0 n.

End Loop.
End Paginator.

(** ** Python values and dictionaries *)

(** The values held by the record dictionaries are [None] or a string;
    a [dict] with string keys keeps its keys in insertion order. *)
Abbreviation value := (option (list N)) (only parsing).
Abbreviation dict := (list (string * option (list N))) (only parsing).

(** [d[key]]; [None] stands for the [KeyError]. *)
Fixpoint dict_lookup (key : string) (d : dict) : option value :=
  match d with
  | [] => None
  | (k, v) :: d' => if decide (k = key) then Some v else dict_lookup key d'
  end.

(** [d.get(key)] *)
Definition dict_get (key : string) (d : dict) : value :=
  default None (dict_lookup key d).

(** [d.get(key, fallback)] *)
Definition dict_get_or (key : string) (fallback : value) (d : dict) : value :=
  default fallback (dict_lookup key d).

(** [d[key] = v] *)
Fixpoint dict_set (key : string) (v : value) (d : dict) : dict :=
  match d with
  | [] => [(key, v)]
  | (k, w) :: d' => if decide (k = key) then (k, v) :: d' else (k, w) :: dict_set key v d'
  end.

(** [d.update(e)] *)
Definition dict_update (d e : dict) : dict :=
  foldl (λ acc kv, dict_set kv.1 kv.2 acc) d e.

Definition dict_keys (d : dict) : list string := d.*1.
Definition dict_values (d : dict) : list value := d.*2.

(** [str(v)], which is also how an f-string renders [v]. *)
Definition py_str (v : value) : str :=
  match v with
  | Some s => s
  | None => lit "None"
  end.

(** Truth value of a string. *)
Definition nonempty (s : str) : option str :=
  match s with
  | [] => None
  | _ :: _ => Some s
  end.

(** [if v is found: d[key] = v], the shape of nearly every assignment of
    the adapters. *)
Definition assign (key : string) (v : option str) (d : dict) : dict :=
  match v with
  | Some s => dict_set key (Some s) d
  | None => d
  end.

Definition attr (name : string) (e : element) : option str := el_attrs e !! name.

(** ** The site adapters of [main.py]

    A card is modelled by what the [find] and [find_all] calls of its
    adapter return on it. *)

Record labelled := { label_tag : option element; value_tag : option element }.

Record hamafarin_bottom := {
  b_status : option element;
  b_perc : option element;
  b_grid : option (list labelled)
}.

Record hamafarin_card := {
  h_title : option element;
  h_plan_link : option element;
  h_img : option element;
  h_fin : option element;
  h_exec : option element;
  h_bottom : option hamafarin_bottom
}.

Record company_span := { span_text : str; parent_text : option (list N) }.

Record fundocrowd_card := {
  f_title : option element;
  f_img : option element;
  f_company : option company_span;
  f_target_spans : option (list element);
  f_progress_bar : option element;
  f_duration_cols : option (list (option element));
  f_detail_link : option element
}.

Record karencrowd_card := {
  k_title : option element;
  k_plan_link : option element;
  k_img : option element;
  k_grid_cols : option (list labelled)
}.

Record ifund_card := {
  i_title : option element;
  i_profit_span : option element;
  i_symbol_a : option element;
  i_amount_divs : list (list element);
  i_items : list (list N)
}.

Record zeema_card := {
  z_title : option element;
  z_img : option element;
  z_company : option element;
  z_req_divs : list (list element);
  z_duration : option (list element);
  z_fin : option (list element);
  z_guar : option element;
  z_collected : option (list element);
  z_progress : option element;
  z_investors : option (list element)
}.

(** The flattened text of a page as the generic adapter queries it: per
    field, group 1 of [re.search] for each alternative, in order. *)
Record generic_page := {
  g_target_amount : list (option (list N));
  g_expected_return : list (option (list N));
  g_project_duration : list (option (list N));
  g_investor_count : list (option (list N));
  g_company : list (option (list N))
}.

(** The destination sites behind the driver.  A page is [None] when
    loading or parsing it raises; the lists are the cards found on it.
    [karencrowd_cards] stands for the first of the two card queries that
    finds any. *)
Record web := {
  hamafarin_cards : list N → option (list hamafarin_card);
  fundocrowd_cards : list N → option (list fundocrowd_card);
  fundocrowd_payment : list N → option (option element);
  karencrowd_cards : list N → option (list karencrowd_card);
  ifund_cards : list N → option (list ifund_card);
  zeema_cards : list N → option (list zeema_card);
  generic_text : list N → option generic_page
}.

(** Label texts of the adapters. *)
Module Label.
(** "مبلغ هدف" *)
Definition target_amount : str := [1605; 1576; 1604; 1594; 32; 1607; 1583; 1601].
(** "پیشبینی سود" *)
Definition expected_return : str :=
  [1662; 1740; 1588; 1576; 1740; 1606; 1740; 32; 1587; 1608; 1583].
(** "پیش بینی سود" *)
Definition expected_return_spaced : str :=
  [1662; 1740; 1588; 32; 1576; 1740; 1606; 1740; 32; 1587; 1608; 1583].
(** "مدت طرح" *)
Definition duration : str := [1605; 1583; 1578; 32; 1591; 1585; 1581].
(** "تضمین اصل سرمایه" *)
Definition capital_guarantee : str :=
  [1578; 1590; 1605; 1740; 1606; 32; 1575; 1589; 1604; 32; 1587; 1585; 1605; 1575; 1740; 1607].
(** "نوع طرح" *)
Definition project_type : str := [1606; 1608; 1593; 32; 1591; 1585; 1581].
(** "نماد طرح" *)
Definition symbol : str := [1606; 1605; 1575; 1583; 32; 1591; 1585; 1581].
(** "تاریخ شروع" *)
Definition start_date : str := [1578; 1575; 1585; 1740; 1582; 32; 1588; 1585; 1608; 1593].
(** "سرمایه گذاران" *)
Definition investors : str :=
  [1587; 1585; 1605; 1575; 1740; 1607; 32; 1711; 1584; 1575; 1585; 1575; 1606].
(** "تواتر پرداخت سود" *)
Definition payment_frequency : str :=
  [1578; 1608; 1575; 1578; 1585; 32; 1662; 1585; 1583; 1575; 1582; 1578; 32; 1587; 1608; 1583].
(** "سکوی تامین مالی جمعی آیفاند" *)
Definition ifund_platform : str :=
  [1587; 1705; 1608; 1740; 32; 1578; 1575; 1605; 1740; 1606; 32; 1605; 1575; 1604; 1740; 32;
   1580; 1605; 1593; 1740; 32; 1570; 1740; 1601; 1575; 1606; 1583].
(** "آی‌فاند" *)
Definition ifund_name : str := [1570; 1740; 8204; 1601; 1575; 1606; 1583].
(** "نام متقاضی :" *)
Definition applicant_colon : str :=
  [1606; 1575; 1605; 32; 1605; 1578; 1602; 1575; 1590; 1740; 32; 58].
(** "نهاد مالی :" *)
Definition institution_colon : str :=
  [1606; 1607; 1575; 1583; 32; 1605; 1575; 1604; 1740; 32; 58].
(** "مدت طرح :" *)
Definition duration_colon : str := [1605; 1583; 1578; 32; 1591; 1585; 1581; 32; 58].
(** "نماد طرح :" *)
Definition symbol_colon : str := [1606; 1605; 1575; 1583; 32; 1591; 1585; 1581; 32; 58].
(** "نوع تامین مالی :" *)
Definition funding_type_colon : str :=
  [1606; 1608; 1593; 32; 1578; 1575; 1605; 1740; 1606; 32; 1605; 1575; 1604; 1740; 32; 58].
(** "سود پیش بینی شده سالانه:" *)
Definition yearly_return_colon : str :=
  [1587; 1608; 1583; 32; 1662; 1740; 1588; 32; 1576; 1740; 1606; 1740; 32; 1588; 1583; 1607;
   32; 1587; 1575; 1604; 1575; 1606; 1607; 58].
(** "مواعد پرداخت سود پیش بینی شده :" *)
Definition payment_dates_colon : str :=
  [1605; 1608; 1575; 1593; 1583; 32; 1662; 1585; 1583; 1575; 1582; 1578; 32; 1587; 1608; 1583;
   32; 1662; 1740; 1588; 32; 1576; 1740; 1606; 1740; 32; 1588; 1583; 1607; 32; 58].
(** "بدون تضمین سود" *)
Definition no_guarantee : str :=
  [1576; 1583; 1608; 1606; 32; 1578; 1590; 1605; 1740; 1606; 32; 1587; 1608; 1583].
(** "سرمایه مورد نیاز" *)
Definition required_capital : str :=
  [1587; 1585; 1605; 1575; 1740; 1607; 32; 1605; 1608; 1585; 1583; 32; 1606; 1740; 1575; 1586].
(** "پیش بینی سود پروژه" *)
Definition project_return : str :=
  [1662; 1740; 1588; 32; 1576; 1740; 1606; 1740; 32; 1587; 1608; 1583; 32; 1662; 1585; 1608;
   1688; 1607].
End Label.

Section Adapters.
Context (U : unicode_db) (P : web).

(** [tag.text.strip()] *)
Definition text_of (e : element) : str := strip U (el_text e).

(** [re.search(r'width:\s*(\d+)%', s)] *)
Definition match_width (s : str) : option str :=
  if starts_with (lit "width:") s then
    let '(ds, r) := span_digits U (lstrip U (drop 6 s)) in
    match ds with
    | [] => None
    | _ :: _ => if starts_with (lit "%") r then Some ds else None
    end
  else None.

Fixpoint search_width (s : str) : option str :=
  match match_width s with
  | Some ds => Some ds
  | None =>
      match s with
      | [] => None
      | _ :: s' => search_width s'
      end
  end.

(** [s.replace(old, '')] for a non-empty [old]; [skip] characters of a
    match are still to be dropped. *)
Fixpoint remove_from (old : str) (skip : nat) (s : str) : str :=
  match s with
  | [] => []
  | c :: s' =>
      match skip with
      | S skip' => remove_from old skip' s'
      | O =>
          if starts_with old s then remove_from old (pred (length old)) s'
          else c :: remove_from old 0 s'
      end
  end.

Definition without (old s : str) : str := strip U (remove_from old 0 s).

(** [spans[1].text.strip()] under [len(spans) >= 2] *)
Definition second_text (spans : list element) : option str := text_of <$> spans !! 1%nat.

(** The first alternative that matches. *)
Fixpoint first_found (alternatives : list (option (list N))) : option str :=
  match alternatives with
  | [] => None
  | Some group :: _ => Some group
  | None :: rest => first_found rest
  end.

(** *** Card extraction *)

(** One entry of a label/value grid, dispatched by [field]. *)
Definition labelled_step (field : str → str → dict → dict) (d : dict) (item : labelled)
    : dict :=
  match label_tag item, value_tag item with
  | Some label, Some value => field (text_of label) (text_of value) d
  | _, _ => d
  end.

Definition hamafarin_field (lbl val : str) (d : dict) : dict :=
  if contains Label.target_amount lbl then dict_set "target_amount" (Some val) d
  else if contains Label.expected_return lbl then dict_set "expected_return" (Some val) d
  else if contains Label.duration lbl then dict_set "project_duration" (Some val) d
  else if contains Label.capital_guarantee lbl then dict_set "capital_guarantee" (Some val) d
  else if contains Label.project_type lbl then dict_set "project_type" (Some val) d
  else if contains Label.symbol lbl then dict_set "project_symbol" (Some val) d
  else if contains Label.start_date lbl then dict_set "start_date_on_platform" (Some val) d
  else if contains Label.investors lbl
    then dict_set "investor_count" (Some (keep_digits U val)) d
  else if contains Label.payment_frequency lbl
    then dict_set "profit_payment_frequency" (Some val) d
  else d.

(** [_extract_hamafarin_card] *)
Definition _extract_hamafarin_card (card : hamafarin_card) : dict :=
  let d := assign "title_on_platform" (text_of <$> h_title card) [] in
  let d := assign "project_id_on_platform"
             ((h_plan_link card ≫= attr "href") ≫= search_framed U (lit "/businessplans/") []) d in
  let d := assign "thumbnail_url" ((h_img card ≫= attr "src") ≫= nonempty) d in
  let d := assign "financial_institution" (text_of <$> h_fin card) d in
  let d := assign "applicant_name" (text_of <$> h_exec card) d in
  match h_bottom card with
  | Some bottom =>
      let d := assign "status_on_platform" (text_of <$> b_status bottom) d in
      let d := assign "progress_percentage"
                 (b_perc bottom ≫= λ perc,
                    if contains (lit "%") (el_text perc) then Some (text_of perc) else None) d in
      match b_grid bottom with
      | Some items => foldl (labelled_step hamafarin_field) d items
      | None => d
      end
  | None => d
  end.

(** [_extract_fundocrowd_card] *)
Definition _extract_fundocrowd_card (card : fundocrowd_card) : dict :=
  let d := assign "title_on_platform" (text_of <$> f_title card) [] in
  let d := assign "thumbnail_url" ((f_img card ≫= attr "src") ≫= nonempty) d in
  let d := assign "applicant_name"
             ((λ span, default (span_text span) (parent_text span)) <$> f_company card) d in
  let d :=
    match f_target_spans card with
    | Some (span0 :: span1 :: _) =>
        dict_set "progress_percentage" (Some (text_of span1))
          (dict_set "target_amount" (Some (text_of span0)) d)
    | _ => d
    end in
  let d := assign "progress_width" ((f_progress_bar card ≫= attr "style") ≫= search_width) d in
  let d :=
    match f_duration_cols card with
    | Some (duration_b :: profit_b :: _) =>
        assign "expected_return" (text_of <$> profit_b)
          (assign "project_duration" (text_of <$> duration_b) d)
    | _ => d
    end in
  assign "details_page_url"
    ((λ href, lit "https://fundocrowd.ir" ++ href) <$> (f_detail_link card ≫= attr "href")) d.

(** [_scrape_fundocrowd_details] *)
Definition _scrape_fundocrowd_details (card : fundocrowd_card) : dict :=
  match f_detail_link card ≫= attr "href" with
  | None => []
  | Some href =>
      match fundocrowd_payment P (lit "https://fundocrowd.ir" ++ href) with
      | Some payment => assign "profit_payment_frequency" (text_of <$> payment) []
      | None => []
      end
  end.

Definition karencrowd_field (lbl val : str) (d : dict) : dict :=
  if contains Label.target_amount lbl then dict_set "target_amount" (Some val) d
  else if contains Label.duration lbl then dict_set "project_duration" (Some val) d
  else if contains Label.expected_return_spaced lbl
    then dict_set "expected_return" (Some val) d
  else d.

(** [_extract_karencrowd_card] *)
Definition _extract_karencrowd_card (card : karencrowd_card) : dict :=
  let d := assign "title_on_platform" (text_of <$> k_title card) [] in
  let d := assign "project_id_on_platform"
             ((k_plan_link card ≫= attr "href") ≫= search_framed U (lit "/plans/") []) d in
  let d := assign "thumbnail_url" ((k_img card ≫= attr "src") ≫= nonempty) d in
  match k_grid_cols card with
  | Some cols => foldl (labelled_step karencrowd_field) d cols
  | None => d
  end.

Definition ifund_item (d : dict) (text : str) : dict :=
  if contains Label.ifund_platform text
    then dict_set "platform_name" (Some Label.ifund_name) d
  else if contains Label.applicant_colon text
    then dict_set "applicant_name" (Some (without Label.applicant_colon text)) d
  else if contains Label.institution_colon text
    then dict_set "financial_institution" (Some (without Label.institution_colon text)) d
  else if contains Label.duration_colon text
    then dict_set "project_duration" (Some (without Label.duration_colon text)) d
  else if contains Label.symbol_colon text
    then dict_set "project_symbol" (Some (without Label.symbol_colon text)) d
  else if contains Label.funding_type_colon text
    then dict_set "project_type" (Some (without Label.funding_type_colon text)) d
  else if contains Label.yearly_return_colon text then d
  else if contains Label.payment_dates_colon text
    then dict_set "profit_payment_frequency"
           (Some (without Label.payment_dates_colon text)) d
  else if contains Label.no_guarantee text then dict_set "capital_guarantee" (Some text) d
  else d.

(** [_extract_ifund_card] *)
Definition _extract_ifund_card (card : ifund_card) : dict :=
  let d := assign "title_on_platform" (text_of <$> i_title card) [] in
  let d := assign "expected_return" (text_of <$> i_profit_span card) d in
  let d := assign "project_symbol" (text_of <$> i_symbol_a card) d in
  let d :=
    match i_amount_divs card with
    | (span0 :: span1 :: _) :: _ =>
        dict_set "target_amount" (Some (text_of span1))
          (dict_set "collected_amount" (Some (text_of span0)) d)
    | _ => d
    end in
  foldl ifund_item d (i_items card).

Definition zeema_req (d : dict) (spans : list element) : dict :=
  match spans with
  | label :: value :: _ =>
      if contains Label.required_capital (text_of label)
        then dict_set "target_amount" (Some (text_of value)) d
      else if contains Label.project_return (text_of label)
        then dict_set "expected_return" (Some (text_of value)) d
      else d
  | _ => d
  end.

(** [_extract_zeema_card] *)
Definition _extract_zeema_card (card : zeema_card) : dict :=
  let d := assign "title_on_platform" (text_of <$> z_title card) [] in
  let d := assign "thumbnail_url" ((z_img card ≫= attr "src") ≫= nonempty) d in
  let d := assign "applicant_name" (text_of <$> z_company card) d in
  let d := foldl zeema_req d (z_req_divs card) in
  let d := assign "project_duration" (z_duration card ≫= second_text) d in
  let d := assign "financial_institution" (z_fin card ≫= second_text) d in
  let d := assign "capital_guarantee" (text_of <$> z_guar card) d in
  let d := assign "collected_amount" (z_collected card ≫= second_text) d in
  let d := assign "progress_percentage" (z_progress card ≫= attr "aria-valuenow") d in
  assign "investor_count" (z_investors card ≫= second_text) d.

(** The pattern tables of [_scrape_generic], field by field. *)
Definition generic_fields (page : generic_page) : dict :=
  let d := assign "target_amount" (first_found (g_target_amount page)) [] in
  let d := assign "expected_return" (first_found (g_expected_return page)) d in
  let d := assign "project_duration" (first_found (g_project_duration page)) d in
  let d := assign "investor_count" (first_found (g_investor_count page)) d in
  assign "applicant_name" (strip U <$> first_found (g_company page)) d.

(** *** Card matching *)

(** [for card in cards]: the first card that has a title element
    passing [test]; cards without the element are passed over. *)
Fixpoint first_card {card : Type} (title_of : card → option element)
    (test : element → bool) (cards : list card) : option card :=
  match cards with
  | [] => None
  | card :: rest =>
      match title_of card with
      | None => first_card title_of test rest
      | Some title_elem =>
          if test title_elem then Some card else first_card title_of test rest
      end
  end.

(** [target in card_title or card_title in target] *)
Definition titles_match (target card_title : str) : bool :=
  contains target card_title || contains card_title target.

(** [_scrape_hamafarin] *)
Definition _scrape_hamafarin (project_name platform_url : str) : dict :=
  match hamafarin_cards P platform_url with
  | None => []
  | Some cards =>
      let target := strip U project_name in
      match first_card h_title (λ title_elem, titles_match target (text_of title_elem)) cards with
      | Some card => _extract_hamafarin_card card
      | None => []
      end
  end.

(** [_scrape_fundocrowd] *)
Definition _scrape_fundocrowd (project_name platform_url : str) : dict :=
  match fundocrowd_cards P platform_url with
  | None => []
  | Some cards =>
      let target := strip U project_name in
      match first_card f_title (λ title_elem, titles_match target (text_of title_elem)) cards with
      | Some card =>
          let details := _extract_fundocrowd_card card in
          if negb (truthy (dict_get "expected_return" details))
             || negb (truthy (dict_get "project_duration" details))
          then dict_update details (_scrape_fundocrowd_details card)
          else details
      | None => []
      end
  end.

(** [_scrape_karencrowd] *)
Definition _scrape_karencrowd (project_name platform_url : str) : dict :=
  match karencrowd_cards P platform_url with
  | None => []
  | Some cards =>
      let target := strip U project_name in
      match first_card k_title (λ title_elem, titles_match target (text_of title_elem)) cards with
      | Some card => _extract_karencrowd_card card
      | None => []
      end
  end.

(** [_scrape_ifund] *)
Definition _scrape_ifund (project_name platform_url : str) : dict :=
  match ifund_cards P platform_url with
  | None => []
  | Some cards =>
      let target := strip U project_name in
      match first_card i_title (λ title_elem, titles_match target (text_of title_elem)) cards with
      | Some card => _extract_ifund_card card
      | None => []
      end
  end.

(** [_scrape_zeema] *)
Definition _scrape_zeema (project_name platform_url : str) : dict :=
  match zeema_cards P platform_url with
  | None => []
  | Some cards =>
      let target := strip U project_name in
      match first_card z_title (λ title_span, contains target (el_text title_span)) cards with
      | Some card => _extract_zeema_card card
      | None => []
      end
  end.

End Adapters.

(** ** Exceptions *)

Inductive exn :=
| KeyError (key : string)
| ValueError
| SpreadsheetNotFound
| APIError.

Inductive result (A : Type) :=
| Ok (a : A)
| Raised (e : exn).
Arguments Ok {A}.
Arguments Raised {A}.

#[global] Instance result_ret : MRet result := λ A, Ok.
#[global] Instance result_bind : MBind result := λ A B f r,
  match r with
  | Ok a => f a
  | Raised e => Raised e
  end.
#[global] Instance result_fmap : FMap result := λ A B f r,
  match r with
  | Ok a => Ok (f a)
  | Raised e => Raised e
  end.

(** [d[key]] with its exception. *)
Definition dict_item (key : string) (d : dict) : result value :=
  match dict_lookup key d with
  | Some v => Ok v
  | None => Raised (KeyError key)
  end.

(** ** The destination dispatcher *)

Inductive adapter := Hamafarin | Fundocrowd | Karencrowd | Ifund | Zeema | Generic.

(** What the dispatcher does with a URL: it returns the empty mapping
    without running an adapter, or it hands the record to one. *)
Inductive selection := Skipped | Selected (a : adapter).

(** The selection as the specification tells it: the first entry of an
    ordered table of host substrings that occurs in [domain], the generic
    adapter when none does. *)
Fixpoint first_listed (table : list (string * adapter)) (domain : str) : adapter :=
  match table with
  | [] => Generic
  | (pattern, a) :: table' =>
      if contains (lit pattern) domain then a else first_listed table' domain
  end.

(** ** The spreadsheet backend

    What the programs use of gspread.  A worksheet is its grid of cell
    strings, a spreadsheet the list of its worksheets; spreadsheets are
    found by title ([open]) or by key ([open_by_key]), whichever the
    program at hand uses.  When the backend is not reachable every call
    raises. *)
Record backend := {
  reachable : bool;
  spreadsheets : gmap (list N) (list (list (list (list N))))
}.

Section Gspread.
Context (B : backend).

(** [client.open(name)], [client.open_by_key(key)] *)
Definition gs_open (name : str) : result (list (list (list (list N)))) :=
  if reachable B then
    match spreadsheets B !! name with
    | Some spreadsheet => Ok spreadsheet
    | None => Raised SpreadsheetNotFound
    end
  else Raised APIError.

(** Replace the first worksheet of spreadsheet [name]. *)
Definition put_sheet1 (name : str) (worksheet : list (list (list N))) : backend :=
  {| reachable := reachable B;
     spreadsheets :=
       <[name := worksheet :: drop 1 (default [] (spreadsheets B !! name))]> (spreadsheets B) |}.

End Gspread.

(** [spreadsheet.sheet1] *)
Definition sheet1 (spreadsheet : list (list (list (list N)))) : list (list (list N)) :=
  default [] (spreadsheet !! 0%nat).

(** [worksheet.row_values(1)] *)
Definition header_row (worksheet : list (list (list N))) : list (list N) :=
  default [] (worksheet !! 0%nat).

(** [worksheet.col_values(i + 1)] *)
Definition col_values (worksheet : list (list (list N))) (i : nat) : list (list N) :=
  (λ row, default [] (row !! i)) <$> worksheet.

(** [headers.index(name)] *)
Definition header_index (name : str) (headers : list (list N)) : option nat :=
  fst <$> list_find (λ h, h = name) headers.

(** A value as a cell. *)
Definition cell_of (v : value) : str := default [] v.

(** ** The record extractor *)

(** The cells of a listing row that both programs read the same way:
    [cells[i].text.strip()] and the link of the platform cell, which is a
    [KeyError] ([None] here) when the [a] tag has no [href]. *)
Section Cells.
Context (U : unicode_db).

Definition cell_value (cells : list cell) (i : nat) : str :=
  strip U (cell_text (cells !!! i)).

Definition platform_href (cells : list cell) : option str :=
  match cell_a (cells !!! 4%nat) with
  | Some platform_link => el_attrs platform_link !! "href"%string
  | None => Some []
  end.

End Cells.

Module Main.

(** The dataclass of [main.py]. *)
Record IFBProject := {
  row_number : str;
  project_name : str;
  company_name : str;
  national_id : str;
  platform_url : str;
  status : str;
  fund_collection_start_date : str;
  project_end_date : str;
  description : str;
  documents_url : str;
  scraped_date : str;
  ifb_project_id : option (list N);
  target_amount : option (list N);
  collected_amount : option (list N);
  progress_percentage : option (list N);
  expected_return : option (list N);
  project_duration : option (list N);
  capital_guarantee : option (list N);
  project_type : option (list N);
  project_symbol : option (list N);
  investor_count : option (list N);
  profit_payment_frequency : option (list N);
  start_date_on_platform : option (list N);
  platform_name : option (list N);
  financial_institution : option (list N);
  project_id_on_platform : option (list N);
  thumbnail_url : option (list N);
  applicant_name : option (list N)
}.

Section Extractor.
Context (U : unicode_db) (W : site).

(** The body of the [try] for one row with at least ten cells; [None]
    when it raises. *)
Definition row_body (cells : list cell) (d : driver)
    : option (IFBProject * list event * driver) :=
  platform_url ← platform_href cells;
  let '(ifb_id, description, modal_log) :=
    match handler_id U "showDesc" (cell_a (cells !!! 8%nat)) with
    | Some id =>
        let '(text, log) := _extract_description_from_modal U W id in
        (Some id, text, log)
    | None => (None, description_unavailable, [])
    end in
  let ifb_id :=
    if truthy ifb_id then ifb_id
    else
      match handler_id U "GoToDocuments" (cell_icon_folder (cells !!! 9%nat)) with
      | Some id => Some id
      | None => ifb_id
      end in
  let documents_url :=
    match ifb_id with
    | Some (c :: id) => IFB_MAIN_URL ++ lit "?doc_id=" ++ c :: id
    | _ => []
    end in
  let '(stamp, d) := read_clock W d in
  let project := {|
    row_number := cell_value U cells 0;
    project_name := cell_value U cells 1;
    company_name := cell_value U cells 2;
    national_id := cell_value U cells 3;
    platform_url := platform_url;
    status := cell_value U cells 5;
    fund_collection_start_date := cell_value U cells 6;
    project_end_date := cell_value U cells 7;
    description := description;
    documents_url := documents_url;
    scraped_date := stamp;
    ifb_project_id := ifb_id;
    target_amount := None; collected_amount := None;
    progress_percentage := None; expected_return := None;
    project_duration := None; capital_guarantee := None;
    project_type := None; project_symbol := None;
    investor_count := None; profit_payment_frequency := None;
    start_date_on_platform := None; platform_name := None;
    financial_institution := None; project_id_on_platform := None;
    thumbnail_url := None; applicant_name := None
  |} in
  Some (project,
        modal_log ++ [RowExtracted (row_number project) (project_name project) ifb_id],
        d).

(** One turn of [for row in rows[1:]]. *)
Definition extract_row (cells : list cell) (d : driver)
    : list IFBProject * list event * driver :=
  if decide (10 ≤ length cells)%nat then
    match row_body cells d with
    | Some (project, log, d) => ([project], log, d)
    | None => ([], [RowFailed], d)
    end
  else ([], [], d).

Fixpoint extract_rows (rows : list (list cell)) (d : driver)
    : list IFBProject * list event * driver :=
  match rows with
  | [] => ([], [], d)
  | cells :: rows =>
      let '(projects, log, d) := extract_row cells d in
      let '(projects', log', d) := extract_rows rows d in
      (projects ++ projects', log ++ log', d)
  end.

(** [IFBScraper._extract_current_page_projects] *)
Definition _extract_current_page_projects (d : driver)
    : list IFBProject * list event * driver :=
  match listing W (current_page d) with
  | None => ([], [TableNotFound], d)
  | Some rows => extract_rows (drop 1 rows) d
  end.

(** [IFBScraper.scrape_all_pages] *)
Definition scrape_all_pages (fuel : nat) (d : driver) : option (traversal IFBProject) :=
  Paginator.scrape_all_pages U fund_collection_start_date project_name
    (_navigate_to_page W) _extract_current_page_projects fuel d.

End Extractor.

(** [IFBProject.to_dict]: [asdict], in field order. *)
Definition to_dict (p : IFBProject) : dict :=
  [("row_number", Some (row_number p));
   ("project_name", Some (project_name p));
   ("company_name", Some (company_name p));
   ("national_id", Some (national_id p));
   ("platform_url", Some (platform_url p));
   ("status", Some (status p));
   ("fund_collection_start_date", Some (fund_collection_start_date p));
   ("project_end_date", Some (project_end_date p));
   ("description", Some (description p));
   ("documents_url", Some (documents_url p));
   ("scraped_date", Some (scraped_date p));
   ("ifb_project_id", ifb_project_id p);
   ("target_amount", target_amount p);
   ("collected_amount", collected_amount p);
   ("progress_percentage", progress_percentage p);
   ("expected_return", expected_return p);
   ("project_duration", project_duration p);
   ("capital_guarantee", capital_guarantee p);
   ("project_type", project_type p);
   ("project_symbol", project_symbol p);
   ("investor_count", investor_count p);
   ("profit_payment_frequency", profit_payment_frequency p);
   ("start_date_on_platform", start_date_on_platform p);
   ("platform_name", platform_name p);
   ("financial_institution", financial_institution p);
   ("project_id_on_platform", project_id_on_platform p);
   ("thumbnail_url", thumbnail_url p);
   ("applicant_name", applicant_name p)]%string.

(** The fields a record carries from the listing. *)
Definition listing_fields : list string :=
  ["row_number"; "project_name"; "company_name"; "national_id"; "platform_url";
   "status"; "fund_collection_start_date"; "project_end_date"; "description";
   "documents_url"; "scraped_date"; "ifb_project_id"]%string.

(** The host patterns of [PlatformDetailScraper.scrape], in order. *)
Definition host_table : list (string * adapter) :=
  [("hamafarin.ir", Hamafarin); ("fundocrowd.ir", Fundocrowd);
   ("karencrowd.com", Karencrowd); ("ifund.ir", Ifund); ("zeema.fund", Zeema)]%string.

Section Enrichment.
Context (U : unicode_db) (P : web).
(** [urlparse(url).netloc], which raises [ValueError] on some URLs. *)
Context (netloc : list N → result (list N)).

(** The [if]/[elif] chain of [PlatformDetailScraper.scrape]. *)
Definition adapter_for (domain : str) : adapter :=
  if contains (lit "hamafarin.ir") domain then Hamafarin
  else if contains (lit "fundocrowd.ir") domain then Fundocrowd
  else if contains (lit "karencrowd.com") domain then Karencrowd
  else if contains (lit "ifund.ir") domain then Ifund
  else if contains (lit "zeema.fund") domain then Zeema
  else Generic.

(** [PlatformDetailScraper._scrape_generic] *)
Definition _scrape_generic (platform_url : str) : dict :=
  match generic_text P platform_url with
  | None => []
  | Some page =>
      let d := generic_fields U page in
      match netloc platform_url with
      | Ok host => dict_set "platform_name" (Some host) d
      | Raised _ => d
      end
  end.

Definition run (a : adapter) (project : IFBProject) : dict :=
  match a with
  | Hamafarin => _scrape_hamafarin U P (project_name project) (platform_url project)
  | Fundocrowd => _scrape_fundocrowd U P (project_name project) (platform_url project)
  | Karencrowd => _scrape_karencrowd U P (project_name project) (platform_url project)
  | Ifund => _scrape_ifund U P (project_name project) (platform_url project)
  | Zeema => _scrape_zeema U P (project_name project) (platform_url project)
  | Generic => _scrape_generic (platform_url project)
  end.

(** The choice [PlatformDetailScraper.scrape] makes for a URL. *)
Definition select (platform_url : str) : result selection :=
  match platform_url with
  | [] => Ok Skipped
  | _ :: _ =>
      host ← netloc platform_url;
      Ok (Selected (adapter_for (str_lower U host)))
  end.

(** [PlatformDetailScraper.scrape] *)
Definition scrape (project : IFBProject) : result (dict * list event) :=
  match platform_url project with
  | [] => Ok ([], [])
  | _ :: _ =>
      host ← netloc (platform_url project);
      let domain := str_lower U host in
      Ok (run (adapter_for domain) project,
          [EnrichmentStarted domain (project_name project)])
  end.

(** One turn of the enrichment loop of [main]. *)
Definition enrich_one (idx total : nat) (proj : IFBProject) : result (dict * list event) :=
  '(details, log) ← scrape proj;
  let combined := dict_update (to_dict proj) details in
  Ok (combined,
      ProjectStarted idx total (project_name proj) :: log ++
      [FieldsExtracted (length details)]).

Fixpoint enrich_from (idx total : nat) (projects : list IFBProject)
    : result (list dict * list event) :=
  match projects with
  | [] => Ok ([], [])
  | proj :: rest =>
      '(combined, log) ← enrich_one idx total proj;
      '(enriched, log') ← enrich_from (S idx) total rest;
      Ok (combined :: enriched, log ++ log')
  end.

Definition enrich (projects : list IFBProject) : result (list dict * list event) :=
  enrich_from 1 (length projects) projects.

End Enrichment.

(** *** [GoogleSheetsHandler] *)

(** [GoogleSheetsHandler.get_existing_ids]; [client] is [None] when
    authentication failed. *)
Definition get_existing_ids (client : option backend) (sheet_name : str)
    (worksheet_index : nat) : gset (list N) * list event :=
  match client with
  | None => (∅, [])
  | Some B =>
      match gs_open B sheet_name with
      | Ok spreadsheet =>
          match spreadsheet !! worksheet_index with
          | None => (∅, [])
          | Some worksheet =>
              match header_index (lit "ifb_project_id") (header_row worksheet) with
              | Some i => (list_to_set (drop 1 (col_values worksheet i)), [])
              | None => (∅, [IdColumnMissing])
              end
          end
      | Raised SpreadsheetNotFound => (∅, [SheetMissing sheet_name])
      | Raised _ => (∅, [ReadFailed])
      end
  end.

(** [str(item.get(id_field, ''))] *)
Definition id_of (id_field : string) (item : dict) : str :=
  py_str (dict_get_or id_field (Some []) item).

(** One turn of [for item in data] on [(new_rows, log)]. *)
Definition new_rows_step (id_field : string) (existing_ids : gset (list N))
    (st : list (list (option (list N))) * list event) (item : dict)
    : list (list (option (list N))) * list event :=
  let '(new_rows, log) := st in
  let pid := id_of id_field item in
  match pid with
  | _ :: _ =>
      if decide (pid ∉ existing_ids) then (new_rows ++ [dict_values item], log)
      else (new_rows, log)
  | [] =>
      (new_rows,
       log ++ [RowWithoutId (py_str (dict_get_or "project_name" (Some []) item))])
  end.

Definition select_new_rows (id_field : string) (existing_ids : gset (list N))
    (data : list dict) : list (list (option (list N))) * list event :=
  foldl (new_rows_step id_field existing_ids) ([], []) data.

(** The [try] at the head of [append_new_rows]: open the spreadsheet,
    or create it and write the header when it is not found. *)
Definition open_or_create (B : backend) (sheet_name : str) (data : list dict)
    : result (backend * list event) :=
  match gs_open B sheet_name with
  | Ok _ => Ok (B, [])
  | Raised SpreadsheetNotFound =>
      match data with
      | first :: _ =>
          Ok (put_sheet1 B sheet_name [lit <$> dict_keys first],
              [SheetMissing sheet_name; HeaderWritten])
      | [] => Ok (put_sheet1 B sheet_name [], [SheetMissing sheet_name])
      end
  | Raised e => Raised e
  end.

(** [GoogleSheetsHandler.append_new_rows]: the value returned, the
    backend afterwards and the log. *)
Definition append_new_rows (client : option backend) (sheet_name : str)
    (data : list dict) (id_field : string) : result (bool * option backend * list event) :=
  match client with
  | None => Ok (false, None, [ClientUnavailable])
  | Some B =>
      match open_or_create B sheet_name data with
      | Raised e => Raised e
      | Ok (B, log0) =>
          let '(existing_ids, log1) := get_existing_ids (Some B) sheet_name 0 in
          let '(new_rows, log2) := select_new_rows id_field existing_ids data in
          let log := log0 ++ log1 ++ [ExistingCount (size existing_ids)] ++ log2 in
          match new_rows with
          | _ :: _ =>
              let worksheet := sheet1 (default [] (spreadsheets B !! sheet_name)) in
              Ok (true,
                  Some (put_sheet1 B sheet_name (worksheet ++ (map (map cell_of) new_rows))),
                  log ++ [RowsAppended (length new_rows)])
          | [] => Ok (true, Some B, log ++ [NothingToAppend])
          end
      end
  end.

End Main.

Module V7.

(** The dataclass of [v7.py]. *)
Record IFBProject := {
  row_number : str;
  project_name : str;
  company_name : str;
  national_id : str;
  platform_url : str;
  status : str;
  fund_collection_start_date : str;
  project_end_date : str;
  description : str;
  documents_url : str;
  scraped_date : str;
  target_amount : option (list N);
  collected_amount : option (list N);
  progress_percentage : option (list N);
  expected_return : option (list N);
  project_duration : option (list N);
  capital_guarantee : option (list N);
  project_type : option (list N);
  project_symbol : option (list N);
  investor_count : option (list N);
  profit_payment_frequency : option (list N);
  start_date_on_platform : option (list N);
  platform_name : option (list N);
  financial_institution : option (list N);
  project_id_on_platform : option (list N);
  thumbnail_url : option (list N);
  applicant_name : option (list N)
}.

Section Extractor.
Context (U : unicode_db) (W : site).

Definition row_body (cells : list cell) (d : driver)
    : option (IFBProject * list event * driver) :=
  platform_url ← platform_href cells;
  let '(description, modal_log) :=
    match handler_id U "showDesc" (cell_a (cells !!! 8%nat)) with
    | Some desc_id => _extract_description_from_modal U W desc_id
    | None => (description_unavailable, [])
    end in
  let documents_url :=
    match handler_id U "GoToDocuments" (cell_icon_folder (cells !!! 9%nat)) with
    | Some doc_id => IFB_MAIN_URL ++ lit "?doc_id=" ++ doc_id
    | None => []
    end in
  let '(stamp, d) := read_clock W d in
  let project := {|
    row_number := cell_value U cells 0;
    project_name := cell_value U cells 1;
    company_name := cell_value U cells 2;
    national_id := cell_value U cells 3;
    platform_url := platform_url;
    status := cell_value U cells 5;
    fund_collection_start_date := cell_value U cells 6;
    project_end_date := cell_value U cells 7;
    description := description;
    documents_url := documents_url;
    scraped_date := stamp;
    target_amount := None; collected_amount := None;
    progress_percentage := None; expected_return := None;
    project_duration := None; capital_guarantee := None;
    project_type := None; project_symbol := None;
    investor_count := None; profit_payment_frequency := None;
    start_date_on_platform := None; platform_name := None;
    financial_institution := None; project_id_on_platform := None;
    thumbnail_url := None; applicant_name := None
  |} in
  Some (project,
        modal_log ++ [RowExtractedDated (row_number project) (project_name project)
                        (fund_collection_start_date project)],
        d).

Definition extract_row (cells : list cell) (d : driver)
    : list IFBProject * list event * driver :=
  if decide (10 ≤ length cells)%nat then
    match row_body cells d with
    | Some (project, log, d) => ([project], log, d)
    | None => ([], [RowFailed], d)
    end
  else ([], [], d).

Fixpoint extract_rows (rows : list (list cell)) (d : driver)
    : list IFBProject * list event * driver :=
  match rows with
  | [] => ([], [], d)
  | cells :: rows =>
      let '(projects, log, d) := extract_row cells d in
      let '(projects', log', d) := extract_rows rows d in
      (projects ++ projects', log ++ log', d)
  end.

(** [IFBScraper._extract_current_page_projects] *)
Definition _extract_current_page_projects (d : driver)
    : list IFBProject * list event * driver :=
  match listing W (current_page d) with
  | None => ([], [TableNotFound], d)
  | Some rows => extract_rows (drop 1 rows) d
  end.

(** [IFBScraper.scrape_all_pages] *)
Definition scrape_all_pages (fuel : nat) (d : driver) : option (traversal IFBProject) :=
  Paginator.scrape_all_pages U fund_collection_start_date project_name
    (_navigate_to_page W) _extract_current_page_projects fuel d.

End Extractor.

(** [IFBProject.to_dict]: [asdict], in field order. *)
Definition to_dict (p : IFBProject) : dict :=
  [("row_number", Some (row_number p));
   ("project_name", Some (project_name p));
   ("company_name", Some (company_name p));
   ("national_id", Some (national_id p));
   ("platform_url", Some (platform_url p));
   ("status", Some (status p));
   ("fund_collection_start_date", Some (fund_collection_start_date p));
   ("project_end_date", Some (project_end_date p));
   ("description", Some (description p));
   ("documents_url", Some (documents_url p));
   ("scraped_date", Some (scraped_date p));
   ("target_amount", target_amount p);
   ("collected_amount", collected_amount p);
   ("progress_percentage", progress_percentage p);
   ("expected_return", expected_return p);
   ("project_duration", project_duration p);
   ("capital_guarantee", capital_guarantee p);
   ("project_type", project_type p);
   ("project_symbol", project_symbol p);
   ("investor_count", investor_count p);
   ("profit_payment_frequency", profit_payment_frequency p);
   ("start_date_on_platform", start_date_on_platform p);
   ("platform_name", platform_name p);
   ("financial_institution", financial_institution p);
   ("project_id_on_platform", project_id_on_platform p);
   ("thumbnail_url", thumbnail_url p);
   ("applicant_name", applicant_name p)]%string.

(** The fields a record carries from the listing. *)
Definition listing_fields : list string :=
  ["row_number"; "project_name"; "company_name"; "national_id"; "platform_url";
   "status"; "fund_collection_start_date"; "project_end_date"; "description";
   "documents_url"; "scraped_date"]%string.

(** The patterns of [_scrape_single_platform], in order. *)
Definition host_table : list (string * adapter) :=
  [("hamafarin.ir", Hamafarin); ("fundocrowd.ir", Fundocrowd);
   ("karencrowd.com", Karencrowd)]%string.

Section Enrichment.
Context (U : unicode_db) (P : web).

(** The [if]/[elif] chain of [_scrape_single_platform]. *)
Definition adapter_for (domain : str) : adapter :=
  if contains (lit "hamafarin.ir") domain then Hamafarin
  else if contains (lit "fundocrowd.ir") domain then Fundocrowd
  else if contains (lit "karencrowd.com") domain then Karencrowd
  else Generic.

(** [IFBScraper._scrape_generic] *)
Definition _scrape_generic (platform_url : str) : dict :=
  match generic_text P platform_url with
  | None => []
  | Some page => generic_fields U page
  end.

Definition run (a : adapter) (project : IFBProject) : dict :=
  match a with
  | Hamafarin => _scrape_hamafarin U P (project_name project) (platform_url project)
  | Fundocrowd => _scrape_fundocrowd U P (project_name project) (platform_url project)
  | Karencrowd => _scrape_karencrowd U P (project_name project) (platform_url project)
  | _ => _scrape_generic (platform_url project)
  end.

(** The choice [_scrape_single_platform] makes for a URL. *)
Definition select (url : str) : selection :=
  match url with
  | [] => Skipped
  | _ :: _ => Selected (adapter_for (str_lower U url))
  end.

(** [IFBScraper._scrape_single_platform] *)
Definition _scrape_single_platform (project : IFBProject) : dict :=
  match platform_url project with
  | [] => []
  | _ :: _ => run (adapter_for (str_lower U (platform_url project))) project
  end.

(** One turn of the loop of [enrich_projects_with_platform_details]. *)
Definition enrich_one (idx total : nat) (project : IFBProject) : dict * list event :=
  let combined := to_dict project in
  let details := _scrape_single_platform project in
  (dict_update combined details,
   [ProjectStarted idx total (project_name project); FieldsExtracted (length details)]).

Fixpoint enrich_from (idx total : nat) (projects : list IFBProject)
    : list dict * list event :=
  match projects with
  | [] => ([], [])
  | project :: rest =>
      let '(combined, log) := enrich_one idx total project in
      let '(enriched, log') := enrich_from (S idx) total rest in
      (combined :: enriched, log ++ log')
  end.

(** [IFBScraper.enrich_projects_with_platform_details] *)
Definition enrich_projects_with_platform_details (projects : list IFBProject)
    : list dict * list event :=
  enrich_from 1 (length projects) projects.

End Enrichment.

End V7.

(** ** [deduplicate.py] *)

Module Dedup.

(** [filter_new_projects] *)
Fixpoint filter_new_projects (projects : list dict) (existing_links : gset (option (list N)))
    : list dict :=
  match projects with
  | [] => []
  | p :: rest =>
      if decide (dict_get "detail_url" p ∉ existing_links)
      then p :: filter_new_projects rest existing_links
      else filter_new_projects rest existing_links
  end.

Section Digest.
(** [hashlib.sha256(raw.encode("utf-8")).hexdigest()] *)
Context (sha256_hex : list N → list N).

(** [build_unique_key] *)
Definition build_unique_key (row : dict) : result str :=
  project_name ← dict_item "project_name" row;
  company_name ← dict_item "company_name" row;
  start_date ← dict_item "fund_collection_start_date" row;
  Ok (sha256_hex (py_str project_name ++ lit "-" ++ py_str company_name ++ lit "-" ++
                  py_str start_date)).

(** [attach_unique_keys] *)
Fixpoint attach_unique_keys (rows : list dict) : result (list dict) :=
  match rows with
  | [] => Ok []
  | row :: rest =>
      key ← build_unique_key row;
      rest' ← attach_unique_keys rest;
      Ok (dict_set "unique_key" (Some key) row :: rest')
  end.

End Digest.

(** [filter_new_rows] *)
Fixpoint filter_new_rows (rows : list dict) (existing_keys : gset (option (list N)))
    : result (list dict) :=
  match rows with
  | [] => Ok []
  | row :: rest =>
      key ← dict_item "unique_key" row;
      kept ← filter_new_rows rest existing_keys;
      Ok (if decide (key ∉ existing_keys) then row :: kept else kept)
  end.

End Dedup.

(** ** [sheets.py] *)

Module Sheets.

Record GoogleSheetsRepository := {
  spreadsheet_id : str;
  client : backend;
  sheet : list (list (list N))
}.

Section Repository.
(** [os.environ] and the chain [json.loads],
    [Credentials.from_service_account_info], [gspread.authorize]. *)
Context (environ : gmap string (list N)) (authorize : list N → result backend).

(** [GoogleSheetsRepository._build_client] *)
Definition _build_client : result backend :=
  match environ !! "GOOGLE_SERVICE_ACCOUNT_JSON"%string with
  | Some creds_json => authorize creds_json
  | None => Raised (KeyError "GOOGLE_SERVICE_ACCOUNT_JSON")
  end.

(** [GoogleSheetsRepository.__init__] *)
Definition init (spreadsheet_id : str) : result GoogleSheetsRepository :=
  client ← _build_client;
  spreadsheet ← gs_open client spreadsheet_id;
  Ok {| spreadsheet_id := spreadsheet_id; client := client; sheet := sheet1 spreadsheet |}.

End Repository.

(** The truthy values of column [name] in the records of a worksheet:
    [{row[name] for row in sheet.get_all_records() if row.get(name)}]. *)
Definition column_set (name : str) (worksheet : list (list (list N)))
    : gset (option (list N)) :=
  match header_index name (header_row worksheet) with
  | Some i => list_to_set (Some <$> List.filter (λ c, bool_decide (c ≠ []))
                                      (drop 1 (col_values worksheet i)))
  | None => ∅
  end.

(** [GoogleSheetsRepository.fetch_existing_links] *)
Definition fetch_existing_links (repo : GoogleSheetsRepository)
    : result (gset (option (list N))) :=
  if reachable (client repo) then Ok (column_set (lit "detail_url") (sheet repo))
  else Raised APIError.

(** [GoogleSheetsRepository.fetch_existing_keys] *)
Definition fetch_existing_keys (repo : GoogleSheetsRepository)
    : result (gset (option (list N))) :=
  if reachable (client repo) then Ok (column_set (lit "unique_key") (sheet repo))
  else Raised APIError.

(** Reading the existing keys at the start of the merge step: build the
    repository, then fetch. *)
Definition existing_keys_of_run (environ : gmap string (list N))
    (authorize : list N → result backend) (spreadsheet_id : str)
    : result (gset (option (list N))) :=
  repo ← init environ authorize spreadsheet_id;
  fetch_existing_keys repo.

End Sheets.

(** ** Notions used in the statements *)

(** Four consecutive decimal digits start at offset [i] of [s]. *)
Definition four_digits_at (U : unicode_db) (s : str) (i : nat) : Prop :=
  length (take 4 (drop i s)) = 4%nat ∧
  Forall (λ c, is_digit U c = true) (take 4 (drop i s)).

(** The keys the adapters write. *)
Definition platform_keys : list string :=
  ["title_on_platform"; "project_id_on_platform"; "thumbnail_url";
   "financial_institution"; "applicant_name"; "status_on_platform";
   "progress_percentage"; "target_amount"; "expected_return"; "project_duration";
   "capital_guarantee"; "project_type"; "project_symbol"; "start_date_on_platform";
   "investor_count"; "profit_payment_frequency"; "progress_width"; "details_page_url";
   "collected_amount"; "platform_name"]%string.

(** All keys of [d] are among [keys]. *)
Definition keys_within (keys : list string) (d : dict) : Prop :=
  Forall (λ kv, kv.1 ∈ keys) d.

(** A card has a title element that passes the test of its adapter. *)
Definition passes {card : Type} (title_of : card → option element) (test : element → bool)
    (c : card) : Prop :=
  ∃ e, title_of c = Some e ∧ test e = true.

(** ** Sample inputs *)

Module Sample.

Definition text_cell (s : string) : cell :=
  {| cell_text := lit s; cell_a := None; cell_icon_folder := None |}.

Definition link_cell (href : string) : cell :=
  {| cell_text := lit "visit";
     cell_a := Some {| el_text := lit "visit"; el_attrs := {[ "href"%string := lit href ]} |};
     cell_icon_folder := None |}.

(** A cell without text or tags. *)
Definition empty_cell : cell :=
  {| cell_text := []; cell_a := None; cell_icon_folder := None |}.

(** A link without [href]. *)
Definition bare_link_cell : cell :=
  {| cell_text := lit "visit";
     cell_a := Some {| el_text := lit "visit"; el_attrs := ∅ |};
     cell_icon_folder := None |}.

Definition row (number name date href : string) : list cell :=
  [text_cell number; text_cell name; text_cell "Org"; text_cell "10101";
   link_cell href; text_cell "open"; text_cell date; text_cell "1405/01/01";
   empty_cell; empty_cell].

(** A data row with nine cells. *)
Definition short_row : list cell :=
  [text_cell "7"; text_cell "Short"; text_cell "Org"; text_cell "10101";
   link_cell "https://hamafarin.ir/p/7"; text_cell "open"; text_cell "1404/01/01";
   text_cell "1405/01/01"; empty_cell].

(** A data row whose platform link has no [href]. *)
Definition broken_row : list cell :=
  [text_cell "8"; text_cell "Broken"; text_cell "Org"; text_cell "10101";
   bare_link_cell; text_cell "open"; text_cell "1404/01/01"; text_cell "1405/01/01";
   empty_cell; empty_cell].

Definition header : list cell := [].

Definition stamp : str := lit "2026/01/01 00:00:00".

(** The feed of the end-to-end scenario: three rows of 1404 on page 1,
    two rows of 1404 and one of 1403 on page 2. *)
Definition feed : site := {|
  postback := λ _, true;
  listing := λ n,
    match n with
    | 1%nat => Some [header;
                 row "1" "A" "1404/05/01" "https://hamafarin.ir/a";
                 row "2" "B" "1404/04/01" "https://hamafarin.ir/b";
                 row "3" "C" "1404/03/01" "https://hamafarin.ir/c"]
    | 2%nat => Some [header;
                 row "4" "D" "1404/02/01" "https://hamafarin.ir/d";
                 row "5" "E" "1403/12/20" "https://hamafarin.ir/e";
                 row "6" "F" "1404/01/05" "https://hamafarin.ir/f"]
    | _ => None
    end;
  show_desc := λ _, None;
  now := λ _, stamp
|}.

(** A feed whose every page holds one row of 1404, and whose second page
    cannot be reached. *)
Definition stuck_feed : site := {|
  postback := λ _, false;
  listing := λ _, Some [header; row "1" "A" "1404/05/01" "https://hamafarin.ir/a"];
  show_desc := λ _, None;
  now := λ _, stamp
|}.

Definition fresh : driver := {| current_page := 0; clock := 0 |}.

(** ASCII letters, and the characters of a URL scheme. *)
Definition is_letter (c : N) : bool :=
  (97 <=? c) && (c <=? 122) || (65 <=? c) && (c <=? 90).

Definition is_scheme_char (c : N) : bool :=
  is_letter c || (48 <=? c) && (c <=? 57) || (c =? 43) || (c =? 45) || (c =? 46).

(** What follows the scheme and its colon, when the URL has a scheme. *)
Fixpoint after_scheme (seen : bool) (url : str) : option str :=
  match url with
  | [] => None
  | c :: rest =>
      if c =? 58 then (if seen then Some rest else None)
      else if (if seen then is_scheme_char c else is_letter c) then after_scheme true rest
      else None
  end.

(** The text up to the next [/], [?] or [#]. *)
Fixpoint until_delimiter (s : str) : str :=
  match s with
  | [] => []
  | c :: rest => if (c =? 47) || (c =? 63) || (c =? 35) then [] else c :: until_delimiter rest
  end.

(** [urlparse(url).netloc] on the URLs of the examples: the scheme is
    split off at the first colon when it starts with a letter and is made
    of scheme characters, the host runs from [//] to the next [/], [?] or
    [#], and a host with one bracket but not the other is a
    [ValueError]. *)
Definition netloc (url : str) : result str :=
  let rest := default url (after_scheme false url) in
  if starts_with (lit "//") rest then
    let host := until_delimiter (drop 2 rest) in
    if xorb (contains (lit "[") host) (contains (lit "]") host)
    then Raised ValueError
    else Ok host
  else Ok [].

Definition tag (text : string) : element := {| el_text := lit text; el_attrs := ∅ |}.

Definition zeema_titled (title : string) : zeema_card := {|
  z_title := Some (tag title); z_img := None; z_company := None; z_req_divs := [];
  z_duration := None; z_fin := None; z_guar := None; z_collected := None;
  z_progress := None; z_investors := None
|}.

Definition hamafarin_titled (title : string) : hamafarin_card := {|
  h_title := Some (tag title); h_plan_link := None; h_img := None; h_fin := None;
  h_exec := None; h_bottom := None
|}.

(** Destination pages: every hamafarin page shows the cards "Alpha
    Project" and "Alpha Project Extended", every zeema page the card
    "Alpha"; the other sites fail to load. *)
Definition pages : web := {|
  hamafarin_cards := λ _,
    Some [hamafarin_titled "Alpha Project"; hamafarin_titled "Alpha Project Extended"];
  fundocrowd_cards := λ _, None;
  fundocrowd_payment := λ _, None;
  karencrowd_cards := λ _, None;
  ifund_cards := λ _, None;
  zeema_cards := λ _, Some [zeema_titled "Alpha"];
  generic_text := λ _, None
|}.

(** Every hamafarin page shows the one card "Alpha". *)
Definition short_title_pages : web := {|
  hamafarin_cards := λ _, Some [hamafarin_titled "Alpha"];
  fundocrowd_cards := λ _, None;
  fundocrowd_payment := λ _, None;
  karencrowd_cards := λ _, None;
  ifund_cards := λ _, None;
  zeema_cards := λ _, Some [zeema_titled "Alpha"];
  generic_text := λ _, None
|}.

(** A candidate of the merge step with its identity key under [field]. *)
Definition candidate (field : string) (key name : string) : dict :=
  [("project_name"%string, Some (lit name)); (field, Some (lit key))].

(** A candidate without any key field. *)
Definition unkeyed : dict := [("status"%string, Some (lit "open"))].

Definition existing : gset (option (list N)) := {[ Some (lit "k1"); Some (lit "k2") ]}.

(** An environment with credentials, and a reachable backend without
    any spreadsheet. *)
Definition environ : gmap string (list N) :=
  {[ "GOOGLE_SERVICE_ACCOUNT_JSON"%string := lit "{}" ]}.

Definition empty_backend : backend := {| reachable := true; spreadsheets := ∅ |}.

(** A record of the listing with the given start date. *)
Definition dated (start : string) : Main.IFBProject := {|
  Main.row_number := lit "1"; Main.project_name := lit "Alpha Project";
  Main.company_name := lit "Org"; Main.national_id := lit "10101";
  Main.platform_url := lit "https://hamafarin.ir/businessplans";
  Main.status := lit "open"; Main.fund_collection_start_date := lit start;
  Main.project_end_date := lit "1405/01/01"; Main.description := description_unavailable;
  Main.documents_url := []; Main.scraped_date := stamp; Main.ifb_project_id := None;
  Main.target_amount := None; Main.collected_amount := None;
  Main.progress_percentage := None; Main.expected_return := None;
  Main.project_duration := None; Main.capital_guarantee := None;
  Main.project_type := None; Main.project_symbol := None;
  Main.investor_count := None; Main.profit_payment_frequency := None;
  Main.start_date_on_platform := None; Main.platform_name := None;
  Main.financial_institution := None; Main.project_id_on_platform := None;
  Main.thumbnail_url := None; Main.applicant_name := None
|}.

(** The record "Alpha Project" of the listing, as [main.py] and as
    [v7.py] hold it. *)
Definition alpha : Main.IFBProject := dated "1404/05/01".

Definition alpha7 : V7.IFBProject := {|
  V7.row_number := lit "1"; V7.project_name := lit "Alpha Project";
  V7.company_name := lit "Org"; V7.national_id := lit "10101";
  V7.platform_url := lit "https://hamafarin.ir/businessplans";
  V7.status := lit "open"; V7.fund_collection_start_date := lit "1404/05/01";
  V7.project_end_date := lit "1405/01/01"; V7.description := description_unavailable;
  V7.documents_url := []; V7.scraped_date := stamp;
  V7.target_amount := None; V7.collected_amount := None;
  V7.progress_percentage := None; V7.expected_return := None;
  V7.project_duration := None; V7.capital_guarantee := None;
  V7.project_type := None; V7.project_symbol := None;
  V7.investor_count := None; V7.profit_payment_frequency := None;
  V7.start_date_on_platform := None; V7.platform_name := None;
  V7.financial_institution := None; V7.project_id_on_platform := None;
  V7.thumbnail_url := None; V7.applicant_name := None
|}.

End Sample.

(** ** Notions used in the further statements *)

(** [s] does not start with white space. *)
Definition no_leading_space (U : unicode_db) (s : str) : Prop :=
  match s with
  | c :: _ => is_space U c = false
  | [] => True
  end.

(** [s] neither starts nor ends with white space. *)
Definition trimmed (U : unicode_db) (s : str) : Prop :=
  no_leading_space U s ∧ no_leading_space U (reverse s).

(** [s] is a non-empty run of decimal digits. *)
Definition digit_string (U : unicode_db) (s : str) : Prop :=
  s ≠ [] ∧ Forall (λ c, is_digit U c = true) s.

(** The rows wide enough to be read as data rows. *)
Definition wide_rows (rows : list (list cell)) : list (list cell) :=
  List.filter (λ cells, bool_decide (10 ≤ length cells)%nat) rows.

(** The number of row failures in a log. *)
Definition row_failures (log : list event) : nat :=
  length (List.filter (λ e, match e with RowFailed => true | _ => false end) log).

(** What [_scrape_fundocrowd] returns for the card it matched: the fields
    of the card, updated from the details page when the expected return or
    the duration is missing or empty. *)
Definition fundocrowd_details_of (U : unicode_db) (P : web) (card : fundocrowd_card) : dict :=
  let details := _extract_fundocrowd_card U card in
  if negb (truthy (dict_get "expected_return" details))
     || negb (truthy (dict_get "project_duration" details))
  then dict_update details (_scrape_fundocrowd_details U P card)
  else details.

(** The keys an adapter may add to a record dictionary: the platform keys
    that are not fields of the dataclass. *)
Definition added_keys : list string :=
  ["title_on_platform"; "status_on_platform"; "progress_width"; "details_page_url"]%string.

(** No key occurs twice. *)
Definition well_keyed (d : dict) : Prop := NoDup (dict_keys d).

(** The keys [_extract_fundocrowd_card] writes. *)
Definition fundocrowd_card_keys : list string :=
  ["title_on_platform"; "thumbnail_url"; "applicant_name"; "target_amount";
   "progress_percentage"; "progress_width"; "project_duration"; "expected_return";
   "details_page_url"]%string.

(** The text [build_unique_key] hashes for the three field values. *)
Definition key_text (project_name company_name start_date : value) : str :=
  py_str project_name ++ lit "-" ++ py_str company_name ++ lit "-" ++ py_str start_date.

(** A row has the three fields of the content key. *)
Definition has_key_fields (row : dict) : Prop :=
  is_Some (dict_lookup "project_name" row) ∧
  is_Some (dict_lookup "company_name" row) ∧
  is_Some (dict_lookup "fund_collection_start_date" row).

(** ** Further sample inputs *)

Module Cases.

(** The cell with the details control of record 123, and the cell with
    the documents control of record 456. *)
Definition details_cell : cell :=
  {| cell_text := lit "details";
     cell_a := Some {| el_text := lit "details";
                       el_attrs := {[ "onclick"%string := lit "showDesc('123')" ]} |};
     cell_icon_folder := None |}.

Definition documents_cell : cell :=
  {| cell_text := [];
     cell_a := None;
     cell_icon_folder :=
       Some {| el_text := []; el_attrs := {[ "onclick"%string := lit "GoToDocuments('456')" ]} |} |}.

(** A data row with both controls, whose texts carry white space. *)
Definition handled_row : list cell :=
  [Sample.text_cell " 9 "; Sample.text_cell "  Beta Project"; Sample.text_cell "Org  ";
   Sample.text_cell "10101"; Sample.link_cell "https://hamafarin.ir/beta";
   Sample.text_cell " open "; Sample.text_cell " 1404/02/01"; Sample.text_cell "1405/01/01 ";
   details_cell; documents_cell].

(** The same row with the documents control alone. *)
Definition filed_row : list cell :=
  [Sample.text_cell " 9 "; Sample.text_cell "  Beta Project"; Sample.text_cell "Org  ";
   Sample.text_cell "10101"; Sample.link_cell "https://hamafarin.ir/beta";
   Sample.text_cell " open "; Sample.text_cell " 1404/02/01"; Sample.text_cell "1405/01/01 ";
   Sample.empty_cell; documents_cell].

(** A source site whose modal shows a message for every record. *)
Definition archive : site := {|
  postback := λ _, true;
  listing := λ n,
    match n with
    | 1%nat => Some [Sample.header; handled_row; Sample.short_row; Sample.broken_row]
    | _ => None
    end;
  show_desc := λ _, Some {| js_message := lit " A plan. "; soup_message := None |};
  now := λ _, Sample.stamp
|}.

(** A source site every page of which loads and holds one row of 1404. *)
Definition endless_feed : site := {|
  postback := λ _, true;
  listing := λ _,
    Some [Sample.header; Sample.row "1" "A" "1404/05/01" "https://hamafarin.ir/a"];
  show_desc := λ _, None;
  now := λ _, Sample.stamp
|}.

Definition fundocrowd_titled (title : string) : fundocrowd_card := {|
  f_title := Some (Sample.tag title); f_img := None; f_company := None;
  f_target_spans := None; f_progress_bar := None; f_duration_cols := None;
  f_detail_link := None
|}.

(** A fundocrowd card that shows its duration and its return, and links
    to its details page. *)
Definition fundocrowd_complete : fundocrowd_card := {|
  f_title := Some (Sample.tag "Alpha Project"); f_img := None; f_company := None;
  f_target_spans := None; f_progress_bar := None;
  f_duration_cols := Some [Some (Sample.tag "12"); Some (Sample.tag "40%")];
  f_detail_link :=
    Some {| el_text := lit "more"; el_attrs := {[ "href"%string := lit "/companyDetail/5" ]} |}
|}.

Definition karencrowd_titled (title : string) : karencrowd_card := {|
  k_title := Some (Sample.tag title); k_plan_link := None; k_img := None;
  k_grid_cols := None
|}.

Definition ifund_titled (title : string) : ifund_card := {|
  i_title := Some (Sample.tag title); i_profit_span := None; i_symbol_a := None;
  i_amount_divs := []; i_items := []
|}.

(** The text of a page of an unlisted platform: the second pattern of the
    target amount matches, the first of the return, none of the duration. *)
Definition plan_page : generic_page := {|
  g_target_amount := [None; Some (lit "500"); None];
  g_expected_return := [Some (lit "40"); None; None];
  g_project_duration := [None; None];
  g_investor_count := [None; None];
  g_company := [Some (lit " Org "); None]
|}.

(** Destination pages that show, on every site, a card "Gamma" before
    the card "Alpha Project". *)
Definition market : web := {|
  hamafarin_cards := λ _,
    Some [Sample.hamafarin_titled "Gamma"; Sample.hamafarin_titled "Alpha Project"];
  fundocrowd_cards := λ _, Some [fundocrowd_titled "Gamma"; fundocrowd_titled "Alpha Project"];
  fundocrowd_payment := λ _, Some (Some (Sample.tag " monthly "));
  karencrowd_cards := λ _, Some [karencrowd_titled "Gamma"; karencrowd_titled "Alpha Project"];
  ifund_cards := λ _, Some [ifund_titled "Gamma"; ifund_titled "Alpha Project"];
  zeema_cards := λ _, Some [Sample.zeema_titled "Gamma"; Sample.zeema_titled "Alpha Project"];
  generic_text := λ _, Some plan_page
|}.

(** Destination pages whose first card, on every site, has a title of
    white space only. *)
Definition blank_market : web := {|
  hamafarin_cards := λ _,
    Some [Sample.hamafarin_titled "  "; Sample.hamafarin_titled "Alpha Project"];
  fundocrowd_cards := λ _, Some [fundocrowd_titled "  "; fundocrowd_titled "Alpha Project"];
  fundocrowd_payment := λ _, None;
  karencrowd_cards := λ _, Some [karencrowd_titled "  "; karencrowd_titled "Alpha Project"];
  ifund_cards := λ _, Some [ifund_titled "  "; ifund_titled "Alpha Project"];
  zeema_cards := λ _, Some [Sample.zeema_titled "  "; Sample.zeema_titled "Alpha Project"];
  generic_text := λ _, None
|}.

(** The record "Alpha Project" with another platform URL. *)
Definition relocated (url : string) : Main.IFBProject := {|
  Main.row_number := lit "1"; Main.project_name := lit "Alpha Project";
  Main.company_name := lit "Org"; Main.national_id := lit "10101";
  Main.platform_url := lit url;
  Main.status := lit "open"; Main.fund_collection_start_date := lit "1404/05/01";
  Main.project_end_date := lit "1405/01/01"; Main.description := description_unavailable;
  Main.documents_url := []; Main.scraped_date := Sample.stamp; Main.ifb_project_id := None;
  Main.target_amount := None; Main.collected_amount := None;
  Main.progress_percentage := None; Main.expected_return := None;
  Main.project_duration := None; Main.capital_guarantee := None;
  Main.project_type := None; Main.project_symbol := None;
  Main.investor_count := None; Main.profit_payment_frequency := None;
  Main.start_date_on_platform := None; Main.platform_name := None;
  Main.financial_institution := None; Main.project_id_on_platform := None;
  Main.thumbnail_url := None; Main.applicant_name := None
|}.

(** A record whose platform URL has an opening bracket in its host and
    no closing one. *)
Definition malformed : Main.IFBProject := relocated "https://[hamafarin.ir/x".

(** A row of the merge step with the three fields of the content key. *)
Definition keyed_row (name company start : string) : dict :=
  [("project_name"%string, Some (lit name)); ("company_name"%string, Some (lit company));
   ("fund_collection_start_date"%string, Some (lit start))].

(** A stand-in for the digest, which the statements leave open. *)
Definition digest (text : list N) : list N := reverse text.

(** A repository whose sheet holds two links and a row without one. *)
Definition ledger : Sheets.GoogleSheetsRepository := {|
  Sheets.spreadsheet_id := lit "sheet-1";
  Sheets.client := Sample.empty_backend;
  Sheets.sheet := [[lit "project_name"; lit "detail_url"];
                   [lit "A"; lit "https://ifb.ir/a"];
                   [lit "B"; []];
                   [lit "C"; lit "https://ifb.ir/c"]]
|}.

(** An item of [append_new_rows] with the given identifier. *)
Definition item (id name : string) : dict :=
  [("project_name"%string, Some (lit name)); ("ifb_project_id"%string, Some (lit id))].

(** A backend whose spreadsheet "plans" lists the identifier 11. *)
Definition stocked_backend : backend := {|
  reachable := true;
  spreadsheets := {[ lit "plans" := [[[lit "project_name"; lit "ifb_project_id"];
                                      [lit "A"; lit "11"]]] ]}
|}.

End Cases.

(** * Properties *)

(** ** Year classification *)

Section YearFacts.
Context (U : unicode_db).

Lemma match_digits_Some n s y :
  match_digits U n s = Some y ↔
  y = take n s ∧ length y = n ∧ Forall (λ c, is_digit U c = true) y.
Proof.
  revert s y. induction n as [|n IH]; intros s y; simpl.
  - split.
    + intros [= <-]. rewrite take_0. auto.
    + intros (-> & _ & _). by rewrite take_0.
  - destruct s as [|c s]; simpl.
    + split; [done|]. intros (-> & Hlen & _). done.
    + destruct (is_digit U c) eqn:Hc.
      * destruct (match_digits U n s) as [y'|] eqn:Hm; simpl.
        -- apply IH in Hm as (-> & Hlen & Hall). split.
           ++ intros [= <-]. simpl. rewrite Hlen. auto.
           ++ by intros (-> & _ & _).
        -- split; [done|]. intros (-> & Hlen & Hall).
           assert (match_digits U n s = Some (take n s)) as Heq; [|congruence].
           apply IH. simpl in Hlen. inversion Hall; subst. auto.
      * split; [done|]. intros (-> & _ & Hall). inversion Hall; congruence.
Qed.

Lemma match_digits_four s :
  (∃ y, match_digits U 4 s = Some y) ↔ four_digits_at U s 0.
Proof.
  unfold four_digits_at. rewrite drop_0. split.
  - intros [y (-> & ? & ?)%match_digits_Some]. auto.
  - intros [? ?]. exists (take 4 s). apply match_digits_Some. auto.
Qed.

Lemma four_digits_at_cons c s i :
  four_digits_at U (c :: s) (S i) ↔ four_digits_at U s i.
Proof. reflexivity. Qed.

Lemma search_year_Some s y :
  search_year U s = Some y ↔
  ∃ i, four_digits_at U s i ∧ y = take 4 (drop i s) ∧
       ∀ j, (j < i)%nat → ¬ four_digits_at U s j.
Proof.
  revert y. induction s as [|c s IH]; intros y.
  - simpl. split; [done|]. intros (i & [Hlen _] & _). by rewrite drop_nil in Hlen.
  - cbn [search_year]. destruct (match_digits U 4 (c :: s)) as [y'|] eqn:Hm.
    + assert (four_digits_at U (c :: s) 0) as H0 by (apply match_digits_four; eauto).
      apply match_digits_Some in Hm as (-> & _ & _). split.
      * intros [= <-]. exists 0%nat. rewrite drop_0. split_and!; [done..|lia].
      * intros (i & _ & -> & Hmin). destruct i as [|i]; [by rewrite drop_0|].
        destruct (Hmin 0%nat); [lia|done].
    + assert (¬ four_digits_at U (c :: s) 0) as H0.
      { intros [y' Hy']%match_digits_four. congruence. }
      rewrite IH. split.
      * intros (i & Hi & -> & Hmin). exists (S i). split_and!; [done..|].
        intros [|j] Hj; [done|]. rewrite four_digits_at_cons. apply Hmin. lia.
      * intros (i & Hi & -> & Hmin). destruct i as [|i]; [done|].
        exists i. split_and!; [done..|].
        intros j Hj. rewrite <- (four_digits_at_cons c). apply Hmin. lia.
Qed.

Lemma search_year_None s :
  search_year U s = None ↔ ∀ i, ¬ four_digits_at U s i.
Proof.
  induction s as [|c s IH].
  - simpl. split; [|done]. intros _ i [Hlen _]. by rewrite drop_nil in Hlen.
  - cbn [search_year]. destruct (match_digits U 4 (c :: s)) as [y'|] eqn:Hm.
    + split; [done|]. intros Hno. destruct (Hno 0%nat). apply match_digits_four. eauto.
    + rewrite IH. split.
      * intros Hno [|i]; [|by rewrite four_digits_at_cons].
        intros [y' Hy']%match_digits_four. congruence.
      * intros Hno i. rewrite <- (four_digits_at_cons c). apply Hno.
Qed.

End YearFacts.

(** C10. The year the paginator classifies a record into is the
    leftmost window of four consecutive decimal digits of its start-date
    text (the match of [\d{4}]), wherever the window lies: a text is
    classified exactly when it has such a window, the year is the first
    one, and the texts without any are the unparseable ones. *)
Theorem C10_year_is_first_four_digit_window
    (U : unicode_db) {project : Type} (start_of : project → str) (proj : project) :
  let s := start_of proj in
  let year_of := Paginator.year_of U start_of in
  (∀ year, year_of proj = Some year ↔
     ∃ i, four_digits_at U s i ∧ year = take 4 (drop i s) ∧
          ∀ j, (j < i)%nat → ¬ four_digits_at U s j) ∧
  (is_Some (year_of proj) ↔ ∃ i, four_digits_at U s i) ∧
  (year_of proj = None ↔ ∀ i, ¬ four_digits_at U s i).
Proof.
  intros s year_of. subst s year_of. unfold Paginator.year_of.
  generalize (start_of proj). intros s. split_and!.
  - intros year. apply search_year_Some.
  - split.
    + intros [y (i & Hi & _)%search_year_Some]. eauto.
    + intros [i Hi]. destruct (search_year U s) eqn:Hs; [done|].
      destruct (proj1 (search_year_None U s) Hs i Hi).
  - apply search_year_None.
Qed.

(** ** The paginator *)

Section PaginatorFacts.
Context (U : unicode_db) {project : Type}.
Context (start_of name_of : project → str).
Context (navigate : nat → driver → bool * list event * driver).
Context (extract : driver → list project * list event * driver).

Local Abbreviation scan_step := (Paginator.scan_step U start_of name_of).
Local Abbreviation scan_page := (Paginator.scan_page U start_of name_of).
Local Abbreviation year_of := (Paginator.year_of U start_of).
Local Abbreviation on_target := (Paginator.on_target U start_of).
Local Abbreviation off_target := (Paginator.off_target U start_of).
Local Abbreviation traverse := (Paginator.traverse U start_of name_of navigate extract).
Local Abbreviation entering := (Paginator.entering navigate extract).
Local Abbreviation arriving := (Paginator.arriving navigate extract).
Local Abbreviation page_at := (Paginator.page_at navigate extract).
Local Abbreviation navigation_fails := (Paginator.navigation_fails navigate extract).
Local Abbreviation page_stops := (Paginator.page_stops U start_of navigate extract).
Local Abbreviation halts_at := (Paginator.halts_at U start_of navigate extract).
Local Abbreviation first_halt := (Paginator.first_halt U start_of navigate extract).
Local Abbreviation kept_upto := (Paginator.kept_upto U start_of navigate extract).
Local Abbreviation kept_at_halt := (Paginator.kept_at_halt U start_of navigate extract).

(** The scan of a page, one record at a time. *)
Lemma scan_step_acc all flag log proj :
  scan_step (all, flag, log) proj =
    (all ++ (scan_step ([], false, []) proj).1.1,
     flag || (scan_step ([], false, []) proj).1.2,
     log ++ (scan_step ([], false, []) proj).2).
Proof.
  unfold Paginator.scan_step. destruct (year_of proj) as [year|]; [case_decide|]; simpl.
  - by rewrite app_nil_r, orb_true_r.
  - by rewrite app_nil_r, orb_false_r.
  - by rewrite app_nil_r, orb_false_r.
Qed.

Lemma scan_fold_acc page all flag log :
  foldl scan_step (all, flag, log) page =
    (all ++ (foldl scan_step ([], false, []) page).1.1,
     flag || (foldl scan_step ([], false, []) page).1.2,
     log ++ (foldl scan_step ([], false, []) page).2).
Proof.
  revert all flag log. induction page as [|proj page IH]; intros all flag log.
  - simpl. by rewrite !app_nil_r, orb_false_r.
  - cbn [foldl]. rewrite scan_step_acc.
    destruct (scan_step ([], false, []) proj) as [[a0 f0] l0] eqn:Hstep. cbn [fst snd].
    rewrite IH. rewrite (IH a0 f0 l0). cbn [fst snd].
    by rewrite !app_assoc, orb_assoc.
Qed.

Lemma scan_page_app page1 page2 all :
  scan_page (page1 ++ page2) all =
    ((scan_page page2 (scan_page page1 all).1.1).1.1,
     (scan_page page1 all).1.2 || (scan_page page2 (scan_page page1 all).1.1).1.2,
     (scan_page page1 all).2 ++ (scan_page page2 (scan_page page1 all).1.1).2).
Proof.
  unfold Paginator.scan_page. rewrite foldl_app.
  destruct (foldl scan_step (all, false, []) page1) as [[a1 f1] l1]. cbn [fst snd].
  rewrite scan_fold_acc. rewrite (scan_fold_acc page2 a1 false []). by cbn [fst snd].
Qed.

Lemma scan_fold_spec page all flag log :
  (foldl scan_step (all, flag, log) page).1 =
    (all ++ List.filter on_target page, flag || existsb off_target page).
Proof.
  revert all flag log. induction page as [|proj page IH]; intros all flag log.
  - simpl. by rewrite app_nil_r, orb_false_r.
  - cbn [foldl List.filter existsb].
    unfold Paginator.scan_step at 2, Paginator.on_target at 1, Paginator.off_target at 1.
    destruct (year_of proj) as [year|]; [case_decide as Hyear|]; rewrite IH.
    + by rewrite bool_decide_eq_false_2, bool_decide_eq_true_2, orb_true_r by done.
    + rewrite bool_decide_eq_true_2, bool_decide_eq_false_2 by auto.
      by rewrite <- app_assoc.
    + done.
Qed.

Lemma scan_page_kept page all :
  (scan_page page all).1.1 = all ++ List.filter on_target page.
Proof. unfold Paginator.scan_page. by rewrite scan_fold_spec. Qed.

Lemma scan_page_flag page all :
  (scan_page page all).1.2 = true ↔ Exists (λ proj, off_target proj = true) page.
Proof.
  unfold Paginator.scan_page. rewrite scan_fold_spec. cbn [fst snd orb].
  rewrite existsb_exists, Exists_exists. by setoid_rewrite list_elem_of_In.
Qed.
Lemma entering_succ d0 k :
  (1 ≤ k)%nat → entering d0 (S k) = (extract (arriving d0 k)).2.
Proof. destruct k; [lia|]. reflexivity. Qed.

(** One turn of the loop, told by the stop condition of its page. *)
Lemma traverse_turn fuel k all log d0 :
  (1 ≤ k)%nat →
  (halts_at d0 k ∧
   ∃ t, traverse (S fuel) k all log (entering d0 k) = Some t ∧ last_page t = k ∧
        found t = all ++ (if decide (navigation_fails d0 k) then []
                          else List.filter on_target (page_at d0 k))) ∨
  (¬ halts_at d0 k ∧
   ∃ log', traverse (S fuel) k all log (entering d0 k) =
           traverse fuel (S k) (all ++ List.filter on_target (page_at d0 k)) log'
             (entering d0 (S k))).
Proof.
  intros Hk. rewrite (entering_succ d0 k Hk).
  unfold Paginator.halts_at, Paginator.page_stops, Paginator.page_at,
    Paginator.navigation_fails, Paginator.arriving, Paginator.arrive.
  cbn [Paginator.traverse].
  destruct (decide (1 < k)%nat) as [Hlt|Hlt].
  - destruct (navigate k (entering d0 k)) as [[ok nav_log] d1] eqn:Hnav. cbn [fst snd].
    destruct ok; cbn [negb].
    + destruct (extract d1) as [[page page_log] d2] eqn:Hext. cbn [fst snd].
      destruct page as [|proj page].
      * left. split; [auto|]. eexists. split; [done|]. cbn.
        rewrite decide_False by (intros [_ ?]; done). by rewrite app_nil_r.
      * pose proof (scan_page_kept (proj :: page) all) as Hkept.
        pose proof (scan_page_flag (proj :: page) all) as Hflag.
        destruct (scan_page (proj :: page) all) as [[all' flag] scan_log].
        cbn [fst snd] in Hkept, Hflag. subst all'. destruct flag.
        -- left. split; [right; right; by apply Hflag|].
           eexists. split; [done|]. cbn [last_page found].
           by rewrite decide_False by (intros [_ ?]; done).
        -- right. split; [|eauto].
           intros [[_ ?]|[?|?%Hflag]]; done.
    + left. split; [auto|]. eexists. split; [done|]. cbn.
      rewrite decide_True by done. by rewrite app_nil_r.
  - destruct (extract (entering d0 k)) as [[page page_log] d2] eqn:Hext. cbn [fst snd negb].
    destruct page as [|proj page].
    + left. split; [auto|]. eexists. split; [done|]. cbn.
      rewrite decide_False by (intros [? _]; done). by rewrite app_nil_r.
    + pose proof (scan_page_kept (proj :: page) all) as Hkept.
      pose proof (scan_page_flag (proj :: page) all) as Hflag.
      destruct (scan_page (proj :: page) all) as [[all' flag] scan_log].
      cbn [fst snd] in Hkept, Hflag. subst all'. destruct flag.
      * left. split; [right; right; by apply Hflag|].
        eexists. split; [done|]. cbn [last_page found].
        by rewrite decide_False by (intros [? _]; done).
      * right. split; [|eauto].
        intros [[? _]|[?|?%Hflag]]; done.
Qed.
Lemma kept_upto_succ d0 k :
  kept_upto d0 (S k) = kept_upto d0 k ++ List.filter on_target (page_at d0 (S k)).
Proof. reflexivity. Qed.

Lemma kept_after_turn d0 k :
  (1 ≤ k)%nat →
  kept_upto d0 (pred k) ++
    (if decide (navigation_fails d0 k) then [] else List.filter on_target (page_at d0 k)) =
  kept_at_halt d0 k.
Proof.
  intros Hk. unfold Paginator.kept_at_halt. destruct k as [|k]; [lia|].
  case_decide; [by rewrite app_nil_r | done].
Qed.

(** The loop leaves at the first page whose stop condition holds. *)
Lemma traverse_reaches d0 n gap :
  ∀ k all log fuel,
    (1 ≤ k)%nat → n = (k + gap)%nat → (gap < fuel)%nat →
    halts_at d0 n → (∀ m, (k ≤ m < n)%nat → ¬ halts_at d0 m) →
    all = kept_upto d0 (pred k) →
    ∃ t, traverse fuel k all log (entering d0 k) = Some t ∧
         last_page t = n ∧ found t = kept_at_halt d0 n.
Proof.
  induction gap as [|gap IH]; intros k all log fuel Hk Hn Hfuel Hhalt Hmin Hall;
    (destruct fuel as [|fuel]; [lia|]);
    destruct (traverse_turn fuel k all log d0 Hk) as [[Hh Ht]|[Hh [log' Ht]]].
  - replace n with k by lia. destruct Ht as (t & Ht & Hlast & Hfound).
    exists t. split_and!; [done..|]. by rewrite Hfound, Hall, kept_after_turn.
  - destruct Hh. by replace k with n by lia.
  - destruct (Hmin k); [lia|done].
  - rewrite Ht. apply IH; [lia..|done| |].
    + intros m Hm. apply Hmin. lia.
    + rewrite Hall. destruct k; [lia|]. reflexivity.
Qed.

(** Whenever the loop leaves, it does so at such a page. *)
Lemma traverse_sound d0 fuel :
  ∀ k all log t,
    (1 ≤ k)%nat → all = kept_upto d0 (pred k) →
    traverse fuel k all log (entering d0 k) = Some t →
    (k ≤ last_page t < k + fuel)%nat ∧ halts_at d0 (last_page t) ∧
    (∀ m, (k ≤ m < last_page t)%nat → ¬ halts_at d0 m) ∧
    found t = kept_at_halt d0 (last_page t).
Proof.
  induction fuel as [|fuel IH]; intros k all log t Hk Hall Hrun; [done|].
  destruct (traverse_turn fuel k all log d0 Hk) as [[Hh Ht]|[Hh [log' Ht]]].
  - destruct Ht as (t' & Ht & Hlast & Hfound).
    assert (t' = t) as -> by congruence. rewrite Hlast.
    split_and!; [lia|lia|done|intros; lia|]. by rewrite Hfound, Hall, kept_after_turn.
  - rewrite Ht in Hrun. apply IH in Hrun as (Hrange & Hhalt & Hmin & Hfound); [|lia|].
    + split_and!; [lia|lia|done| |done].
      intros m Hm. destruct (decide (m = k)) as [->|]; [done|]. apply Hmin. lia.
    + rewrite Hall. destruct k; [lia|]. reflexivity.
Qed.
End PaginatorFacts.

(** C1 (amended).  A run of [scrape_all_pages] leaves its loop at the
    first page at which navigation fails (for a page beyond the first), or
    whose extraction yields no record, or one of whose records is
    classified into a year other than "1404" -- and at no other page.  The
    list returned holds the target-year records of all pages before, and of
    the page at which the loop is left as well unless that page could not
    be reached: a mixed page is scanned to its end.  A page that was
    reached, is not empty and has no record of another year is passed. *)
Theorem C1_traversal_leaves_at_first_halt
    (U : unicode_db) {project : Type} (start_of name_of : project → str)
    (navigate : nat → driver → bool * list event * driver)
    (extract : driver → list project * list event * driver) (d0 : driver) :
  let run fuel := Paginator.scrape_all_pages U start_of name_of navigate extract fuel d0 in
  let first_halt := Paginator.first_halt U start_of navigate extract d0 in
  let kept_at_halt := Paginator.kept_at_halt U start_of navigate extract d0 in
  (∀ n fuel, first_halt n → (n ≤ fuel)%nat →
     ∃ t, run fuel = Some t ∧ last_page t = n ∧ found t = kept_at_halt n) ∧
  (∀ fuel t, run fuel = Some t →
     first_halt (last_page t) ∧ (last_page t ≤ fuel)%nat ∧
     found t = kept_at_halt (last_page t)) ∧
  (∀ n, (1 ≤ n)%nat → ¬ Paginator.navigation_fails navigate extract d0 n →
     kept_at_halt n =
       Paginator.kept_upto U start_of navigate extract d0 (pred n) ++
       List.filter (Paginator.on_target U start_of) (Paginator.page_at navigate extract d0 n)).
Proof.
  intros run first_halt kept_at_halt. subst run first_halt kept_at_halt.
  unfold Paginator.scrape_all_pages. split_and!.
  - intros n fuel (Hn & Hhalt & Hmin) Hfuel.
    destruct (traverse_reaches U start_of name_of navigate extract d0 n (n - 1) 1 []
                [TraversalStarted] fuel) as (t & Ht & Hlast & Hfound);
      [lia..|done|done|done|].
    change (Paginator.entering navigate extract d0 1)
      with {| current_page := 1; clock := clock d0 |} in Ht.
    rewrite Ht. eexists. split; [done|]. done.
  - intros fuel t Hrun.
    destruct (Paginator.traverse _ _ _ _ _ fuel 1 [] _ _) as [t'|] eqn:Ht; [|done].
    injection Hrun as <-. cbn [last_page found].
    apply (traverse_sound U start_of name_of navigate extract d0 fuel 1) in Ht
      as (Hrange & Hhalt & Hmin & Hfound); [|lia|done].
    split_and!; [|lia|done]. split_and!; [lia|done|done].
  - intros n Hn Hnav. unfold Paginator.kept_at_halt. rewrite decide_False by done.
    destruct n; [lia|]. reflexivity.
Qed.

(** C7. A record whose start date has no classifiable year is passed over
    by the scan of its page with one warning in the log: the list of kept
    records and the stop flag of the page are those of the page without
    the record, and the log is that of the page without it plus the
    warning at the record's place.  A page of such records only keeps
    nothing and does not raise the stop flag. *)
Theorem C7_unclassifiable_record_is_passed_over
    (U : unicode_db) {project : Type} (start_of name_of : project → str)
    (proj : project) (pre post all : list project) :
  Paginator.year_of U start_of proj = None →
  let scan := Paginator.scan_page U start_of name_of in
  scan [proj] all = (all, false, [InvalidDate (start_of proj)]) ∧
  level_of (InvalidDate (start_of proj)) = WARNING ∧
  (scan (pre ++ proj :: post) all).1 = (scan (pre ++ post) all).1 ∧
  (scan (pre ++ proj :: post) all).2 =
    (scan pre all).2 ++ InvalidDate (start_of proj) :: (scan post (scan pre all).1.1).2 ∧
  (scan (pre ++ post) all).2 = (scan pre all).2 ++ (scan post (scan pre all).1.1).2 ∧
  (∀ page, Forall (λ p, Paginator.year_of U start_of p = None) page →
     (scan page all).1 = (all, false)).
Proof.
  intros Hyear scan. subst scan.
  assert (∀ acc, Paginator.scan_page U start_of name_of [proj] acc =
                 (acc, false, [InvalidDate (start_of proj)])) as Hone.
  { intros acc. unfold Paginator.scan_page. cbn [foldl].
    unfold Paginator.scan_step. by rewrite Hyear. }
  split; [apply Hone|]. split; [done|].
  rewrite (scan_page_app U start_of name_of pre (proj :: post)).
  rewrite (scan_page_app U start_of name_of pre post).
  change (proj :: post) with ([proj] ++ post).
  rewrite (scan_page_app U start_of name_of [proj] post).
  rewrite Hone. cbn [fst snd orb app]. split_and!; [done..|].
  intros page Hpage. unfold Paginator.scan_page. rewrite scan_fold_spec.
  induction Hpage as [|p page Hp Hpage IH]; cbn [List.filter existsb].
  - by rewrite app_nil_r.
  - unfold Paginator.on_target at 1, Paginator.off_target at 1. rewrite Hp.
    cbn [orb]. exact IH.
Qed.

(** The end-to-end scenario of the listing: the run leaves at page 2 with
    the five records of 1404. *)
Lemma C1_witness_end_to_end :
  Paginator.first_halt ascii_db Main.fund_collection_start_date
    (_navigate_to_page Sample.feed)
    (Main._extract_current_page_projects ascii_db Sample.feed) Sample.fresh 2 ∧
  ∃ t, Main.scrape_all_pages ascii_db Sample.feed 5 Sample.fresh = Some t ∧
       last_page t = 2%nat ∧
       found t = Paginator.kept_at_halt ascii_db Main.fund_collection_start_date
                   (_navigate_to_page Sample.feed)
                   (Main._extract_current_page_projects ascii_db Sample.feed) Sample.fresh 2.
Proof.
  assert (Paginator.first_halt ascii_db Main.fund_collection_start_date
            (_navigate_to_page Sample.feed)
            (Main._extract_current_page_projects ascii_db Sample.feed) Sample.fresh 2) as Hfirst.
  { split; [lia|]. split.
    - right. right. apply Exists_cons_tl, Exists_cons_hd. vm_compute. reflexivity.
    - intros m Hm. assert (m = 1%nat) as -> by lia.
      intros [[Hlt _]|[Hnil|Hoff]].
      + lia.
      + vm_compute in Hnil. discriminate Hnil.
      + vm_compute in Hoff. repeat (apply Exists_cons in Hoff as [Hoff|Hoff]; [discriminate Hoff|]).
        by apply Exists_nil in Hoff. }
  split; [exact Hfirst|].
  apply (proj1 (C1_traversal_leaves_at_first_halt ascii_db Main.fund_collection_start_date
                  Main.project_name (_navigate_to_page Sample.feed)
                  (Main._extract_current_page_projects ascii_db Sample.feed) Sample.fresh));
    [exact Hfirst | lia].
Defined.

(** C1 as stated fails: on a feed whose pages all hold one record of 1404,
    so that no page is empty or has a record of another year, the run
    still leaves its loop when the second page cannot be reached. *)
Lemma C1_counterexample_navigation_failure :
  (last_page <$> Main.scrape_all_pages ascii_db Sample.stuck_feed 5 Sample.fresh = Some 2%nat) ∧
  ∀ n, ¬ Paginator.page_stops ascii_db Main.fund_collection_start_date
           (_navigate_to_page Sample.stuck_feed)
           (Main._extract_current_page_projects ascii_db Sample.stuck_feed) Sample.fresh n.
Proof.
  split; [by vm_compute|].
  intros n. unfold Paginator.page_stops, Paginator.page_at.
  generalize (Paginator.arriving (_navigate_to_page Sample.stuck_feed)
                (Main._extract_current_page_projects ascii_db Sample.stuck_feed)
                Sample.fresh n).
  intros [pg ck]. intros [Hnil|Hoff].
  - vm_compute in Hnil. discriminate Hnil.
  - apply Exists_cons in Hoff as [Hoff|Hoff].
    + vm_compute in Hoff. discriminate Hoff.
    + vm_compute in Hoff. by apply Exists_nil in Hoff.
Qed.

(** ** The record extractor *)

Section ExtractorFacts.
Context (U : unicode_db) (W : site).

Lemma main_extract_rows_app rows1 rows2 d :
  Main.extract_rows U W (rows1 ++ rows2) d =
    let '(projects, log, d1) := Main.extract_rows U W rows1 d in
    let '(projects', log', d2) := Main.extract_rows U W rows2 d1 in
    (projects ++ projects', log ++ log', d2).
Proof.
  revert d. induction rows1 as [|cells rows1 IH]; intros d.
  - simpl. by destruct (Main.extract_rows U W rows2 d) as [[? ?] ?].
  - cbn [app Main.extract_rows].
    destruct (Main.extract_row U W cells d) as [[p0 l0] d0].
    rewrite IH.
    destruct (Main.extract_rows U W rows1 d0) as [[p1 l1] d1].
    destruct (Main.extract_rows U W rows2 d1) as [[p2 l2] d2].
    by rewrite !app_assoc.
Qed.

Lemma v7_extract_rows_app rows1 rows2 d :
  V7.extract_rows U W (rows1 ++ rows2) d =
    let '(projects, log, d1) := V7.extract_rows U W rows1 d in
    let '(projects', log', d2) := V7.extract_rows U W rows2 d1 in
    (projects ++ projects', log ++ log', d2).
Proof.
  revert d. induction rows1 as [|cells rows1 IH]; intros d.
  - simpl. by destruct (V7.extract_rows U W rows2 d) as [[? ?] ?].
  - cbn [app V7.extract_rows].
    destruct (V7.extract_row U W cells d) as [[p0 l0] d0].
    rewrite IH.
    destruct (V7.extract_rows U W rows1 d0) as [[p1 l1] d1].
    destruct (V7.extract_rows U W rows2 d1) as [[p2 l2] d2].
    by rewrite !app_assoc.
Qed.

Lemma main_short_row cells d :
  (length cells < 10)%nat → Main.extract_row U W cells d = ([], [], d).
Proof. intros Hlen. unfold Main.extract_row. by rewrite decide_False by lia. Qed.

Lemma v7_short_row cells d :
  (length cells < 10)%nat → V7.extract_row U W cells d = ([], [], d).
Proof. intros Hlen. unfold V7.extract_row. by rewrite decide_False by lia. Qed.

Lemma main_raising_row cells d :
  (10 ≤ length cells)%nat → platform_href cells = None →
  Main.extract_row U W cells d = ([], [RowFailed], d).
Proof.
  intros Hlen Hhref. unfold Main.extract_row, Main.row_body.
  rewrite decide_True by lia. by rewrite Hhref.
Qed.

Lemma v7_raising_row cells d :
  (10 ≤ length cells)%nat → platform_href cells = None →
  V7.extract_row U W cells d = ([], [RowFailed], d).
Proof.
  intros Hlen Hhref. unfold V7.extract_row, V7.row_body.
  rewrite decide_True by lia. by rewrite Hhref.
Qed.

End ExtractorFacts.

(** C8 (amended).  A data row with fewer than ten cells is skipped by the
    record extractor without any log entry, and the rows around it are
    extracted as if the row were not there.  The logged error belongs to
    the rows of at least ten cells whose processing raises (a platform
    link without [href]): such a row is skipped with one error in the log,
    and extraction goes on with the next row. *)
Theorem C8_short_row_is_skipped_without_log (U : unicode_db) (W : site) :
  (∀ cells pre post d, (length cells < 10)%nat →
     Main.extract_row U W cells d = ([], [], d) ∧
     V7.extract_row U W cells d = ([], [], d) ∧
     Main.extract_rows U W (pre ++ cells :: post) d = Main.extract_rows U W (pre ++ post) d ∧
     V7.extract_rows U W (pre ++ cells :: post) d = V7.extract_rows U W (pre ++ post) d) ∧
  (∀ cells post d, (10 ≤ length cells)%nat → platform_href cells = None →
     level_of RowFailed = ERROR ∧
     Main.extract_rows U W (cells :: post) d =
       (let '(projects, log, d') := Main.extract_rows U W post d in
        (projects, RowFailed :: log, d')) ∧
     V7.extract_rows U W (cells :: post) d =
       (let '(projects, log, d') := V7.extract_rows U W post d in
        (projects, RowFailed :: log, d'))).
Proof.
  split.
  - intros cells pre post d Hlen.
    split; [by apply main_short_row|]. split; [by apply v7_short_row|]. split.
    + rewrite !main_extract_rows_app.
      destruct (Main.extract_rows U W pre d) as [[p1 l1] d1].
      cbn [Main.extract_rows]. rewrite main_short_row by done.
      by destruct (Main.extract_rows U W post d1) as [[p2 l2] d2].
    + rewrite !v7_extract_rows_app.
      destruct (V7.extract_rows U W pre d) as [[p1 l1] d1].
      cbn [V7.extract_rows]. rewrite v7_short_row by done.
      by destruct (V7.extract_rows U W post d1) as [[p2 l2] d2].
  - intros cells post d Hlen Hhref. split; [done|]. split.
    + cbn [Main.extract_rows]. rewrite main_raising_row by done.
      by destruct (Main.extract_rows U W post d) as [[p2 l2] d2].
    + cbn [V7.extract_rows]. rewrite v7_raising_row by done.
      by destruct (V7.extract_rows U W post d) as [[p2 l2] d2].
Qed.

(** A page of one short row and one row whose link has no [href]: the
    short row leaves no trace, the other one error. *)
Lemma C8_witness_sample_rows :
  ((length Sample.short_row < 10)%nat ∧
   Main.extract_rows ascii_db Sample.feed ([] ++ Sample.short_row :: [Sample.broken_row]) Sample.fresh =
   Main.extract_rows ascii_db Sample.feed ([] ++ [Sample.broken_row]) Sample.fresh) ∧
  ((10 ≤ length Sample.broken_row)%nat ∧ platform_href Sample.broken_row = None ∧
   Main.extract_rows ascii_db Sample.feed [Sample.broken_row] Sample.fresh =
     ([], [RowFailed], Sample.fresh)).
Proof.
  destruct (C8_short_row_is_skipped_without_log ascii_db Sample.feed) as [Hshort Hraise].
  split.
  - assert (length Sample.short_row < 10)%nat as Hlen by (vm_compute; lia).
    split; [exact Hlen|].
    exact (proj1 (proj2 (proj2 (Hshort Sample.short_row [] [Sample.broken_row] Sample.fresh Hlen)))).
  - assert (10 ≤ length Sample.broken_row)%nat as Hlen by (vm_compute; lia).
    assert (platform_href Sample.broken_row = None) as Hhref by (vm_compute; reflexivity).
    split; [exact Hlen|]. split; [exact Hhref|].
    exact (proj1 (proj2 (Hraise Sample.broken_row [] Sample.fresh Hlen Hhref))).
Defined.

(** C8 as stated fails: a short data row is skipped, but nothing is
    logged for it. *)
Lemma C8_counterexample_no_error_logged :
  (length Sample.short_row < 10)%nat ∧
  Main.extract_rows ascii_db Sample.feed [Sample.short_row] Sample.fresh = ([], [], Sample.fresh) ∧
  V7.extract_rows ascii_db Sample.feed [Sample.short_row] Sample.fresh = ([], [], Sample.fresh).
Proof. split; [vm_compute; lia|]. split; by vm_compute. Qed.

(** ** Dictionaries *)

Lemma dict_lookup_set key v d key' :
  dict_lookup key' (dict_set key v d) =
    if decide (key = key') then Some v else dict_lookup key' d.
Proof.
  induction d as [|[k w] d IH]; simpl.
  - by repeat case_decide.
  - destruct (decide (k = key)) as [->|Hne]; simpl.
    + by repeat case_decide.
    + rewrite IH. repeat case_decide; congruence.
Qed.

Lemma dict_lookup_update_other key d e :
  Forall (λ kv, kv.1 ≠ key) e →
  dict_lookup key (dict_update d e) = dict_lookup key d.
Proof.
  unfold dict_update. intros He. revert d.
  induction He as [|[k v] e Hk He IH]; intros d; [done|].
  cbn [foldl fst snd]. rewrite IH, dict_lookup_set. by rewrite decide_False.
Qed.

Lemma keys_within_set keys key v d :
  key ∈ keys → keys_within keys d → keys_within keys (dict_set key v d).
Proof.
  intros Hkey. unfold keys_within. induction 1 as [|[k w] d Hk Hd IH]; simpl.
  - by repeat constructor.
  - case_decide; constructor; auto.
Qed.

Lemma keys_within_assign keys key v d :
  key ∈ keys → keys_within keys d → keys_within keys (assign key v d).
Proof. intros. destruct v; simpl; [by apply keys_within_set|done]. Qed.

Lemma keys_within_update keys d e :
  keys_within keys d → keys_within keys e → keys_within keys (dict_update d e).
Proof.
  unfold dict_update. intros Hd He. revert d Hd.
  induction He as [|[k v] e Hk He IH]; intros d Hd; [done|].
  cbn [foldl]. apply IH. by apply keys_within_set.
Qed.

Lemma keys_within_foldl {A} keys (step : dict → A → dict) items d :
  (∀ d x, keys_within keys d → keys_within keys (step d x)) →
  keys_within keys d → keys_within keys (foldl step d items).
Proof.
  intros Hstep. revert d. induction items as [|x items IH]; intros d Hd; [done|].
  simpl. by apply IH, Hstep.
Qed.

Lemma keys_within_nil keys : keys_within keys [].
Proof. constructor. Qed.

(** ** The adapters write platform keys only *)

Section AdapterKeys.
Context (U : unicode_db) (P : web).

Ltac platform_key := apply (bool_decide_unpack _); vm_compute; exact I.

Ltac keys_step :=
  first
    [ assumption
    | apply keys_within_nil
    | apply keys_within_assign; [platform_key|]
    | apply keys_within_set; [platform_key|]
    | apply keys_within_update
    | match goal with
      | |- keys_within _ (if ?c then _ else _) => destruct c
      | |- keys_within _ (match ?x with _ => _ end) => destruct x
      end ].

Lemma hamafarin_field_keys lbl val d :
  keys_within platform_keys d → keys_within platform_keys (hamafarin_field U lbl val d).
Proof. intros. unfold hamafarin_field. repeat keys_step. Qed.

Lemma karencrowd_field_keys lbl val d :
  keys_within platform_keys d → keys_within platform_keys (karencrowd_field lbl val d).
Proof. intros. unfold karencrowd_field. repeat keys_step. Qed.

Lemma labelled_step_keys field d item :
  (∀ lbl val d, keys_within platform_keys d → keys_within platform_keys (field lbl val d)) →
  keys_within platform_keys d →
  keys_within platform_keys (labelled_step U field d item).
Proof. intros Hfield Hd. unfold labelled_step. repeat case_match; auto. Qed.

Lemma ifund_item_keys d text :
  keys_within platform_keys d → keys_within platform_keys (ifund_item U d text).
Proof. intros. unfold ifund_item. repeat keys_step. Qed.

Lemma zeema_req_keys d spans :
  keys_within platform_keys d → keys_within platform_keys (zeema_req U d spans).
Proof. intros. unfold zeema_req. repeat keys_step. Qed.

Lemma extract_hamafarin_keys card :
  keys_within platform_keys (_extract_hamafarin_card U card).
Proof.
  unfold _extract_hamafarin_card.
  repeat first
    [ apply keys_within_foldl;
      [intros; apply labelled_step_keys; [apply hamafarin_field_keys|done]|]
    | keys_step ].
Qed.

Lemma extract_fundocrowd_keys card :
  keys_within platform_keys (_extract_fundocrowd_card U card).
Proof. unfold _extract_fundocrowd_card. repeat keys_step. Qed.

Lemma fundocrowd_details_keys card :
  keys_within platform_keys (_scrape_fundocrowd_details U P card).
Proof. unfold _scrape_fundocrowd_details. repeat keys_step. Qed.

Lemma extract_karencrowd_keys card :
  keys_within platform_keys (_extract_karencrowd_card U card).
Proof.
  unfold _extract_karencrowd_card.
  repeat first
    [ apply keys_within_foldl;
      [intros; apply labelled_step_keys; [apply karencrowd_field_keys|done]|]
    | keys_step ].
Qed.

Lemma extract_ifund_keys card :
  keys_within platform_keys (_extract_ifund_card U card).
Proof.
  unfold _extract_ifund_card.
  repeat first
    [ apply keys_within_foldl; [intros; by apply ifund_item_keys|]
    | keys_step ].
Qed.

Lemma extract_zeema_keys card :
  keys_within platform_keys (_extract_zeema_card U card).
Proof.
  unfold _extract_zeema_card.
  repeat first
    [ apply keys_within_foldl; [intros; by apply zeema_req_keys|]
    | keys_step ].
Qed.

Lemma generic_fields_keys page : keys_within platform_keys (generic_fields U page).
Proof. unfold generic_fields. repeat keys_step. Qed.

Lemma scrape_hamafarin_keys name url :
  keys_within platform_keys (_scrape_hamafarin U P name url).
Proof.
  unfold _scrape_hamafarin. repeat case_match; try apply keys_within_nil.
  apply extract_hamafarin_keys.
Qed.

Lemma scrape_fundocrowd_keys name url :
  keys_within platform_keys (_scrape_fundocrowd U P name url).
Proof.
  unfold _scrape_fundocrowd. repeat case_match; try apply keys_within_nil;
    try apply keys_within_update;
    auto using extract_fundocrowd_keys, fundocrowd_details_keys.
Qed.

Lemma scrape_karencrowd_keys name url :
  keys_within platform_keys (_scrape_karencrowd U P name url).
Proof.
  unfold _scrape_karencrowd. repeat case_match; try apply keys_within_nil.
  apply extract_karencrowd_keys.
Qed.

Lemma scrape_ifund_keys name url :
  keys_within platform_keys (_scrape_ifund U P name url).
Proof.
  unfold _scrape_ifund. repeat case_match; try apply keys_within_nil.
  apply extract_ifund_keys.
Qed.

Lemma scrape_zeema_keys name url :
  keys_within platform_keys (_scrape_zeema U P name url).
Proof.
  unfold _scrape_zeema. repeat case_match; try apply keys_within_nil.
  apply extract_zeema_keys.
Qed.

End AdapterKeys.

Section EnrichmentFacts.
Context (U : unicode_db) (P : web) (netloc : list N → result (list N)).

Lemma main_run_keys a project :
  keys_within platform_keys (Main.run U P netloc a project).
Proof.
  destruct a; simpl;
    auto using scrape_hamafarin_keys, scrape_fundocrowd_keys, scrape_karencrowd_keys,
      scrape_ifund_keys, scrape_zeema_keys.
  unfold Main._scrape_generic. repeat case_match; try apply keys_within_nil.
  - apply keys_within_set; [apply (bool_decide_unpack _); vm_compute; exact I|].
    apply generic_fields_keys.
  - apply generic_fields_keys.
Qed.

Lemma main_scrape_keys project details log :
  Main.scrape U P netloc project = Ok (details, log) →
  keys_within platform_keys details.
Proof.
  unfold Main.scrape. destruct (Main.platform_url project) as [|c url].
  - intros [= <- <-]. apply keys_within_nil.
  - destruct (netloc (c :: url)) as [host|e]; simpl; [|done].
    intros [= <- <-]. apply main_run_keys.
Qed.

Lemma v7_run_keys a project : keys_within platform_keys (V7.run U P a project).
Proof.
  assert (keys_within platform_keys (V7._scrape_generic U P (V7.platform_url project))).
  { unfold V7._scrape_generic. case_match; [apply generic_fields_keys|apply keys_within_nil]. }
  destruct a; simpl;
    auto using scrape_hamafarin_keys, scrape_fundocrowd_keys, scrape_karencrowd_keys.
Qed.

Lemma v7_scrape_keys project :
  keys_within platform_keys (V7._scrape_single_platform U P project).
Proof.
  unfold V7._scrape_single_platform. case_match; [apply keys_within_nil|apply v7_run_keys].
Qed.

End EnrichmentFacts.

Lemma listing_fields_apart :
  Forall (λ key, key ∉ platform_keys) Main.listing_fields ∧
  Forall (λ key, key ∉ platform_keys) V7.listing_fields.
Proof. split; apply (bool_decide_unpack _); vm_compute; exact I. Qed.

Lemma update_keeps_field keys key d details :
  keys_within keys details → key ∉ keys →
  dict_lookup key (dict_update d details) = dict_lookup key d.
Proof.
  intros Hin Hout. apply dict_lookup_update_other.
  eapply Forall_impl; [exact Hin|]. intros [k v] Hk Heq. simpl in *. by subst.
Qed.

(** C5. The union of a listing record with the mapping of its adapter is
    additive: whatever the adapter returns, every field the record carries
    from the listing (row number, project name, company name, national id,
    outbound URL, status, start date, end date, description, documents
    URL, capture timestamp, and the listing identifier in [main.py]) has
    in the combined dictionary the value it has in the record. *)
Theorem C5_enrichment_keeps_listing_fields
    (U : unicode_db) (P : web) (netloc : list N → result (list N)) (key : string) :
  (key ∈ Main.listing_fields →
   ∀ idx total proj combined log,
     Main.enrich_one U P netloc idx total proj = Ok (combined, log) →
     dict_lookup key combined = dict_lookup key (Main.to_dict proj) ∧
     is_Some (dict_lookup key (Main.to_dict proj))) ∧
  (key ∈ V7.listing_fields →
   ∀ idx total project,
     dict_lookup key (V7.enrich_one U P idx total project).1 =
       dict_lookup key (V7.to_dict project) ∧
     is_Some (dict_lookup key (V7.to_dict project))).
Proof.
  destruct listing_fields_apart as [Hmain Hv7]. split.
  - intros Hkey idx total proj combined log. unfold Main.enrich_one.
    destruct (Main.scrape U P netloc proj) as [[details slog]|e] eqn:Hscrape; simpl; [|done].
    intros [= <- <-]. split.
    + eapply update_keeps_field; [by eapply main_scrape_keys|].
      by eapply (proj1 (Forall_forall _ _) Hmain).
    + revert Hkey. unfold Main.listing_fields. rewrite !elem_of_cons, elem_of_nil.
      intros Hkey. repeat (destruct Hkey as [->|Hkey]; [by eexists|]). done.
  - intros Hkey idx total project. split.
    + cbn [V7.enrich_one fst]. eapply update_keeps_field; [apply v7_scrape_keys|].
      by eapply (proj1 (Forall_forall _ _) Hv7).
    + revert Hkey. unfold V7.listing_fields. rewrite !elem_of_cons, elem_of_nil.
      intros Hkey. repeat (destruct Hkey as [->|Hkey]; [by eexists|]). done.
Qed.

(** ** The dispatcher *)




(** ** Card matching *)

Section Matching.
Context {card : Type} (title_of : card → option element) (test : element → bool).

Local Abbreviation passes := (passes title_of test).

Lemma first_card_split (cards : list card) :
  match first_card title_of test cards with
  | Some c => ∃ pre post, cards = pre ++ c :: post ∧ passes c ∧ Forall (λ c', ¬ passes c') pre
  | None => Forall (λ c', ¬ passes c') cards
  end.
Proof.
  induction cards as [|c cards IH]; simpl; [constructor|].
  destruct (title_of c) as [e|] eqn:Htitle; [destruct (test e) eqn:Htest|].
  - exists [], cards. split_and!; [done| |constructor]. by exists e.
  - assert (¬ passes c) as Hc by (intros (e' & ? & ?); congruence).
    destruct (first_card title_of test cards) as [c'|].
    + destruct IH as (pre & post & -> & Hpass & Hpre).
      exists (c :: pre), post. split_and!; [done..|by constructor].
    + by constructor.
  - assert (¬ passes c) as Hc by (intros (e' & ? & ?); congruence).
    destruct (first_card title_of test cards) as [c'|].
    + destruct IH as (pre & post & -> & Hpass & Hpre).
      exists (c :: pre), post. split_and!; [done..|by constructor].
    + by constructor.
Qed.

Lemma first_card_first pre c post :
  Forall (λ c', ¬ passes c') pre → passes c →
  first_card title_of test (pre ++ c :: post) = Some c.
Proof.
  intros Hpre (e & Htitle & Htest). induction Hpre as [|c' pre Hc' Hpre IH]; simpl.
  - by rewrite Htitle, Htest.
  - destruct (title_of c') as [e'|] eqn:Ht; [|done].
    destruct (test e') eqn:Hx; [|done]. destruct Hc'. by exists e'.
Qed.

Lemma first_card_none cards :
  Forall (λ c', ¬ passes c') cards → first_card title_of test cards = None.
Proof.
  induction 1 as [|c' pre Hc' Hpre IH]; simpl; [done|].
  destruct (title_of c') as [e'|] eqn:Ht; [|done].
  destruct (test e') eqn:Hx; [|done]. destruct Hc'. by exists e'.
Qed.

End Matching.

(** The adapters of hamafarin, fundocrowd, karencrowd and ifund match a
    card by containment of the titles in either direction; the first card
    in document order that matches is the one extracted, and the mapping
    is empty when none matches.  Shown for hamafarin and ifund; the loops
    of the other two are the same. *)
Lemma bidirectional_matching (U : unicode_db) (P : web) (name url : str) :
  let target := strip U name in
  let matches e := titles_match target (text_of U e) in
  (∀ pre c post,
     hamafarin_cards P url = Some (pre ++ c :: post) →
     Forall (λ c', ¬ passes h_title matches c') pre → passes h_title matches c →
     _scrape_hamafarin U P name url = _extract_hamafarin_card U c) ∧
  (∀ cards,
     hamafarin_cards P url = Some cards → Forall (λ c', ¬ passes h_title matches c') cards →
     _scrape_hamafarin U P name url = []) ∧
  (∀ pre c post,
     ifund_cards P url = Some (pre ++ c :: post) →
     Forall (λ c', ¬ passes i_title matches c') pre → passes i_title matches c →
     _scrape_ifund U P name url = _extract_ifund_card U c) ∧
  (∀ cards,
     ifund_cards P url = Some cards → Forall (λ c', ¬ passes i_title matches c') cards →
     _scrape_ifund U P name url = []).
Proof.
  intros target matches. subst target matches. split_and!.
  - intros pre c post Hpage Hpre Hc. unfold _scrape_hamafarin. rewrite Hpage.
    cbv zeta. by rewrite (first_card_first h_title _ pre c post Hpre Hc).
  - intros cards Hpage Hnone. unfold _scrape_hamafarin. rewrite Hpage.
    cbv zeta. by rewrite (first_card_none h_title _ cards Hnone).
  - intros pre c post Hpage Hpre Hc. unfold _scrape_ifund. rewrite Hpage.
    cbv zeta. by rewrite (first_card_first i_title _ pre c post Hpre Hc).
  - intros cards Hpage Hnone. unfold _scrape_ifund. rewrite Hpage.
    cbv zeta. by rewrite (first_card_none i_title _ cards Hnone).
Qed.

(** The order-stability scenario: of the cards "Alpha Project" and "Alpha
    Project Extended" the first is the one extracted, and one mapping is
    returned. *)
Lemma first_match_wins :
  _scrape_hamafarin ascii_db Sample.pages (lit "Alpha Project") (lit "https://hamafarin.ir/") =
    [("title_on_platform"%string, Some (lit "Alpha Project"))].
Proof. by vm_compute. Qed.

(** C4, at the input where the code departs from it.  The zeema adapter
    tests containment in one direction only: a card titled "Alpha" is not
    matched to the record "Alpha Project", although the record title
    contains the card title, and the adapter returns the empty mapping;
    the hamafarin adapter matches the same pair of titles. *)
Theorem C4_zeema_matches_in_one_direction_only :
  titles_match (strip ascii_db (lit "Alpha Project")) (text_of ascii_db (Sample.tag "Alpha")) = true ∧
  _scrape_zeema ascii_db Sample.short_title_pages (lit "Alpha Project") (lit "https://zeema.fund/") = [] ∧
  _scrape_hamafarin ascii_db Sample.short_title_pages (lit "Alpha Project") (lit "https://hamafarin.ir/") =
    [("title_on_platform"%string, Some (lit "Alpha"))].
Proof. split_and!; by vm_compute. Qed.

(** The enrichment of the record "Alpha Project": its status and its name
    are those of the listing. *)
Lemma C5_witness_alpha :
  ("status"%string ∈ Main.listing_fields ∧
   ∃ combined log,
     Main.enrich_one ascii_db Sample.pages Sample.netloc 1 1 Sample.alpha = Ok (combined, log) ∧
     dict_lookup "status" combined = Some (Some (lit "open")) ∧
     dict_lookup "title_on_platform" combined = Some (Some (lit "Alpha Project"))) ∧
  ("project_name"%string ∈ V7.listing_fields ∧
   dict_lookup "project_name" (V7.enrich_one ascii_db Sample.pages 1 1 Sample.alpha7).1 =
     Some (Some (lit "Alpha Project"))).
Proof.
  assert ("status"%string ∈ Main.listing_fields) as Hstatus
    by (apply (bool_decide_unpack _); vm_compute; exact I).
  assert ("project_name"%string ∈ V7.listing_fields) as Hname
    by (apply (bool_decide_unpack _); vm_compute; exact I).
  split.
  - split; [exact Hstatus|].
    destruct (Main.enrich_one ascii_db Sample.pages Sample.netloc 1 1 Sample.alpha)
      as [[combined log]|e] eqn:Hrun; [|vm_compute in Hrun; discriminate Hrun].
    exists combined, log. split; [reflexivity|]. split.
    + rewrite (proj1 (proj1 (C5_enrichment_keeps_listing_fields ascii_db Sample.pages
                               Sample.netloc "status") Hstatus 1%nat 1%nat Sample.alpha
                        combined log Hrun)).
      vm_compute. reflexivity.
    + vm_compute in Hrun. injection Hrun as <- <-. vm_compute. reflexivity.
  - split; [exact Hname|].
    rewrite (proj1 (proj2 (C5_enrichment_keeps_listing_fields ascii_db Sample.pages
                             Sample.netloc "project_name") Hname 1%nat 1%nat Sample.alpha7)).
    vm_compute. reflexivity.
Defined.

(** ** The merge filters *)

Lemma filter_new_projects_filter (projects : list dict) (existing : gset (option (list N))) :
  Dedup.filter_new_projects projects existing =
    filter (λ p, dict_get "detail_url" p ∉ existing) projects.
Proof.
  induction projects as [|p projects IH]; [done|].
  cbn [Dedup.filter_new_projects]. rewrite filter_cons, IH. by case_decide.
Qed.

Lemma dict_get_lookup key d v : dict_lookup key d = Some v → dict_get key d = v.
Proof. unfold dict_get. by intros ->. Qed.

Lemma filter_new_rows_filter (rows : list dict) (existing : gset (option (list N))) :
  Forall (λ row, is_Some (dict_lookup "unique_key" row)) rows →
  Dedup.filter_new_rows rows existing =
    Ok (filter (λ row, dict_get "unique_key" row ∉ existing) rows).
Proof.
  induction 1 as [|row rows [key Hkey] Hrows IH]; [done|].
  rewrite filter_cons, (dict_get_lookup _ _ _ Hkey).
  cbn [Dedup.filter_new_rows]. unfold dict_item. rewrite Hkey, IH.
  unfold mbind, result_bind. by case_decide.
Qed.



Section KeyFailures.
Context (sha256_hex : list N → list N).

Lemma build_unique_key_raises (row : dict) e :
  Dedup.build_unique_key sha256_hex row = Raised e → ∃ field, e = KeyError field.
Proof.
  unfold Dedup.build_unique_key, dict_item, mbind, result_bind.
  repeat case_match; intros ?; simplify_eq; eauto.
Qed.

Lemma build_unique_key_missing (row : dict) field :
  field ∈ ["project_name"; "company_name"; "fund_collection_start_date"]%string →
  dict_lookup field row = None →
  ∃ missing, Dedup.build_unique_key sha256_hex row = Raised (KeyError missing).
Proof.
  rewrite !elem_of_cons, elem_of_nil. intros Hfield Hnone.
  unfold Dedup.build_unique_key, dict_item, mbind, result_bind.
  repeat case_match; simplify_eq; eauto.
  exfalso. destruct Hfield as [->|[->|[->|[]]]]; congruence.
Qed.

Lemma attach_unique_keys_raises (rows : list dict) row missing :
  row ∈ rows → Dedup.build_unique_key sha256_hex row = Raised (KeyError missing) →
  ∃ field, Dedup.attach_unique_keys sha256_hex rows = Raised (KeyError field).
Proof.
  intros Hin Hrow. induction rows as [|row' rows IH]; [by apply elem_of_nil in Hin|].
  cbn [Dedup.attach_unique_keys]. unfold mbind, result_bind.
  destruct (Dedup.build_unique_key sha256_hex row') as [key|e] eqn:Hkey.
  - apply elem_of_cons in Hin as [->|Hin]; [congruence|].
    destruct (IH Hin) as [field ->]. eauto.
  - apply build_unique_key_raises in Hkey as [field ->]. eauto.
Qed.

End KeyFailures.

Lemma filter_new_rows_missing (rows : list dict) (existing : gset (option (list N))) row :
  row ∈ rows → dict_lookup "unique_key" row = None →
  Dedup.filter_new_rows rows existing = Raised (KeyError "unique_key").
Proof.
  intros Hin Hnone. induction rows as [|row' rows IH]; [by apply elem_of_nil in Hin|].
  cbn [Dedup.filter_new_rows]. unfold dict_item, mbind, result_bind.
  destruct (dict_lookup "unique_key" row') as [key|] eqn:Hkey; [|done].
  apply elem_of_cons in Hin as [->|Hin]; [congruence|]. by rewrite (IH Hin).
Qed.

Lemma select_new_rows_acc (id_field : string) (existing : gset (list N)) (data : list dict)
    (rows : list (list (option (list N)))) (log : list event) :
  foldl (Main.new_rows_step id_field existing) (rows, log) data =
    (rows ++ (Main.select_new_rows id_field existing data).1,
     log ++ (Main.select_new_rows id_field existing data).2).
Proof.
  unfold Main.select_new_rows. revert rows log.
  induction data as [|item data IH]; intros rows log.
  - simpl. by rewrite !app_nil_r.
  - cbn [foldl].
    assert (Main.new_rows_step id_field existing (rows, log) item =
            (rows ++ (Main.new_rows_step id_field existing ([], []) item).1,
             log ++ (Main.new_rows_step id_field existing ([], []) item).2)) as ->.
    { unfold Main.new_rows_step. destruct (Main.id_of id_field item); [|case_decide];
        cbn [fst snd]; by rewrite ?app_nil_r. }
    destruct (Main.new_rows_step id_field existing ([], []) item) as [rows0 log0].
    cbn [fst snd]. rewrite IH, (IH rows0 log0). cbn [fst snd]. by rewrite !app_assoc.
Qed.

(** C6 (amended).  A candidate that lacks a field of its identity key is
    not excluded with a warning by the merge filters.  In the detail-url
    variant [filter_new_projects] takes the missing URL for the key [None]
    and keeps the record whenever [None] is not an existing key.  In the
    content-hash variant [build_unique_key] raises [KeyError] when the
    project name, the organizer name or the start date is missing, which
    ends [attach_unique_keys] for the whole batch, and [filter_new_rows]
    raises [KeyError] for a row without its key.  Exclusion with a warning
    is what [append_new_rows] of [main.py] does, for an item whose
    identifier field is absent or the empty string: the item adds no row
    and one warning to the log. *)
Theorem C6_records_without_key_fields (sha256_hex : list N → list N) :
  (∀ (p : dict) (rest : list dict) (existing : gset (option (list N))),
     dict_lookup "detail_url" p = None →
     Dedup.filter_new_projects (p :: rest) existing =
       if decide (None ∉ existing) then p :: Dedup.filter_new_projects rest existing
       else Dedup.filter_new_projects rest existing) ∧
  (∀ (rows : list dict) (row : dict) (field : string),
     row ∈ rows →
     field ∈ ["project_name"; "company_name"; "fund_collection_start_date"]%string →
     dict_lookup field row = None →
     (∃ missing, Dedup.build_unique_key sha256_hex row = Raised (KeyError missing)) ∧
     (∃ missing, Dedup.attach_unique_keys sha256_hex rows = Raised (KeyError missing))) ∧
  (∀ (rows : list dict) (existing : gset (option (list N))) (row : dict),
     row ∈ rows → dict_lookup "unique_key" row = None →
     Dedup.filter_new_rows rows existing = Raised (KeyError "unique_key")) ∧
  (∀ (id_field : string) (existing : gset (list N)) (pre post : list dict) (item : dict),
     dict_lookup id_field item = None ∨ dict_lookup id_field item = Some (Some []) →
     let warning := RowWithoutId (py_str (dict_get_or "project_name" (Some []) item)) in
     level_of warning = WARNING ∧
     Main.select_new_rows id_field existing (pre ++ item :: post) =
       ((Main.select_new_rows id_field existing pre).1 ++
        (Main.select_new_rows id_field existing post).1,
        (Main.select_new_rows id_field existing pre).2 ++
        warning :: (Main.select_new_rows id_field existing post).2)).
Proof.
  split_and!.
  - intros p rest existing Hnone. cbn [Dedup.filter_new_projects].
    unfold dict_get. by rewrite Hnone.
  - intros rows row field Hin Hfield Hnone.
    destruct (build_unique_key_missing sha256_hex row field Hfield Hnone) as [missing Hrow].
    split; [eauto|]. by eapply attach_unique_keys_raises.
  - intros rows existing row. apply filter_new_rows_missing.
  - intros id_field existing pre post item Hid warning. split; [done|].
    assert (Main.id_of id_field item = []) as Hpid.
    { unfold Main.id_of, dict_get_or. by destruct Hid as [->| ->]. }
    unfold Main.select_new_rows at 1. rewrite foldl_app. fold (Main.select_new_rows id_field existing pre).
    destruct (Main.select_new_rows id_field existing pre) as [rows1 log1].
    cbn [foldl fst snd]. unfold Main.new_rows_step at 2. rewrite Hpid.
    rewrite select_new_rows_acc. by rewrite <- app_assoc.
Qed.

(** A candidate without any key field: [append_new_rows] leaves it out
    with a warning, and the functions of [deduplicate.py] behave as told. *)
Lemma C6_witness_unkeyed :
  (dict_lookup "ifb_project_id" Sample.unkeyed = None ∨
   dict_lookup "ifb_project_id" Sample.unkeyed = Some (Some [])) ∧
  Main.select_new_rows "ifb_project_id" ∅ ([] ++ Sample.unkeyed :: []) =
    ([], [RowWithoutId []]) ∧
  dict_lookup "detail_url" Sample.unkeyed = None ∧
  Dedup.filter_new_projects [Sample.unkeyed] Sample.existing = [Sample.unkeyed].
Proof.
  destruct (C6_records_without_key_fields (λ raw, raw)) as (Hurl & _ & _ & Hmain).
  assert (dict_lookup "ifb_project_id" Sample.unkeyed = None ∨
          dict_lookup "ifb_project_id" Sample.unkeyed = Some (Some [])) as Hid
    by (left; reflexivity).
  assert (dict_lookup "detail_url" Sample.unkeyed = None) as Hnone by reflexivity.
  split; [exact Hid|]. split.
  - rewrite (proj2 (Hmain "ifb_project_id"%string ∅ [] [] Sample.unkeyed Hid)).
    vm_compute. reflexivity.
  - split; [exact Hnone|]. rewrite (Hurl Sample.unkeyed [] Sample.existing Hnone).
    vm_compute. reflexivity.
Defined.

(** C6 as stated fails: a candidate without its URL passes
    [filter_new_projects], and a row without its key fields makes
    [attach_unique_keys] raise. *)
Lemma C6_counterexample_unkeyed_record_is_kept :
  dict_lookup "detail_url" Sample.unkeyed = None ∧
  Dedup.filter_new_projects [Sample.unkeyed] Sample.existing = [Sample.unkeyed] ∧
  dict_lookup "project_name" Sample.unkeyed = None ∧
  Dedup.attach_unique_keys (λ raw, raw) [Sample.unkeyed] = Raised (KeyError "project_name").
Proof. split_and!; by vm_compute. Qed.

(** A record of [main.py] without a listing identifier carries [None]
    under [ifb_project_id]; its identifier text is "None", and
    [append_new_rows] selects it for the append without a warning. *)
Lemma main_record_without_identifier_is_selected :
  dict_lookup "ifb_project_id" (Main.to_dict Sample.alpha) = Some None ∧
  Main.id_of "ifb_project_id" (Main.to_dict Sample.alpha) = lit "None" ∧
  Main.select_new_rows "ifb_project_id" ∅ [Main.to_dict Sample.alpha] =
    ([dict_values (Main.to_dict Sample.alpha)], []).
Proof. split_and!; by vm_compute. Qed.

(** ** The store that does not exist yet *)




(** A date whose digits run on: the year is the first four of the run. *)
Lemma year_inside_longer_run :
  search_year ascii_db (lit "start 14041231") = Some (lit "1404") ∧
  search_year ascii_db (lit "ref 77 on 1403/12/20") = Some (lit "1403") ∧
  search_year ascii_db (lit "14-04-01") = None.
Proof. split_and!; by vm_compute. Qed.

(** A record dated "soon" between two records of 1404 and 1403. *)
Lemma C7_witness_undated_record :
  Paginator.year_of ascii_db Main.fund_collection_start_date
    (Sample.dated "soon") = None ∧
  (Paginator.scan_page ascii_db Main.fund_collection_start_date Main.project_name
     ([Sample.dated "1404/05/01"] ++ Sample.dated "soon" :: [Sample.dated "1403/12/20"]) []).1 =
    ([Sample.dated "1404/05/01"], true).
Proof.
  assert (Paginator.year_of ascii_db Main.fund_collection_start_date
            (Sample.dated "soon") = None) as Hyear by (vm_compute; reflexivity).
  split; [exact Hyear|].
  rewrite (proj1 (proj2 (proj2 (C7_unclassifiable_record_is_passed_over ascii_db
                                  Main.fund_collection_start_date Main.project_name
                                  (Sample.dated "soon") [Sample.dated "1404/05/01"]
                                  [Sample.dated "1403/12/20"] [] Hyear)))).
  vm_compute. reflexivity.
Defined.

(** * Further properties *)

(** ** Strings *)

Section StringFacts.
Context (U : unicode_db).

Lemma starts_with_prefix (p s : str) :
  starts_with p s = true ↔ ∃ r, s = p ++ r.
Proof.
  revert s. induction p as [|a p IH]; intros s; simpl.
  - split; [eauto|done].
  - destruct s as [|b s].
    + split; [done|]. by intros [r ?].
    + rewrite andb_true_iff, N.eqb_eq, IH. split.
      * intros [-> [r ->]]. eauto.
      * intros [r [= -> ->]]. eauto.
Qed.

Lemma contains_infix (p s : str) :
  contains p s = true ↔ ∃ a b, s = a ++ p ++ b.
Proof.
  induction s as [|c s IH]; cbn [contains]; rewrite orb_true_iff, starts_with_prefix.
  - split.
    + intros [[r Hr]|?]; [|done]. by exists [], r.
    + intros (a & b & Hs). left. destruct a; [by exists b|done].
  - rewrite IH. split.
    + intros [[r Hr]|(a & b & ->)]; [by exists [], r|by exists (c :: a), b].
    + intros (a & b & Hs). destruct a as [|c' a]; [left; by exists b|].
      right. injection Hs as -> ->. eauto.
Qed.

Lemma lstrip_split (s : str) :
  ∃ ws, s = ws ++ lstrip U s ∧ Forall (λ c, is_space U c = true) ws.
Proof.
  induction s as [|c s (ws & Hs & Hws)]; simpl; [by exists []|].
  destruct (is_space U c) eqn:Hc; [|by exists []].
  exists (c :: ws). split; [by rewrite Hs at 1|by constructor].
Qed.

Lemma lstrip_no_leading_space (s : str) : no_leading_space U (lstrip U s).
Proof.
  induction s as [|c s IH]; simpl; [done|].
  by destruct (is_space U c) eqn:Hc.
Qed.

Lemma lstrip_fixed (s : str) : no_leading_space U s → lstrip U s = s.
Proof. destruct s as [|c s]; simpl; [done|]. by intros ->. Qed.

Lemma strip_trimmed (s : str) : trimmed U (strip U s).
Proof.
  unfold strip, trimmed. rewrite reverse_involutive.
  split; [|apply lstrip_no_leading_space].
  destruct (lstrip_split (reverse (lstrip U s))) as (ws & Hrev & Hws).
  pose proof (lstrip_no_leading_space s) as Hhead.
  apply (f_equal reverse) in Hrev. rewrite reverse_involutive, reverse_app in Hrev.
  destruct (reverse (lstrip U (reverse (lstrip U s)))) as [|c u]; [done|].
  rewrite Hrev in Hhead. exact Hhead.
Qed.

Lemma strip_fixed (s : str) : trimmed U s → strip U s = s.
Proof.
  intros [Hhead Htail]. unfold strip.
  by rewrite (lstrip_fixed s Hhead), (lstrip_fixed _ Htail), reverse_involutive.
Qed.

Lemma strip_idempotent (s : str) : strip U (strip U s) = strip U s.
Proof. apply strip_fixed, strip_trimmed. Qed.

Lemma span_digits_split (s : str) :
  s = (span_digits U s).1 ++ (span_digits U s).2 ∧
  Forall (λ c, is_digit U c = true) (span_digits U s).1.
Proof.
  induction s as [|c s [Hs Hds]]; simpl; [done|].
  destruct (is_digit U c) eqn:Hc; [|done].
  destruct (span_digits U s) as [ds r]. simpl in *. split; [by rewrite Hs at 1|by constructor].
Qed.

Lemma match_framed_sound (pre post s ds : str) :
  match_framed U pre post s = Some ds →
  digit_string U ds ∧ ∃ b, s = pre ++ ds ++ post ++ b.
Proof.
  unfold match_framed. destruct (starts_with pre s) eqn:Hpre; [|done].
  apply starts_with_prefix in Hpre as [r ->].
  rewrite drop_app_length.
  destruct (span_digits_split r) as [Hr Hds].
  destruct (span_digits U r) as [[|c ds'] r']; [done|]. simpl in *.
  destruct (starts_with post r') eqn:Hpost; [|done].
  apply starts_with_prefix in Hpost as [b ->]. intros [= <-].
  split; [done|]. exists b. by rewrite Hr.
Qed.

Lemma search_framed_sound (pre post s ds : str) :
  search_framed U pre post s = Some ds →
  digit_string U ds ∧ ∃ a b, s = a ++ pre ++ ds ++ post ++ b.
Proof.
  induction s as [|c s IH]; cbn [search_framed].
  - destruct (match_framed U pre post []) eqn:Hm; [|done].
    intros [= ->]. apply match_framed_sound in Hm as [? [b ?]]. split; [done|by exists [], b].
  - destruct (match_framed U pre post (c :: s)) eqn:Hm.
    + intros [= ->]. apply match_framed_sound in Hm as [? [b ?]].
      split; [done|by exists [], b].
    + intros (Hds & a & b & ->)%IH. split; [done|]. by exists (c :: a), b.
Qed.

End StringFacts.

(** ** The record extractor, further *)

Section ExtractorMore.
Context (U : unicode_db) (W : site).

Lemma handler_id_sound name tag id :
  handler_id U name tag = Some id →
  digit_string U id ∧
  ∃ t onclick a b, tag = Some t ∧ el_attrs t !! "onclick"%string = Some onclick ∧
                   onclick = a ++ (lit name ++ lit "('") ++ id ++ lit "')" ++ b.
Proof.
  unfold handler_id. destruct tag as [t|]; [|done]. cbn.
  destruct (el_attrs t !! "onclick"%string) as [onclick|] eqn:Hattr; [|done]. cbn.
  intros (Hid & a & b & Hs)%search_framed_sound. split; [done|].
  by exists t, onclick, a, b.
Qed.

Lemma modal_log_no_failure desc_id :
  row_failures (_extract_description_from_modal U W desc_id).2 = 0%nat.
Proof. unfold _extract_description_from_modal. by repeat case_match. Qed.

Lemma row_failures_app log1 log2 :
  row_failures (log1 ++ log2) = (row_failures log1 + row_failures log2)%nat.
Proof. unfold row_failures. by rewrite List.filter_app, length_app. Qed.

Lemma main_row_body_account cells d proj log d' :
  Main.row_body U W cells d = Some (proj, log, d') →
  row_failures log = 0%nat ∧ clock d' = S (clock d) ∧ current_page d' = current_page d.
Proof.
  unfold Main.row_body. destruct (platform_href cells) as [href|]; [|done]. cbn.
  destruct (handler_id U "showDesc" (cell_a (cells !!! 8%nat))) as [id|].
  - pose proof (modal_log_no_failure id) as Hlog.
    destruct (_extract_description_from_modal U W id) as [text mlog]. cbn [snd] in Hlog.
    intros [= <- <- <-]. by rewrite row_failures_app, Hlog.
  - by intros [= <- <- <-].
Qed.

Lemma v7_row_body_account cells d proj log d' :
  V7.row_body U W cells d = Some (proj, log, d') →
  row_failures log = 0%nat ∧ clock d' = S (clock d) ∧ current_page d' = current_page d.
Proof.
  unfold V7.row_body. destruct (platform_href cells) as [href|]; [|done]. cbn.
  destruct (handler_id U "showDesc" (cell_a (cells !!! 8%nat))) as [id|].
  - pose proof (modal_log_no_failure id) as Hlog.
    destruct (_extract_description_from_modal U W id) as [text mlog]. cbn [snd] in Hlog.
    intros [= <- <- <-]. by rewrite row_failures_app, Hlog.
  - by intros [= <- <- <-].
Qed.

Lemma main_extract_rows_account rows d :
  let '(projects, log, d') := Main.extract_rows U W rows d in
  (length projects + row_failures log)%nat = length (wide_rows rows) ∧
  clock d' = (clock d + length projects)%nat ∧ current_page d' = current_page d.
Proof.
  revert d. induction rows as [|cells rows IH]; intros d; [simpl; by rewrite Nat.add_0_r|].
  cbn [Main.extract_rows wide_rows List.filter]. unfold Main.extract_row.
  destruct (decide (10 ≤ length cells)%nat) as [Hwide|Hshort].
  - rewrite bool_decide_eq_true_2 by done.
    destruct (Main.row_body U W cells d) as [[[proj log] d1]|] eqn:Hbody.
    + apply main_row_body_account in Hbody as (Hlog & Hclock & Hpage).
      specialize (IH d1). destruct (Main.extract_rows U W rows d1) as [[projects log'] d2].
      destruct IH as (Hcount & Hclock' & Hpage').
      rewrite row_failures_app, Hlog. fold (wide_rows rows). cbn [length app].
      split_and!; [lia|lia|congruence].
    + specialize (IH d). destruct (Main.extract_rows U W rows d) as [[projects log'] d2].
      destruct IH as (Hcount & Hclock' & Hpage').
      fold (wide_rows rows). cbn [length app]. unfold row_failures in *. cbn.
      split_and!; [lia|lia|congruence].
  - rewrite bool_decide_eq_false_2 by done.
    specialize (IH d). destruct (Main.extract_rows U W rows d) as [[projects log'] d2].
    exact IH.
Qed.

Lemma v7_extract_rows_account rows d :
  let '(projects, log, d') := V7.extract_rows U W rows d in
  (length projects + row_failures log)%nat = length (wide_rows rows) ∧
  clock d' = (clock d + length projects)%nat ∧ current_page d' = current_page d.
Proof.
  revert d. induction rows as [|cells rows IH]; intros d; [simpl; by rewrite Nat.add_0_r|].
  cbn [V7.extract_rows wide_rows List.filter]. unfold V7.extract_row.
  destruct (decide (10 ≤ length cells)%nat) as [Hwide|Hshort].
  - rewrite bool_decide_eq_true_2 by done.
    destruct (V7.row_body U W cells d) as [[[proj log] d1]|] eqn:Hbody.
    + apply v7_row_body_account in Hbody as (Hlog & Hclock & Hpage).
      specialize (IH d1). destruct (V7.extract_rows U W rows d1) as [[projects log'] d2].
      destruct IH as (Hcount & Hclock' & Hpage').
      rewrite row_failures_app, Hlog. fold (wide_rows rows). cbn [length app].
      split_and!; [lia|lia|congruence].
    + specialize (IH d). destruct (V7.extract_rows U W rows d) as [[projects log'] d2].
      destruct IH as (Hcount & Hclock' & Hpage').
      fold (wide_rows rows). cbn [length app]. unfold row_failures in *. cbn.
      split_and!; [lia|lia|congruence].
  - rewrite bool_decide_eq_false_2 by done.
    specialize (IH d). destruct (V7.extract_rows U W rows d) as [[projects log'] d2].
    exact IH.
Qed.

End ExtractorMore.

(** X1.  Every row of the grid after the first that has at least ten cells
    gives either one record or one logged row failure, and no other row
    gives anything: the records and the row failures of a page add up to
    the number of such rows.  Each record costs one reading of the clock,
    and extraction leaves the driver on its page.  When the table is not
    found the page gives no record and one error. *)
Theorem extraction_accounts_for_every_wide_row (U : unicode_db) (W : site) (d : driver) :
  match listing W (current_page d) with
  | Some rows =>
      let '(projects, log, d') := Main._extract_current_page_projects U W d in
      let '(projects7, log7, d7) := V7._extract_current_page_projects U W d in
      (length projects + row_failures log)%nat = length (wide_rows (drop 1 rows)) ∧
      (length projects7 + row_failures log7)%nat = length (wide_rows (drop 1 rows)) ∧
      clock d' = (clock d + length projects)%nat ∧
      clock d7 = (clock d + length projects7)%nat ∧
      current_page d' = current_page d ∧ current_page d7 = current_page d
  | None =>
      Main._extract_current_page_projects U W d = ([], [TableNotFound], d) ∧
      V7._extract_current_page_projects U W d = ([], [TableNotFound], d)
  end.
Proof.
  unfold Main._extract_current_page_projects, V7._extract_current_page_projects.
  destruct (listing W (current_page d)) as [rows|]; [|done].
  pose proof (main_extract_rows_account U W (drop 1 rows) d) as Hmain.
  pose proof (v7_extract_rows_account U W (drop 1 rows) d) as Hv7.
  destruct (Main.extract_rows U W (drop 1 rows) d) as [[projects log] d'].
  destruct (V7.extract_rows U W (drop 1 rows) d) as [[projects7 log7] d7].
  tauto.
Qed.

(** X2.  A record read from a row by [main.py]: the identifier of the details
    handler comes before that of the documents handler; an identifier is a
    non-empty run of digits; the documents URL is the listing URL with the
    identifier as [doc_id], and empty exactly when there is no identifier;
    without an identifier in the details handler the description is the
    placeholder. *)
Theorem main_record_identifier_and_documents
    (U : unicode_db) (W : site) (cells : list cell) (d d' : driver)
    (proj : Main.IFBProject) (log : list event) :
  Main.row_body U W cells d = Some (proj, log, d') →
  let shown := handler_id U "showDesc" (cell_a (cells !!! 8%nat)) in
  let filed := handler_id U "GoToDocuments" (cell_icon_folder (cells !!! 9%nat)) in
  Main.ifb_project_id proj = (match shown with Some id => Some id | None => filed end) ∧
  match Main.ifb_project_id proj with
  | Some id =>
      digit_string U id ∧ Main.documents_url proj = IFB_MAIN_URL ++ lit "?doc_id=" ++ id
  | None => Main.documents_url proj = []
  end ∧
  (shown = None → Main.description proj = description_unavailable) ∧
  Main.scraped_date proj = now W (clock d).
Proof.
  intros Hbody shown filed. subst shown filed. revert Hbody. unfold Main.row_body.
  destruct (platform_href cells) as [href|]; [|done]. cbn.
  destruct (handler_id U "showDesc" (cell_a (cells !!! 8%nat))) as [id|] eqn:Hshown.
  - destruct (handler_id_sound U _ _ _ Hshown) as [[Hne Hdigits] _].
    destruct (_extract_description_from_modal U W id) as [text mlog].
    destruct id as [|c id]; [done|]. cbn. intros [= <- <- <-]. cbn. by split_and!.
  - cbn. destruct (handler_id U "GoToDocuments" (cell_icon_folder (cells !!! 9%nat)))
      as [id|] eqn:Hfiled.
    + destruct (handler_id_sound U _ _ _ Hfiled) as [[Hne Hdigits] _].
      destruct id as [|c id]; [done|]. intros [= <- <- <-]. cbn. by split_and!.
    + intros [= <- <- <-]. cbn. by split_and!.
Qed.

(** X3.  A record read from a row by [v7.py]: the documents URL depends on the
    documents handler alone and the description on the details handler
    alone. *)
Theorem v7_record_documents_and_description
    (U : unicode_db) (W : site) (cells : list cell) (d d' : driver)
    (project : V7.IFBProject) (log : list event) :
  V7.row_body U W cells d = Some (project, log, d') →
  match handler_id U "GoToDocuments" (cell_icon_folder (cells !!! 9%nat)) with
  | Some doc_id =>
      digit_string U doc_id ∧
      V7.documents_url project = IFB_MAIN_URL ++ lit "?doc_id=" ++ doc_id
  | None => V7.documents_url project = []
  end ∧
  match handler_id U "showDesc" (cell_a (cells !!! 8%nat)) with
  | Some desc_id =>
      digit_string U desc_id ∧
      V7.description project = (_extract_description_from_modal U W desc_id).1
  | None => V7.description project = description_unavailable
  end.
Proof.
  unfold V7.row_body. destruct (platform_href cells) as [href|]; [|done]. cbn.
  destruct (handler_id U "showDesc" (cell_a (cells !!! 8%nat))) as [desc_id|] eqn:Hshown;
    destruct (handler_id U "GoToDocuments" (cell_icon_folder (cells !!! 9%nat)))
      as [doc_id|] eqn:Hfiled;
    try destruct (handler_id_sound U _ _ _ Hshown) as [? _];
    try destruct (handler_id_sound U _ _ _ Hfiled) as [? _];
    try destruct (_extract_description_from_modal U W desc_id) as [text mlog];
    intros [= <- <- <-]; cbn; by split_and!.
Qed.

(** X4.  The seven fields both programs read as [cells[i].text.strip()] are
    stored without white space at either end, and stripping them again
    changes nothing; the platform URL is the [href] as it stands. *)
Theorem record_text_fields_are_trimmed
    (U : unicode_db) (W : site) (cells : list cell) (d : driver) :
  (∀ proj log d', Main.row_body U W cells d = Some (proj, log, d') →
     Forall (λ field, trimmed U field ∧ strip U field = field)
       [Main.row_number proj; Main.project_name proj; Main.company_name proj;
        Main.national_id proj; Main.status proj; Main.fund_collection_start_date proj;
        Main.project_end_date proj] ∧
     platform_href cells = Some (Main.platform_url proj)) ∧
  (∀ project log d', V7.row_body U W cells d = Some (project, log, d') →
     Forall (λ field, trimmed U field ∧ strip U field = field)
       [V7.row_number project; V7.project_name project; V7.company_name project;
        V7.national_id project; V7.status project; V7.fund_collection_start_date project;
        V7.project_end_date project] ∧
     platform_href cells = Some (V7.platform_url project)).
Proof.
  assert (∀ i, trimmed U (cell_value U cells i) ∧
               strip U (cell_value U cells i) = cell_value U cells i) as Hcell.
  { intros i. unfold cell_value. split; [apply strip_trimmed|apply strip_idempotent]. }
  split.
  - intros proj log d'. unfold Main.row_body.
    destruct (platform_href cells) as [href|]; [|done]. cbn.
    destruct (handler_id U "showDesc" (cell_a (cells !!! 8%nat))) as [id|];
      [destruct (_extract_description_from_modal U W id) as [text mlog]|];
      intros [= <- <- <-]; cbn; (split; [repeat constructor; apply Hcell|done]).
  - intros project log d'. unfold V7.row_body.
    destruct (platform_href cells) as [href|]; [|done]. cbn.
    destruct (handler_id U "showDesc" (cell_a (cells !!! 8%nat))) as [id|];
      [destruct (_extract_description_from_modal U W id) as [text mlog]|];
      intros [= <- <- <-]; cbn; (split; [repeat constructor; apply Hcell|done]).
Qed.

(** ** The paginator, further *)

Section TraversalMore.
Context (U : unicode_db) {project : Type}.
Context (start_of name_of : project → str).
Context (navigate : nat → driver → bool * list event * driver).
Context (extract : driver → list project * list event * driver).

Lemma kept_upto_on_target d0 n :
  Forall (λ proj, Paginator.on_target U start_of proj = true)
    (Paginator.kept_upto U start_of navigate extract d0 n).
Proof.
  induction n as [|n IH]; [constructor|].
  cbn [Paginator.kept_upto]. apply Forall_app. split; [done|].
  apply Forall_forall. intros proj Hin. apply list_elem_of_In, List.filter_In in Hin. tauto.
Qed.

Lemma traverse_unfold fuel page_num all log d :
  Paginator.traverse U start_of name_of navigate extract (S fuel) page_num all log d =
    let log := log ++ [PageStarted page_num] in
    let '(ok, nav_log, d) :=
      if decide (1 < page_num)%nat then navigate page_num d else (true, [], d) in
    if negb ok
    then Some (Traversal all page_num (log ++ nav_log ++ [CannotAdvance]) d)
    else
      let '(page_projects, page_log, d) := extract d in
      let log := log ++ nav_log ++ page_log in
      match page_projects with
      | [] => Some (Traversal all page_num (log ++ [PageEmpty page_num]) d)
      | _ :: _ =>
          let '(all, page_has_non_1404, scan_log) :=
            Paginator.scan_page U start_of name_of page_projects all in
          let log := log ++ scan_log ++
            [PageSummary page_num (length page_projects) (length all)] in
          if page_has_non_1404
          then Some (Traversal all page_num (log ++ [TraversalStopped page_num]) d)
          else Paginator.traverse U start_of name_of navigate extract fuel (S page_num)
                 all log d
      end.
Proof. reflexivity. Qed.

Lemma traverse_more_fuel fuel :
  ∀ page_num all log d t,
    Paginator.traverse U start_of name_of navigate extract fuel page_num all log d = Some t →
    Paginator.traverse U start_of name_of navigate extract (S fuel) page_num all log d = Some t.
Proof.
  induction fuel as [|fuel IH]; intros page_num all log d t; [done|].
  rewrite (traverse_unfold (S fuel)), (traverse_unfold fuel). cbv zeta.
  destruct (if decide (1 < page_num)%nat then navigate page_num d else (true, [], d))
    as [[ok nav_log] d1].
  destruct (negb ok); [done|].
  destruct (extract d1) as [[page page_log] d2].
  destruct page as [|proj page]; [done|].
  destruct (Paginator.scan_page U start_of name_of (proj :: page) all) as [[all' flag] scan_log].
  destruct flag; [done|]. apply IH.
Qed.

End TraversalMore.

(** X5.  A traversal returns records of the target year only: every record of
    the list is classified into "1404".  The traversal starts at page 1,
    so the page at which it leaves is at least 1. *)
Theorem traversal_returns_target_year_only
    (U : unicode_db) {project : Type} (start_of name_of : project → str)
    (navigate : nat → driver → bool * list event * driver)
    (extract : driver → list project * list event * driver)
    (fuel : nat) (d0 : driver) (t : traversal project) :
  Paginator.scrape_all_pages U start_of name_of navigate extract fuel d0 = Some t →
  Forall (λ proj, Paginator.year_of U start_of proj = Some (lit "1404")) (found t) ∧
  (1 ≤ last_page t)%nat.
Proof.
  unfold Paginator.scrape_all_pages.
  destruct (Paginator.traverse _ _ _ _ _ fuel 1 [] _ _) as [t'|] eqn:Ht; [|done].
  intros [= <-]. cbn [found last_page].
  apply (traverse_sound U start_of name_of navigate extract d0 fuel 1) in Ht
    as (Hrange & _ & _ & Hfound); [|lia|done].
  split; [|lia]. rewrite Hfound.
  assert (Forall (λ proj, Paginator.on_target U start_of proj = true)
            (Paginator.kept_at_halt U start_of navigate extract d0 (last_page t'))) as Hkept.
  { unfold Paginator.kept_at_halt. case_decide; by apply kept_upto_on_target. }
  eapply Forall_impl; [exact Hkept|].
  intros proj. unfold Paginator.on_target.
  destruct (Paginator.year_of U start_of proj) as [year|]; [|done].
  by intros ->%bool_decide_eq_true.
Qed.

(** X6.  The loop of [scrape_all_pages] has no page limit of its own: it is
    left through one of its three [break]s only.  On a source where no
    page fails to load, comes back empty or holds a record of another
    year, the run has not returned after any number of pages; and when it
    does return, the list, the page, the log and the driver are the same
    under every larger bound. *)
Theorem traversal_ends_only_at_a_halting_page
    (U : unicode_db) {project : Type} (start_of name_of : project → str)
    (navigate : nat → driver → bool * list event * driver)
    (extract : driver → list project * list event * driver) (d0 : driver) :
  let run fuel := Paginator.scrape_all_pages U start_of name_of navigate extract fuel d0 in
  ((∀ n, (1 ≤ n)%nat → ¬ Paginator.halts_at U start_of navigate extract d0 n) →
   ∀ fuel, run fuel = None) ∧
  (∀ fuel fuel' t, run fuel = Some t → (fuel ≤ fuel')%nat → run fuel' = Some t).
Proof.
  intros run. subst run. split.
  - intros Hnever fuel. unfold Paginator.scrape_all_pages.
    destruct (Paginator.traverse _ _ _ _ _ fuel 1 [] _ _) as [t|] eqn:Ht; [|done].
    apply (traverse_sound U start_of name_of navigate extract d0 fuel 1) in Ht
      as (Hrange & Hhalt & _); [|lia|done].
    destruct (Hnever (last_page t)); [lia|done].
  - intros fuel fuel' t Hrun Hle. induction Hle as [|fuel' Hle IH]; [done|].
    revert IH. unfold Paginator.scrape_all_pages.
    destruct (Paginator.traverse _ _ _ _ _ fuel' 1 [] _ _) as [t'|] eqn:Ht; [|done].
    by rewrite (traverse_more_fuel U start_of name_of navigate extract _ _ _ _ _ _ Ht).
Qed.

(** ** Card matching, further *)

Lemma contains_empty (s : str) : contains [] s = true.
Proof. apply contains_infix. by exists [], s. Qed.

Lemma contains_self (s : str) : contains s s = true.
Proof. apply contains_infix. exists [], []. by rewrite app_nil_r. Qed.

Lemma titles_match_blank (target card_title : str) :
  card_title = [] ∨ target = [] → titles_match target card_title = true.
Proof.
  unfold titles_match. intros [-> | ->]; rewrite contains_empty; [apply orb_true_r|done].
Qed.

(** X7.  The title test of four adapters reads as containment of one title in
    the other as a contiguous run of characters; it is symmetric, and it
    holds whenever one of the two titles is empty. *)
Theorem titles_match_reading (target card_title : str) :
  (titles_match target card_title = true ↔
     (∃ a b, card_title = a ++ target ++ b) ∨ (∃ a b, target = a ++ card_title ++ b)) ∧
  titles_match target card_title = titles_match card_title target ∧
  titles_match target [] = true ∧
  titles_match [] card_title = true ∧
  titles_match target target = true.
Proof.
  split_and!.
  - unfold titles_match. by rewrite orb_true_iff, !contains_infix.
  - apply orb_comm.
  - apply titles_match_blank. by left.
  - apply titles_match_blank. by right.
  - unfold titles_match. by rewrite contains_self.
Qed.

(** X8.  Each site adapter returns the mapping of the first card in document
    order whose title passes its test, whatever comes after that card, and
    the empty mapping when no card passes or the page cannot be loaded.
    The test is containment in either direction of the stripped titles
    for hamafarin, fundocrowd, karencrowd and ifund, and containment of
    the stripped record title in the raw card title for zeema. *)
Theorem adapters_take_first_passing_card (U : unicode_db) (P : web) (name url : str) :
  let both_ways := λ title_elem, titles_match (strip U name) (text_of U title_elem) in
  let one_way := λ title_span, contains (strip U name) (el_text title_span) in
  (∀ pre c post, hamafarin_cards P url = Some (pre ++ c :: post) →
     Forall (λ c', ¬ passes h_title both_ways c') pre → passes h_title both_ways c →
     _scrape_hamafarin U P name url = _extract_hamafarin_card U c) ∧
  (∀ pre c post, fundocrowd_cards P url = Some (pre ++ c :: post) →
     Forall (λ c', ¬ passes f_title both_ways c') pre → passes f_title both_ways c →
     _scrape_fundocrowd U P name url = fundocrowd_details_of U P c) ∧
  (∀ pre c post, karencrowd_cards P url = Some (pre ++ c :: post) →
     Forall (λ c', ¬ passes k_title both_ways c') pre → passes k_title both_ways c →
     _scrape_karencrowd U P name url = _extract_karencrowd_card U c) ∧
  (∀ pre c post, ifund_cards P url = Some (pre ++ c :: post) →
     Forall (λ c', ¬ passes i_title both_ways c') pre → passes i_title both_ways c →
     _scrape_ifund U P name url = _extract_ifund_card U c) ∧
  (∀ pre c post, zeema_cards P url = Some (pre ++ c :: post) →
     Forall (λ c', ¬ passes z_title one_way c') pre → passes z_title one_way c →
     _scrape_zeema U P name url = _extract_zeema_card U c) ∧
  (∀ cards, hamafarin_cards P url = Some cards →
     Forall (λ c', ¬ passes h_title both_ways c') cards → _scrape_hamafarin U P name url = []) ∧
  (∀ cards, fundocrowd_cards P url = Some cards →
     Forall (λ c', ¬ passes f_title both_ways c') cards → _scrape_fundocrowd U P name url = []) ∧
  (∀ cards, karencrowd_cards P url = Some cards →
     Forall (λ c', ¬ passes k_title both_ways c') cards → _scrape_karencrowd U P name url = []) ∧
  (∀ cards, ifund_cards P url = Some cards →
     Forall (λ c', ¬ passes i_title both_ways c') cards → _scrape_ifund U P name url = []) ∧
  (∀ cards, zeema_cards P url = Some cards →
     Forall (λ c', ¬ passes z_title one_way c') cards → _scrape_zeema U P name url = []) ∧
  (hamafarin_cards P url = None → _scrape_hamafarin U P name url = []) ∧
  (fundocrowd_cards P url = None → _scrape_fundocrowd U P name url = []) ∧
  (karencrowd_cards P url = None → _scrape_karencrowd U P name url = []) ∧
  (ifund_cards P url = None → _scrape_ifund U P name url = []) ∧
  (zeema_cards P url = None → _scrape_zeema U P name url = []).
Proof.
  intros both_ways one_way. subst both_ways one_way.
  unfold _scrape_hamafarin, _scrape_fundocrowd, _scrape_karencrowd, _scrape_ifund,
    _scrape_zeema.
  split_and!;
    try (intros pre c post -> Hpre Hc; cbv zeta;
         by rewrite (first_card_first _ _ pre c post Hpre Hc));
    try (intros cards -> Hnone; cbv zeta; by rewrite (first_card_none _ _ cards Hnone));
    by intros ->.
Qed.

(** X9.  A card whose stripped title is empty passes the two-way test against
    every record, so such a card at the head of the page is the one
    extracted whatever the record is; and a record whose stripped name is
    empty is matched to the first card that has a title element. *)
Theorem blank_titles_match_everything (U : unicode_db) (P : web) (name url : str) :
  (∀ c rest e, hamafarin_cards P url = Some (c :: rest) →
     h_title c = Some e → text_of U e = [] ∨ strip U name = [] →
     _scrape_hamafarin U P name url = _extract_hamafarin_card U c) ∧
  (∀ c rest e, karencrowd_cards P url = Some (c :: rest) →
     k_title c = Some e → text_of U e = [] ∨ strip U name = [] →
     _scrape_karencrowd U P name url = _extract_karencrowd_card U c) ∧
  (∀ c rest e, ifund_cards P url = Some (c :: rest) →
     i_title c = Some e → text_of U e = [] ∨ strip U name = [] →
     _scrape_ifund U P name url = _extract_ifund_card U c) ∧
  (∀ c rest e, fundocrowd_cards P url = Some (c :: rest) →
     f_title c = Some e → text_of U e = [] ∨ strip U name = [] →
     _scrape_fundocrowd U P name url = fundocrowd_details_of U P c) ∧
  (∀ c rest e, zeema_cards P url = Some (c :: rest) →
     z_title c = Some e → strip U name = [] →
     _scrape_zeema U P name url = _extract_zeema_card U c).
Proof.
  assert (∀ e, text_of U e = [] ∨ strip U name = [] →
               titles_match (strip U name) (text_of U e) = true) as Hblank.
  { intros e Hempty. by apply titles_match_blank. }
  unfold _scrape_hamafarin, _scrape_fundocrowd, _scrape_karencrowd, _scrape_ifund,
    _scrape_zeema.
  split_and!; intros c rest e -> Htitle Hempty; cbn [first_card]; rewrite Htitle.
  1-4: by rewrite (Hblank e Hempty).
  rewrite Hempty. by rewrite contains_empty.
Qed.

(** ** Dictionaries, further *)

Lemma dict_keys_set key v (d : dict) :
  dict_keys (dict_set key v d) =
    if decide (key ∈ dict_keys d) then dict_keys d else dict_keys d ++ [key].
Proof.
  unfold dict_keys. induction d as [|[k w] d IH].
  - cbn. case_decide as Hin; [by apply elem_of_nil in Hin|done].
  - cbn [dict_set]. rewrite fmap_cons. cbn [fst].
    destruct (decide (k = key)) as [->|Hne].
    + rewrite fmap_cons. cbn [fst]. rewrite decide_True; [done|]. apply list_elem_of_here.
    + rewrite fmap_cons, IH. cbn [fst]. destruct (decide (key ∈ d.*1)) as [Hin|Hout].
      * rewrite decide_True; [done|]. by apply list_elem_of_further.
      * rewrite decide_False; [done|]. rewrite elem_of_cons. intros [?|?]; congruence.
Qed.

Lemma dict_lookup_None key (d : dict) : dict_lookup key d = None ↔ key ∉ dict_keys d.
Proof.
  unfold dict_keys. induction d as [|[k w] d IH]; simpl.
  - split; [intros _; apply not_elem_of_nil|done].
  - rewrite elem_of_cons. case_decide as Hk.
    + split; [done|]. intros Hnot. destruct Hnot. by left.
    + rewrite IH. split; [intros Hnot [?|?]; [congruence|done]|]. intros Hnot ?. apply Hnot. by right.
Qed.

Lemma well_keyed_set key v (d : dict) : well_keyed d → well_keyed (dict_set key v d).
Proof.
  unfold well_keyed. intros Hd. rewrite dict_keys_set. case_decide; [done|].
  apply NoDup_app. split_and!; [done| |apply NoDup_singleton].
  intros k Hk ->%list_elem_of_singleton. done.
Qed.

Lemma well_keyed_assign key v (d : dict) : well_keyed d → well_keyed (assign key v d).
Proof. destruct v; simpl; [apply well_keyed_set|done]. Qed.

Lemma well_keyed_update (d e : dict) : well_keyed d → well_keyed (dict_update d e).
Proof.
  unfold dict_update. revert d. induction e as [|[k v] e IH]; intros d Hd; [done|].
  cbn [foldl]. by apply IH, well_keyed_set.
Qed.

Lemma well_keyed_foldl {A} (step : dict → A → dict) items (d : dict) :
  (∀ d x, well_keyed d → well_keyed (step d x)) → well_keyed d →
  well_keyed (foldl step d items).
Proof.
  intros Hstep. revert d. induction items as [|x items IH]; intros d Hd; [done|].
  simpl. by apply IH, Hstep.
Qed.

Lemma well_keyed_nil : well_keyed [].
Proof. constructor. Qed.

(** [d.update(e)] keeps the keys of [d] in their places and appends the
    keys that are new, each once, in the order [e] brings them. *)
Lemma dict_update_keys (d e : dict) :
  ∃ extra, dict_keys (dict_update d e) = dict_keys d ++ extra ∧ NoDup extra ∧
           ∀ k, k ∈ extra → k ∈ dict_keys e ∧ k ∉ dict_keys d.
Proof.
  unfold dict_update. revert d. induction e as [|[k v] e IH]; intros d.
  - exists []. rewrite app_nil_r. split_and!; [done|constructor|]. by intros k ?%elem_of_nil.
  - cbn [foldl fst snd]. destruct (IH (dict_set k v d)) as (extra & Hkeys & Hnodup & Hextra).
    rewrite dict_keys_set in Hkeys, Hextra. destruct (decide (k ∈ dict_keys d)) as [Hin|Hout].
    + exists extra. split_and!; [done..|]. intros k' Hk'. destruct (Hextra k' Hk').
      split; [|done]. unfold dict_keys. cbn. by apply list_elem_of_further.
    + exists (k :: extra). rewrite <- app_assoc in Hkeys. split_and!; [done| |].
      * constructor; [|done]. intros Hk. destruct (Hextra k Hk) as [_ Hnot].
        apply Hnot, elem_of_app. right. apply list_elem_of_here.
      * intros k' [->|Hk']%elem_of_cons.
        -- split; [|done]. unfold dict_keys. cbn. apply list_elem_of_here.
        -- destruct (Hextra k' Hk') as [Hin Hnot]. split.
           ++ unfold dict_keys. cbn. by apply list_elem_of_further.
           ++ intros ?. apply Hnot, elem_of_app. by left.
Qed.

Lemma dict_lookup_update (key : string) (d e : dict) v :
  well_keyed e → dict_lookup key e = Some v → dict_lookup key (dict_update d e) = Some v.
Proof.
  unfold dict_update, well_keyed, dict_keys. revert d.
  induction e as [|[k w] e IH]; intros d Hnodup; [done|].
  cbn in Hnodup. apply NoDup_cons in Hnodup as [Hk Hnodup].
  cbn [dict_lookup foldl fst snd]. case_decide as Hkey.
  - intros [= ->]. subst k. rewrite dict_lookup_update_other.
    + rewrite dict_lookup_set. by rewrite decide_True.
    + apply Forall_forall. intros [k' v'] Hin Heq. cbn in Heq. subst k'.
      apply Hk. apply list_elem_of_fmap. by exists (key, v').
  - by apply IH.
Qed.

(** ** The adapters write each key once *)

Section AdapterWellKeyed.
Context (U : unicode_db) (P : web).

Ltac wk_step :=
  first
    [ assumption
    | apply well_keyed_nil
    | apply well_keyed_assign
    | apply well_keyed_set
    | apply well_keyed_update
    | match goal with
      | |- well_keyed (if ?c then _ else _) => destruct c
      | |- well_keyed (match ?x with _ => _ end) => destruct x
      end ].

Lemma labelled_step_well_keyed field d item :
  (∀ lbl val d, well_keyed d → well_keyed (field lbl val d)) →
  well_keyed d → well_keyed (labelled_step U field d item).
Proof. intros Hfield Hd. unfold labelled_step. repeat case_match; auto. Qed.

Lemma hamafarin_field_well_keyed lbl val d :
  well_keyed d → well_keyed (hamafarin_field U lbl val d).
Proof. intros. unfold hamafarin_field. repeat wk_step. Qed.

Lemma karencrowd_field_well_keyed lbl val d :
  well_keyed d → well_keyed (karencrowd_field lbl val d).
Proof. intros. unfold karencrowd_field. repeat wk_step. Qed.

Lemma ifund_item_well_keyed d text : well_keyed d → well_keyed (ifund_item U d text).
Proof. intros. unfold ifund_item. repeat wk_step. Qed.

Lemma zeema_req_well_keyed d spans : well_keyed d → well_keyed (zeema_req U d spans).
Proof. intros. unfold zeema_req. repeat wk_step. Qed.

Lemma extract_hamafarin_well_keyed card : well_keyed (_extract_hamafarin_card U card).
Proof.
  unfold _extract_hamafarin_card.
  repeat first
    [ apply well_keyed_foldl;
      [intros; apply labelled_step_well_keyed; [apply hamafarin_field_well_keyed|done]|]
    | wk_step ].
Qed.

Lemma extract_fundocrowd_well_keyed card : well_keyed (_extract_fundocrowd_card U card).
Proof. unfold _extract_fundocrowd_card. repeat wk_step. Qed.

Lemma extract_karencrowd_well_keyed card : well_keyed (_extract_karencrowd_card U card).
Proof.
  unfold _extract_karencrowd_card.
  repeat first
    [ apply well_keyed_foldl;
      [intros; apply labelled_step_well_keyed; [apply karencrowd_field_well_keyed|done]|]
    | wk_step ].
Qed.

Lemma extract_ifund_well_keyed card : well_keyed (_extract_ifund_card U card).
Proof.
  unfold _extract_ifund_card.
  repeat first
    [ apply well_keyed_foldl; [intros; by apply ifund_item_well_keyed|]
    | wk_step ].
Qed.

Lemma extract_zeema_well_keyed card : well_keyed (_extract_zeema_card U card).
Proof.
  unfold _extract_zeema_card.
  repeat first
    [ apply well_keyed_foldl; [intros; by apply zeema_req_well_keyed|]
    | wk_step ].
Qed.

Lemma generic_fields_well_keyed page : well_keyed (generic_fields U page).
Proof. unfold generic_fields. repeat wk_step. Qed.

Lemma fundocrowd_details_of_well_keyed card : well_keyed (fundocrowd_details_of U P card).
Proof.
  unfold fundocrowd_details_of. cbv zeta. case_match.
  - apply well_keyed_update, extract_fundocrowd_well_keyed.
  - apply extract_fundocrowd_well_keyed.
Qed.

Lemma site_adapters_well_keyed name url :
  well_keyed (_scrape_hamafarin U P name url) ∧
  well_keyed (_scrape_fundocrowd U P name url) ∧
  well_keyed (_scrape_karencrowd U P name url) ∧
  well_keyed (_scrape_ifund U P name url) ∧
  well_keyed (_scrape_zeema U P name url).
Proof.
  unfold _scrape_hamafarin, _scrape_fundocrowd, _scrape_karencrowd, _scrape_ifund,
    _scrape_zeema.
  split_and!; repeat case_match; try apply well_keyed_nil;
    auto using extract_hamafarin_well_keyed, extract_karencrowd_well_keyed,
      extract_ifund_well_keyed, extract_zeema_well_keyed, well_keyed_update,
      extract_fundocrowd_well_keyed.
Qed.

End AdapterWellKeyed.

Section EnrichmentMore.
Context (U : unicode_db) (P : web) (netloc : list N → result (list N)).

Lemma main_run_well_keyed a project : well_keyed (Main.run U P netloc a project).
Proof.
  destruct (site_adapters_well_keyed U P (Main.project_name project)
              (Main.platform_url project)) as (? & ? & ? & ? & ?).
  destruct a; simpl; try done.
  unfold Main._scrape_generic. repeat case_match; try apply well_keyed_nil.
  - apply well_keyed_set, generic_fields_well_keyed.
  - apply generic_fields_well_keyed.
Qed.

Lemma main_scrape_well_keyed project details log :
  Main.scrape U P netloc project = Ok (details, log) → well_keyed details.
Proof.
  unfold Main.scrape. destruct (Main.platform_url project) as [|c url].
  - intros [= <- <-]. apply well_keyed_nil.
  - destruct (netloc (c :: url)) as [host|e]; simpl; [|done].
    intros [= <- <-]. apply main_run_well_keyed.
Qed.

Lemma v7_scrape_well_keyed project : well_keyed (V7._scrape_single_platform U P project).
Proof.
  unfold V7._scrape_single_platform. case_match; [apply well_keyed_nil|].
  destruct (site_adapters_well_keyed U P (V7.project_name project)
              (V7.platform_url project)) as (? & ? & ? & ? & ?).
  destruct (V7.adapter_for _); simpl; try done;
    unfold V7._scrape_generic; case_match;
    auto using generic_fields_well_keyed, well_keyed_nil.
Qed.

End EnrichmentMore.

Lemma added_keys_only k (proj : Main.IFBProject) (project : V7.IFBProject) :
  k ∈ platform_keys →
  (k ∉ dict_keys (Main.to_dict proj) → k ∈ added_keys) ∧
  (k ∉ dict_keys (V7.to_dict project) → k ∈ added_keys).
Proof.
  unfold platform_keys. rewrite !elem_of_cons, elem_of_nil.
  intros Hk. repeat (destruct Hk as [->|Hk]; [split; intros Hnot;
    first [ by apply (bool_decide_unpack _); vm_compute
          | exfalso; apply Hnot; apply (bool_decide_unpack _); vm_compute; exact I ]|]).
  done.
Qed.

(** ** Enrichment, further *)

Lemma extract_fundocrowd_card_keys (U : unicode_db) card :
  keys_within fundocrowd_card_keys (_extract_fundocrowd_card U card).
Proof.
  unfold _extract_fundocrowd_card.
  repeat first
    [ apply keys_within_nil
    | apply keys_within_assign; [apply (bool_decide_unpack _); vm_compute; exact I|]
    | apply keys_within_set; [apply (bool_decide_unpack _); vm_compute; exact I|]
    | match goal with
      | |- keys_within _ (match ?x with _ => _ end) => destruct x
      end ].
Qed.

(** X10.  The second page fetch of the fundocrowd adapter can supply the payment
    frequency and nothing else: every other field of the mapping is the
    one read from the card, so the expected return and the duration, whose
    absence triggers the fetch, are never filled by it; the card itself
    never carries a payment frequency; and no fetch is made when both
    fields are present and non-empty. *)
Theorem fundocrowd_second_fetch_adds_payment_frequency_only
    (U : unicode_db) (P : web) (card : fundocrowd_card) :
  let on_card := _extract_fundocrowd_card U card in
  (∀ key, key ≠ "profit_payment_frequency"%string →
     dict_lookup key (fundocrowd_details_of U P card) = dict_lookup key on_card) ∧
  dict_lookup "profit_payment_frequency" on_card = None ∧
  (truthy (dict_get "expected_return" on_card) = true →
   truthy (dict_get "project_duration" on_card) = true →
   fundocrowd_details_of U P card = on_card).
Proof.
  intros on_card. subst on_card. split_and!.
  - intros key Hkey. unfold fundocrowd_details_of. cbv zeta. case_match; [|done].
    apply dict_lookup_update_other. unfold _scrape_fundocrowd_details.
    repeat case_match; try constructor; try done.
    unfold assign. case_match; [|constructor]. cbn. by repeat constructor.
  - apply dict_lookup_None. intros Hin.
    pose proof (extract_fundocrowd_card_keys U card) as Hkeys.
    unfold keys_within in Hkeys. rewrite Forall_forall in Hkeys.
    apply list_elem_of_fmap in Hin as ([k v] & Hk & Hin). cbn in Hk. subst k.
    specialize (Hkeys _ Hin). cbn in Hkeys. revert Hkeys.
    apply (bool_decide_unpack _). vm_compute. exact I.
  - intros Hreturn Hduration. unfold fundocrowd_details_of. cbv zeta.
    by rewrite Hreturn, Hduration.
Qed.

(** X11.  The combined dictionary of a record has the fields of the dataclass
    as its first keys, in the order of the dataclass, followed by the keys
    the adapter added, each once and each one of [title_on_platform],
    [status_on_platform], [progress_width] and [details_page_url]; and
    under every key the adapter wrote it holds the adapter's value, under
    every other key the value of the record. *)
Theorem combined_record_layout
    (U : unicode_db) (P : web) (netloc : list N → result (list N)) :
  (∀ idx total proj combined log,
     Main.enrich_one U P netloc idx total proj = Ok (combined, log) →
     ∃ details slog extra,
       Main.scrape U P netloc proj = Ok (details, slog) ∧
       dict_keys combined = dict_keys (Main.to_dict proj) ++ extra ∧
       NoDup extra ∧ Forall (λ k, k ∈ added_keys) extra ∧
       ∀ key, dict_lookup key combined =
                match dict_lookup key details with
                | Some v => Some v
                | None => dict_lookup key (Main.to_dict proj)
                end) ∧
  (∀ idx total project,
     let details := V7._scrape_single_platform U P project in
     let combined := (V7.enrich_one U P idx total project).1 in
     ∃ extra,
       dict_keys combined = dict_keys (V7.to_dict project) ++ extra ∧
       NoDup extra ∧ Forall (λ k, k ∈ added_keys) extra ∧
       ∀ key, dict_lookup key combined =
                match dict_lookup key details with
                | Some v => Some v
                | None => dict_lookup key (V7.to_dict project)
                end).
Proof.
  assert (∀ (d details : dict) key, well_keyed details →
            dict_lookup key (dict_update d details) =
              match dict_lookup key details with
              | Some v => Some v
              | None => dict_lookup key d
              end) as Hlookup.
  { intros d details key Hwk. destruct (dict_lookup key details) as [v|] eqn:Hkey.
    - by apply dict_lookup_update.
    - apply dict_lookup_update_other. apply Forall_forall. intros [k v] Hin Heq.
      cbn in Heq. subst k. apply dict_lookup_None in Hkey. apply Hkey.
      apply list_elem_of_fmap. by exists (key, v). }
  split.
  - intros idx total proj combined log. unfold Main.enrich_one.
    destruct (Main.scrape U P netloc proj) as [[details slog]|e] eqn:Hscrape; [|done].
    cbn. intros [= <- <-].
    destruct (dict_update_keys (Main.to_dict proj) details) as (extra & Hkeys & Hnodup & Hextra).
    exists details, slog, extra. split_and!; [done..| |].
    + apply Forall_forall. intros k Hk. destruct (Hextra k Hk) as [Hin Hout].
      pose proof (main_scrape_keys U P netloc proj details slog Hscrape) as Hwithin.
      unfold keys_within in Hwithin. rewrite Forall_forall in Hwithin.
      apply list_elem_of_fmap in Hin as ([k' v] & -> & Hin).
      exact (proj1 (added_keys_only _ proj Sample.alpha7 (Hwithin _ Hin)) Hout).
    + intros key. apply Hlookup. by eapply main_scrape_well_keyed.
  - intros idx total project details combined. subst details combined.
    cbn [V7.enrich_one fst].
    destruct (dict_update_keys (V7.to_dict project) (V7._scrape_single_platform U P project))
      as (extra & Hkeys & Hnodup & Hextra).
    exists extra. split_and!; [done..| |].
    + apply Forall_forall. intros k Hk. destruct (Hextra k Hk) as [Hin Hout].
      pose proof (v7_scrape_keys U P project) as Hwithin.
      unfold keys_within in Hwithin. rewrite Forall_forall in Hwithin.
      apply list_elem_of_fmap in Hin as ([k' v] & -> & Hin).
      exact (proj2 (added_keys_only _ Sample.alpha project (Hwithin _ Hin)) Hout).
    + intros key. apply Hlookup. apply v7_scrape_well_keyed.
Qed.

Section EnrichAll.
Context (U : unicode_db) (P : web) (netloc : list N → result (list N)).

Lemma main_scrape_raises proj e :
  Main.scrape U P netloc proj = Raised e ↔
  Main.platform_url proj ≠ [] ∧ netloc (Main.platform_url proj) = Raised e.
Proof.
  unfold Main.scrape. destruct (Main.platform_url proj) as [|c url].
  - split; [done|]. by intros [? _].
  - destruct (netloc (c :: url)) as [host|e']; cbn.
    + split; [done|]. by intros [_ ?].
    + split; [by intros [= ->]|]. by intros [_ [= ->]].
Qed.

Lemma main_enrich_from_cases idx total projects :
  match Main.enrich_from U P netloc idx total projects with
  | Ok (enriched, log) =>
      Forall2 (λ proj combined, ∃ details slog,
                 Main.scrape U P netloc proj = Ok (details, slog) ∧
                 combined = dict_update (Main.to_dict proj) details)
        projects enriched
  | Raised e =>
      ∃ pre proj post, projects = pre ++ proj :: post ∧
        Forall (λ p, ∃ r, Main.scrape U P netloc p = Ok r) pre ∧
        Main.scrape U P netloc proj = Raised e
  end.
Proof.
  revert idx. induction projects as [|proj projects IH]; intros idx; [constructor|].
  cbn [Main.enrich_from]. unfold Main.enrich_one at 1.
  destruct (Main.scrape U P netloc proj) as [[details slog]|e] eqn:Hscrape; cbn.
  - specialize (IH (S idx)).
    destruct (Main.enrich_from U P netloc (S idx) total projects) as [[enriched log]|e]; cbn.
    + constructor; [|done]. by exists details, slog.
    + destruct IH as (pre & bad & post & -> & Hpre & Hbad).
      exists (proj :: pre), bad, post. split_and!; [done| |done].
      constructor; [|done]. by eexists.
  - exists [], proj, projects. by split_and!.
Qed.

Lemma main_enrich_from_raises idx total pre proj post e :
  Forall (λ p, ∃ r, Main.scrape U P netloc p = Ok r) pre →
  Main.scrape U P netloc proj = Raised e →
  Main.enrich_from U P netloc idx total (pre ++ proj :: post) = Raised e.
Proof.
  intros Hpre Hbad. revert idx. induction Hpre as [|p pre [[details slog] Hp] Hpre IH]; intros idx.
  - cbn [app Main.enrich_from]. unfold Main.enrich_one. by rewrite Hbad.
  - cbn [app Main.enrich_from]. unfold Main.enrich_one at 1. rewrite Hp. cbn.
    by rewrite IH.
Qed.

Lemma v7_enrich_from_map idx total projects :
  (V7.enrich_from U P idx total projects).1 =
    (λ project, dict_update (V7.to_dict project) (V7._scrape_single_platform U P project))
      <$> projects.
Proof.
  revert idx. induction projects as [|project projects IH]; intros idx; [done|].
  cbn [V7.enrich_from V7.enrich_one]. specialize (IH (S idx)).
  destruct (V7.enrich_from U P (S idx) total projects) as [enriched log].
  cbn [fst] in *. by rewrite fmap_cons, IH.
Qed.

End EnrichAll.

(** X12.  The enrichment loop of [main.py] is all or nothing: it returns one
    combined dictionary per record, in order, unless [urlparse] rejects
    the non-empty URL of some record; then the loop ends with that error
    at the first such record and the dictionaries built before it are
    lost.  The loop of [v7.py] always returns one dictionary per record. *)
Theorem enrichment_loop_outcomes
    (U : unicode_db) (P : web) (netloc : list N → result (list N))
    (projects : list Main.IFBProject) (projects7 : list V7.IFBProject) :
  (∀ enriched log, Main.enrich U P netloc projects = Ok (enriched, log) →
     length enriched = length projects ∧
     Forall2 (λ proj combined, ∃ details slog,
                Main.scrape U P netloc proj = Ok (details, slog) ∧
                combined = dict_update (Main.to_dict proj) details)
       projects enriched) ∧
  (∀ e, Main.enrich U P netloc projects = Raised e ↔
     ∃ pre proj post, projects = pre ++ proj :: post ∧
       Forall (λ p, Main.platform_url p = [] ∨
                    ∃ host, netloc (Main.platform_url p) = Ok host) pre ∧
       Main.platform_url proj ≠ [] ∧ netloc (Main.platform_url proj) = Raised e) ∧
  (V7.enrich_projects_with_platform_details U P projects7).1 =
    (λ project, dict_update (V7.to_dict project) (V7._scrape_single_platform U P project))
      <$> projects7.
Proof.
  assert (∀ p, (∃ r, Main.scrape U P netloc p = Ok r) ↔
               (Main.platform_url p = [] ∨ ∃ host, netloc (Main.platform_url p) = Ok host))
    as Hok.
  { intros p. unfold Main.scrape. destruct (Main.platform_url p) as [|c url].
    - split; [by left|by eexists].
    - destruct (netloc (c :: url)) as [host|e]; cbn.
      + split; [right; by eexists|by eexists].
      + split; [by intros [? ?]|]. by intros [?|[? ?]]. }
  unfold Main.enrich, V7.enrich_projects_with_platform_details. split_and!.
  - intros enriched log Hrun.
    pose proof (main_enrich_from_cases U P netloc 1 (length projects) projects) as Hcases.
    rewrite Hrun in Hcases. split; [|done]. symmetry. by eapply Forall2_length.
  - intros e. split.
    + intros Hrun.
      pose proof (main_enrich_from_cases U P netloc 1 (length projects) projects) as Hcases.
      rewrite Hrun in Hcases. destruct Hcases as (pre & proj & post & -> & Hpre & Hbad).
      apply main_scrape_raises in Hbad as [Hurl Hbad].
      exists pre, proj, post. split_and!; [done| |done..].
      eapply Forall_impl; [exact Hpre|]. intros p. apply Hok.
    + intros (pre & proj & post & -> & Hpre & Hurl & Hbad).
      apply main_enrich_from_raises.
      * eapply Forall_impl; [exact Hpre|]. intros p. apply Hok.
      * by apply main_scrape_raises.
  - apply v7_enrich_from_map.
Qed.

(** ** The generic adapter *)

Lemma dict_lookup_assign key v (d : dict) key' :
  dict_lookup key' (assign key v d) =
    match v with
    | Some s => if decide (key = key') then Some (Some s) else dict_lookup key' d
    | None => dict_lookup key' d
    end.
Proof. destruct v; simpl; [apply dict_lookup_set|done]. Qed.

Lemma first_found_first (alternatives : list (option (list N))) group :
  first_found alternatives = Some group ↔
  ∃ i, alternatives !! i = Some (Some group) ∧
       ∀ j, (j < i)%nat → alternatives !! j = Some None.
Proof.
  induction alternatives as [|[g|] rest IH]; cbn [first_found].
  - split; [done|]. by intros (i & Hi & _).
  - split.
    + intros [= ->]. exists 0%nat. split; [done|]. lia.
    + intros (i & Hi & Hmin). destruct i as [|i]; [by injection Hi as ->|].
      specialize (Hmin 0%nat). cbn in Hmin. discriminate Hmin. lia.
  - rewrite IH. split.
    + intros (i & Hi & Hmin). exists (S i). split; [done|].
      intros [|j] Hj; [done|]. apply Hmin. lia.
    + intros (i & Hi & Hmin). destruct i as [|i]; [done|]. exists i. split; [done|].
      intros j Hj. apply (Hmin (S j)). lia.
Qed.

(** X13.  The generic adapter gives each field the group of the first pattern
    of its list that matches the page text, and leaves the field out when
    none matches; the applicant name is stripped.  In [main.py] the
    mapping of a page that loads also names the platform by the host of
    the URL, so it is never empty; in [v7.py] the platform is never
    named. *)
Theorem generic_adapter_takes_first_alternative
    (U : unicode_db) (P : web) (netloc : list N → result (list N)) (page : generic_page) :
  (∀ alternatives group, first_found alternatives = Some group ↔
     ∃ i, alternatives !! i = Some (Some group) ∧
          ∀ j, (j < i)%nat → alternatives !! j = Some None) ∧
  dict_lookup "target_amount" (generic_fields U page) =
    Some <$> first_found (g_target_amount page) ∧
  dict_lookup "expected_return" (generic_fields U page) =
    Some <$> first_found (g_expected_return page) ∧
  dict_lookup "project_duration" (generic_fields U page) =
    Some <$> first_found (g_project_duration page) ∧
  dict_lookup "investor_count" (generic_fields U page) =
    Some <$> first_found (g_investor_count page) ∧
  dict_lookup "applicant_name" (generic_fields U page) =
    (λ name, Some (strip U name)) <$> first_found (g_company page) ∧
  (∀ url host, generic_text P url = Some page → netloc url = Ok host →
     dict_lookup "platform_name" (Main._scrape_generic U P netloc url) = Some (Some host)) ∧
  (∀ url, dict_lookup "platform_name" (V7._scrape_generic U P url) = None).
Proof.
  split; [apply first_found_first|].
  unfold generic_fields.
  split_and!.
  1-5: rewrite !dict_lookup_assign;
       destruct (first_found (g_target_amount page)), (first_found (g_expected_return page)),
         (first_found (g_project_duration page)), (first_found (g_investor_count page)),
         (first_found (g_company page)); reflexivity.
  - intros url host Hpage Hhost. unfold Main._scrape_generic.
    rewrite Hpage, Hhost, dict_lookup_set. by rewrite decide_True.
  - intros url. unfold V7._scrape_generic.
    destruct (generic_text P url) as [page'|]; [|done].
    unfold generic_fields. rewrite !dict_lookup_assign.
    by destruct (first_found (g_target_amount page')), (first_found (g_expected_return page')),
         (first_found (g_project_duration page')), (first_found (g_investor_count page')),
         (first_found (g_company page')).
Qed.

(** ** The merge functions, further *)

Section DigestMore.
Context (sha256_hex : list N → list N).

Lemma build_unique_key_value (row : dict) a b c :
  dict_lookup "project_name" row = Some a →
  dict_lookup "company_name" row = Some b →
  dict_lookup "fund_collection_start_date" row = Some c →
  Dedup.build_unique_key sha256_hex row = Ok (sha256_hex (key_text a b c)).
Proof.
  intros Ha Hb Hc. unfold Dedup.build_unique_key, dict_item. by rewrite Ha, Hb, Hc.
Qed.

Lemma build_unique_key_Ok (row : dict) key :
  Dedup.build_unique_key sha256_hex row = Ok key → has_key_fields row.
Proof.
  unfold Dedup.build_unique_key, dict_item, has_key_fields, mbind, result_bind.
  repeat case_match; done.
Qed.

Lemma attach_unique_keys_cases (rows : list dict) :
  match Dedup.attach_unique_keys sha256_hex rows with
  | Ok rows' =>
      Forall2 (λ row row', ∃ key, Dedup.build_unique_key sha256_hex row = Ok key ∧
                                  row' = dict_set "unique_key" (Some key) row) rows rows'
  | Raised e => Exists (λ row, ¬ has_key_fields row) rows
  end.
Proof.
  induction rows as [|row rows IH]; [constructor|].
  cbn [Dedup.attach_unique_keys]. unfold mbind, result_bind.
  destruct (Dedup.build_unique_key sha256_hex row) as [key|e] eqn:Hkey.
  - destruct (Dedup.attach_unique_keys sha256_hex rows) as [rows'|e'].
    + constructor; [|done]. by exists key.
    + by apply Exists_cons_tl.
  - apply Exists_cons_hd. intros (Ha & Hb & Hc).
    destruct Ha as [a Ha], Hb as [b Hb], Hc as [c Hc].
    by rewrite (build_unique_key_value row a b c) in Hkey.
Qed.

End DigestMore.


(** X15.  The content key depends on the rendered text of the three fields
    only: rows that agree on them get the same key whatever else they
    hold.  The text is not injective in the fields: a hyphen can move
    between neighbouring fields, and a missing value ([None]) renders as
    the string "None", so such rows share a key before any hashing. *)
Theorem content_key_collisions
    (sha256_hex : list N → list N) (row1 row2 : dict) (a b c : option (list N)) :
  dict_lookup "project_name" row1 = Some a →
  dict_lookup "company_name" row1 = Some b →
  dict_lookup "fund_collection_start_date" row1 = Some c →
  (dict_lookup "project_name" row2 = Some a →
   dict_lookup "company_name" row2 = Some b →
   dict_lookup "fund_collection_start_date" row2 = Some c →
   Dedup.build_unique_key sha256_hex row2 = Dedup.build_unique_key sha256_hex row1) ∧
  (∀ x y z, a = Some (x ++ lit "-" ++ y) → b = Some z →
     dict_lookup "project_name" row2 = Some (Some x) →
     dict_lookup "company_name" row2 = Some (Some (y ++ lit "-" ++ z)) →
     dict_lookup "fund_collection_start_date" row2 = Some c →
     Dedup.build_unique_key sha256_hex row2 = Dedup.build_unique_key sha256_hex row1) ∧
  (a = None →
   dict_lookup "project_name" row2 = Some (Some (lit "None")) →
   dict_lookup "company_name" row2 = Some b →
   dict_lookup "fund_collection_start_date" row2 = Some c →
   Dedup.build_unique_key sha256_hex row2 = Dedup.build_unique_key sha256_hex row1).
Proof.
  intros Ha Hb Hc. rewrite (build_unique_key_value sha256_hex row1 a b c Ha Hb Hc).
  split_and!.
  - intros Ha2 Hb2 Hc2. by rewrite (build_unique_key_value sha256_hex row2 a b c).
  - intros x y z -> -> Ha2 Hb2 Hc2.
    rewrite (build_unique_key_value sha256_hex row2 _ _ _ Ha2 Hb2 Hc2).
    unfold key_text. cbn [py_str]. by rewrite <- !app_assoc.
  - intros -> Ha2 Hb2 Hc2.
    by rewrite (build_unique_key_value sha256_hex row2 _ _ _ Ha2 Hb2 Hc2).
Qed.

Lemma filter_new_rows_app (rows1 rows2 : list dict) (existing : gset (option (list N))) :
  Dedup.filter_new_rows (rows1 ++ rows2) existing =
    kept1 ← Dedup.filter_new_rows rows1 existing;
    kept2 ← Dedup.filter_new_rows rows2 existing;
    Ok (kept1 ++ kept2).
Proof.
  induction rows1 as [|row rows1 IH]; cbn [app Dedup.filter_new_rows].
  - unfold mbind, result_bind. by destruct (Dedup.filter_new_rows rows2 existing).
  - rewrite IH. unfold mbind, result_bind.
    destruct (dict_item "unique_key" row) as [key|e]; [|done].
    destruct (Dedup.filter_new_rows rows1 existing) as [kept1|e]; [|done].
    destruct (Dedup.filter_new_rows rows2 existing) as [kept2|e]; [|done].
    by case_decide.
Qed.

(** X16.  The merge filters work record by record against the existing keys
    alone: they distribute over concatenation of candidate lists, so
    candidates are never compared with each other and a key that occurs
    twice among new candidates is kept twice; filtering a second time
    changes nothing; and with no existing keys every candidate is
    returned. *)
Theorem merge_filters_are_pointwise
    (projects1 projects2 : list dict) (existing : gset (option (list N))) :
  Dedup.filter_new_projects (projects1 ++ projects2) existing =
    Dedup.filter_new_projects projects1 existing ++
    Dedup.filter_new_projects projects2 existing ∧
  Dedup.filter_new_projects (Dedup.filter_new_projects projects1 existing) existing =
    Dedup.filter_new_projects projects1 existing ∧
  Dedup.filter_new_projects projects1 ∅ = projects1 ∧
  (∀ p, dict_get "detail_url" p ∉ existing →
     Dedup.filter_new_projects [p; p] existing = [p; p]) ∧
  Dedup.filter_new_rows (projects1 ++ projects2) existing =
    (kept1 ← Dedup.filter_new_rows projects1 existing;
     kept2 ← Dedup.filter_new_rows projects2 existing;
     Ok (kept1 ++ kept2)) ∧
  (∀ kept, Dedup.filter_new_rows projects1 existing = Ok kept →
     Dedup.filter_new_rows kept existing = Ok kept) ∧
  (∀ kept, Dedup.filter_new_rows projects1 ∅ = Ok kept → kept = projects1).
Proof.
  split_and!.
  - induction projects1 as [|p projects1 IH]; [done|].
    cbn [app Dedup.filter_new_projects]. rewrite IH. by case_decide.
  - induction projects1 as [|p projects1 IH]; [done|].
    cbn [Dedup.filter_new_projects]. case_decide as Hp; [|done].
    cbn [Dedup.filter_new_projects]. by rewrite decide_True, IH.
  - induction projects1 as [|p projects1 IH]; [done|].
    cbn [Dedup.filter_new_projects]. rewrite decide_True by apply not_elem_of_empty.
    by rewrite IH.
  - intros p Hp. cbn [Dedup.filter_new_projects]. by rewrite !decide_True.
  - apply filter_new_rows_app.
  - induction projects1 as [|row rows IH]; intros kept.
    + by intros [= <-].
    + cbn [Dedup.filter_new_rows]. unfold mbind, result_bind.
      destruct (dict_item "unique_key" row) as [key|e] eqn:Hkey; [|done].
      destruct (Dedup.filter_new_rows rows existing) as [kept'|e]; [|done].
      specialize (IH kept' eq_refl). case_decide as Hnew; intros [= <-]; [|done].
      cbn [Dedup.filter_new_rows]. unfold mbind, result_bind.
      rewrite Hkey, IH. by rewrite decide_True.
  - induction projects1 as [|row rows IH]; intros kept.
    + by intros [= <-].
    + cbn [Dedup.filter_new_rows]. unfold mbind, result_bind.
      destruct (dict_item "unique_key" row) as [key|e] eqn:Hkey; [|done].
      destruct (Dedup.filter_new_rows rows ∅) as [kept'|e]; [|done].
      rewrite decide_True by apply not_elem_of_empty.
      intros [= <-]. by rewrite (IH kept' eq_refl).
Qed.

(** ** The repository of [sheets.py], further *)

Lemma column_set_values (name : str) (worksheet : list (list (list N))) (v : option (list N)) :
  v ∈ Sheets.column_set name worksheet → ∃ s, v = Some s ∧ s ≠ [].
Proof.
  unfold Sheets.column_set. destruct (header_index name (header_row worksheet)) as [i|].
  - rewrite elem_of_list_to_set, list_elem_of_fmap. intros (s & -> & Hin).
    apply list_elem_of_In, List.filter_In in Hin as [_ Hne].
    exists s. split; [done|]. by apply bool_decide_eq_true in Hne.
  - by intros ?%elem_of_empty.
Qed.


(** ** [GoogleSheetsHandler], further *)

Lemma select_new_rows_cons (id_field : string) (existing : gset (list N))
    (item : dict) (data : list dict) :
  Main.select_new_rows id_field existing (item :: data) =
    ((Main.new_rows_step id_field existing ([], []) item).1 ++
       (Main.select_new_rows id_field existing data).1,
     (Main.new_rows_step id_field existing ([], []) item).2 ++
       (Main.select_new_rows id_field existing data).2).
Proof.
  unfold Main.select_new_rows at 1. cbn [foldl].
  destruct (Main.new_rows_step id_field existing ([], []) item) as [rows0 log0].
  by rewrite select_new_rows_acc.
Qed.

(** X18.  The selection loop of [append_new_rows] is a filter: the rows handed
    to the sheet are the values of the items whose identifier text is not
    empty and not among the existing identifiers, in order; the log holds
    one warning for each item with an empty identifier text and nothing
    else.  Items are not compared with each other: an identifier that
    occurs twice among new items gives two rows. *)
Theorem selection_for_append_is_a_filter
    (id_field : string) (existing : gset (list N)) (data : list dict) :
  (Main.select_new_rows id_field existing data).1 =
    dict_values <$>
      filter (λ item, Main.id_of id_field item ≠ [] ∧ Main.id_of id_field item ∉ existing)
        data ∧
  (Main.select_new_rows id_field existing data).2 =
    (λ item, RowWithoutId (py_str (dict_get_or "project_name" (Some []) item))) <$>
      filter (λ item, Main.id_of id_field item = []) data ∧
  (∀ item, Main.id_of id_field item ≠ [] → Main.id_of id_field item ∉ existing →
     Main.select_new_rows id_field existing [item; item] =
       ([dict_values item; dict_values item], [])).
Proof.
  assert (∀ item, Main.new_rows_step id_field existing ([], []) item =
            (if decide (Main.id_of id_field item ≠ [] ∧ Main.id_of id_field item ∉ existing)
             then [dict_values item] else [],
             if decide (Main.id_of id_field item = [])
             then [RowWithoutId (py_str (dict_get_or "project_name" (Some []) item))]
             else [])) as Hstep.
  { intros item. unfold Main.new_rows_step.
    destruct (Main.id_of id_field item) as [|c pid] eqn:Hpid.
    - rewrite decide_False by (by intros [? _]). by rewrite decide_True.
    - rewrite (decide_False (P := c :: pid = [])) by done.
      destruct (decide (c :: pid ∉ existing)) as [Hnew|Hold].
      + by rewrite decide_True.
      + rewrite decide_False; [done|]. by intros [_ ?]. }
  split_and!.
  - induction data as [|item data IH]; [done|].
    rewrite select_new_rows_cons, filter_cons, IH, Hstep. cbn [fst].
    by case_decide.
  - induction data as [|item data IH]; [done|].
    rewrite select_new_rows_cons, filter_cons, IH, Hstep. cbn [snd].
    by case_decide.
  - intros item Hpid Hnew. rewrite !select_new_rows_cons, Hstep.
    rewrite decide_True by done. by rewrite decide_False.
Qed.


(** ** Worked instances *)

(** On the sample row with both controls, [main.py] takes the identifier
    of the details control. *)
Lemma main_record_witness_handled_row :
  ∃ proj log d',
    Main.row_body ascii_db Cases.archive Cases.handled_row Sample.fresh = Some (proj, log, d') ∧
    Main.ifb_project_id proj = Some (lit "123") ∧
    Main.documents_url proj = IFB_MAIN_URL ++ lit "?doc_id=123" ∧
    Main.scraped_date proj = Sample.stamp.
Proof.
  destruct (Main.row_body ascii_db Cases.archive Cases.handled_row Sample.fresh)
    as [[[proj log] d']|] eqn:Hrun; [|vm_compute in Hrun; discriminate Hrun].
  exists proj, log, d'. split; [reflexivity|].
  destruct (main_record_identifier_and_documents ascii_db Cases.archive Cases.handled_row
              Sample.fresh d' proj log Hrun) as (Hid & Hdoc & _ & Hdate).
  assert (Main.ifb_project_id proj = Some (lit "123")) as Hid'
    by (rewrite Hid; vm_compute; reflexivity).
  rewrite Hid' in Hdoc. destruct Hdoc as [_ Hdoc].
  split; [exact Hid'|]. split; [exact Hdoc|exact Hdate].
Defined.

(** On the same row [v7.py] builds the documents URL from the documents
    control and reads the description through the details control. *)
Lemma v7_record_witness_handled_row :
  ∃ project log d',
    V7.row_body ascii_db Cases.archive Cases.handled_row Sample.fresh = Some (project, log, d') ∧
    V7.documents_url project = IFB_MAIN_URL ++ lit "?doc_id=456" ∧
    V7.description project = lit "A plan.".
Proof.
  destruct (V7.row_body ascii_db Cases.archive Cases.handled_row Sample.fresh)
    as [[[project log] d']|] eqn:Hrun; [|vm_compute in Hrun; discriminate Hrun].
  exists project, log, d'. split; [reflexivity|].
  pose proof (v7_record_documents_and_description ascii_db Cases.archive Cases.handled_row
                Sample.fresh d' project log Hrun) as [Hdoc Hdesc].
  assert (handler_id ascii_db "GoToDocuments" (cell_icon_folder (Cases.handled_row !!! 9%nat)) =
            Some (lit "456")) as Hfiled by (vm_compute; reflexivity).
  assert (handler_id ascii_db "showDesc" (cell_a (Cases.handled_row !!! 8%nat)) =
            Some (lit "123")) as Hshown by (vm_compute; reflexivity).
  rewrite Hfiled in Hdoc. rewrite Hshown in Hdesc.
  destruct Hdoc as [_ Hdoc]. destruct Hdesc as [_ Hdesc].
  split; [exact Hdoc|]. rewrite Hdesc. vm_compute. reflexivity.
Defined.

(** The padded texts of the sample row are stored trimmed. *)
Lemma record_text_fields_witness_handled_row :
  ∃ proj log d',
    Main.row_body ascii_db Cases.archive Cases.handled_row Sample.fresh = Some (proj, log, d') ∧
    cell_text (Cases.handled_row !!! 1%nat) = lit "  Beta Project" ∧
    trimmed ascii_db (Main.project_name proj) ∧
    platform_href Cases.handled_row = Some (Main.platform_url proj).
Proof.
  destruct (Main.row_body ascii_db Cases.archive Cases.handled_row Sample.fresh)
    as [[[proj log] d']|] eqn:Hrun; [|vm_compute in Hrun; discriminate Hrun].
  exists proj, log, d'. split; [reflexivity|]. split; [reflexivity|].
  destruct (proj1 (record_text_fields_are_trimmed ascii_db Cases.archive Cases.handled_row
                     Sample.fresh) proj log d' Hrun) as [Hfields Hhref].
  split; [|exact Hhref].
  apply Forall_cons in Hfields as [_ Hfields]. apply Forall_cons in Hfields as [[Htrim _] _].
  exact Htrim.
Defined.

(** The run over the sample feed returns five records, all of 1404, and
    ends on page 2. *)
Lemma traversal_witness_sample_feed :
  ∃ t, Main.scrape_all_pages ascii_db Sample.feed 5 Sample.fresh = Some t ∧
       length (found t) = 5%nat ∧
       Forall (λ proj, Paginator.year_of ascii_db Main.fund_collection_start_date proj =
                         Some (lit "1404")) (found t) ∧
       (1 ≤ last_page t)%nat.
Proof.
  destruct (Main.scrape_all_pages ascii_db Sample.feed 5 Sample.fresh) as [t|] eqn:Hrun;
    [|vm_compute in Hrun; discriminate Hrun].
  exists t. split; [reflexivity|]. split.
  - vm_compute in Hrun. injection Hrun as <-. reflexivity.
  - exact (traversal_returns_target_year_only ascii_db Main.fund_collection_start_date
             Main.project_name (_navigate_to_page Sample.feed)
             (Main._extract_current_page_projects ascii_db Sample.feed) 5 Sample.fresh t Hrun).
Defined.

(** Over the endless feed the run has not returned after a thousand
    pages; over the sample feed it returns the same under a bound of 5
    pages and under a bound of 50. *)
Lemma traversal_witness_endless_feed :
  Main.scrape_all_pages ascii_db Cases.endless_feed 1000 Sample.fresh = None ∧
  ∃ t, V7.scrape_all_pages ascii_db Sample.feed 5 Sample.fresh = Some t ∧
       V7.scrape_all_pages ascii_db Sample.feed 50 Sample.fresh = Some t.
Proof.
  split.
  - apply (proj1 (traversal_ends_only_at_a_halting_page ascii_db
                    Main.fund_collection_start_date Main.project_name
                    (_navigate_to_page Cases.endless_feed)
                    (Main._extract_current_page_projects ascii_db Cases.endless_feed)
                    Sample.fresh)).
    intros n Hn [[_ Hnav]|Hstop].
    + cbn in Hnav. discriminate Hnav.
    + revert Hstop. unfold Paginator.page_stops, Paginator.page_at.
      generalize (Paginator.arriving (_navigate_to_page Cases.endless_feed)
                    (Main._extract_current_page_projects ascii_db Cases.endless_feed)
                    Sample.fresh n).
      intros [pg ck] [Hnil|Hoff].
      * vm_compute in Hnil. discriminate Hnil.
      * apply Exists_cons in Hoff as [Hoff|Hoff].
        -- vm_compute in Hoff. discriminate Hoff.
        -- vm_compute in Hoff. by apply Exists_nil in Hoff.
  - destruct (V7.scrape_all_pages ascii_db Sample.feed 5 Sample.fresh) as [t|] eqn:Hrun;
      [|vm_compute in Hrun; discriminate Hrun].
    exists t. split; [reflexivity|].
    apply (proj2 (traversal_ends_only_at_a_halting_page ascii_db
                    V7.fund_collection_start_date V7.project_name
                    (_navigate_to_page Sample.feed)
                    (V7._extract_current_page_projects ascii_db Sample.feed)
                    Sample.fresh) 5%nat 50%nat t Hrun).
    lia.
Defined.

(** On the sample market every adapter passes over the card "Gamma" and
    reads the card "Alpha Project". *)
Lemma adapters_witness_market :
  _scrape_hamafarin ascii_db Cases.market (lit " Alpha Project ") (lit "https://hamafarin.ir") =
    _extract_hamafarin_card ascii_db (Sample.hamafarin_titled "Alpha Project") ∧
  _scrape_zeema ascii_db Cases.market (lit " Alpha Project ") (lit "https://zeema.fund") =
    _extract_zeema_card ascii_db (Sample.zeema_titled "Alpha Project") ∧
  _scrape_ifund ascii_db Cases.market (lit "Delta") (lit "https://ifund.ir") = [].
Proof.
  pose proof (adapters_take_first_passing_card ascii_db Cases.market (lit " Alpha Project ")
                (lit "https://hamafarin.ir")) as (Hhamafarin & _).
  pose proof (adapters_take_first_passing_card ascii_db Cases.market (lit " Alpha Project ")
                (lit "https://zeema.fund")) as (_ & _ & _ & _ & Hzeema & _).
  pose proof (adapters_take_first_passing_card ascii_db Cases.market (lit "Delta")
                (lit "https://ifund.ir")) as (_ & _ & _ & _ & _ & _ & _ & _ & Hifund & _).
  split_and!.
  - apply (Hhamafarin [Sample.hamafarin_titled "Gamma"] (Sample.hamafarin_titled "Alpha Project") []).
    + reflexivity.
    + constructor; [|constructor]. intros (e & He & Htest). cbn in He. injection He as <-.
      vm_compute in Htest. discriminate Htest.
    + eexists. split; [reflexivity|]. vm_compute. reflexivity.
  - apply (Hzeema [Sample.zeema_titled "Gamma"] (Sample.zeema_titled "Alpha Project") []).
    + reflexivity.
    + constructor; [|constructor]. intros (e & He & Htest). cbn in He. injection He as <-.
      vm_compute in Htest. discriminate Htest.
    + eexists. split; [reflexivity|]. vm_compute. reflexivity.
  - apply (Hifund [Cases.ifund_titled "Gamma"; Cases.ifund_titled "Alpha Project"]).
    + reflexivity.
    + repeat constructor; intros (e & He & Htest); cbn in He; injection He as <-;
        vm_compute in Htest; discriminate Htest.
Defined.

(** On the market whose first cards have blank titles the adapters read
    that first card whatever the record is called; zeema does so for a
    record with a blank name. *)
Lemma blank_titles_witness_market :
  _scrape_karencrowd ascii_db Cases.blank_market (lit "Alpha Project") (lit "https://karencrowd.com") =
    _extract_karencrowd_card ascii_db (Cases.karencrowd_titled "  ") ∧
  _scrape_zeema ascii_db Cases.blank_market (lit " ") (lit "https://zeema.fund") =
    _extract_zeema_card ascii_db (Sample.zeema_titled "  ").
Proof.
  split.
  - apply (proj1 (proj2 (blank_titles_match_everything ascii_db Cases.blank_market
                           (lit "Alpha Project") (lit "https://karencrowd.com")))
             (Cases.karencrowd_titled "  ") [Cases.karencrowd_titled "Alpha Project"]
             (Sample.tag "  ")).
    + reflexivity.
    + reflexivity.
    + left. vm_compute. reflexivity.
  - apply (proj2 (proj2 (proj2 (proj2 (blank_titles_match_everything ascii_db Cases.blank_market
                                         (lit " ") (lit "https://zeema.fund")))))
             (Sample.zeema_titled "  ") [Sample.zeema_titled "Alpha Project"]
             (Sample.tag "  ")).
    + reflexivity.
    + reflexivity.
    + vm_compute. reflexivity.
Defined.

(** A fundocrowd card that shows its duration and its return is not
    followed to its details page. *)
Lemma fundocrowd_witness_complete_card :
  truthy (dict_get "expected_return" (_extract_fundocrowd_card ascii_db Cases.fundocrowd_complete))
    = true ∧
  fundocrowd_details_of ascii_db Cases.market Cases.fundocrowd_complete =
    _extract_fundocrowd_card ascii_db Cases.fundocrowd_complete.
Proof.
  split; [vm_compute; reflexivity|].
  pose proof (fundocrowd_second_fetch_adds_payment_frequency_only ascii_db Cases.market
                Cases.fundocrowd_complete) as (_ & _ & Hsame).
  apply Hsame; vm_compute; reflexivity.
Defined.

(** The combined dictionary of the sample record keeps the dataclass
    keys first and adds the title found on the platform. *)
Lemma combined_record_witness_alpha :
  ∃ combined log extra,
    Main.enrich_one ascii_db Sample.pages Sample.netloc 1 1 Sample.alpha = Ok (combined, log) ∧
    dict_keys combined = dict_keys (Main.to_dict Sample.alpha) ++ extra ∧
    Forall (λ k, k ∈ added_keys) extra.
Proof.
  destruct (Main.enrich_one ascii_db Sample.pages Sample.netloc 1 1 Sample.alpha)
    as [[combined log]|e] eqn:Hrun; [|vm_compute in Hrun; discriminate Hrun].
  destruct (proj1 (combined_record_layout ascii_db Sample.pages Sample.netloc)
              1%nat 1%nat Sample.alpha combined log Hrun)
    as (details & slog & extra & _ & Hkeys & _ & Hadded & _).
  exists combined, log, extra. split; [reflexivity|]. split; [exact Hkeys|exact Hadded].
Defined.

(** A malformed URL in the second record aborts the whole enrichment of
    [main.py]; [v7.py] returns one dictionary per record. *)
Lemma enrichment_loop_witness_malformed :
  Main.enrich ascii_db Sample.pages Sample.netloc [Sample.alpha; Cases.malformed] =
    Raised ValueError ∧
  length (V7.enrich_projects_with_platform_details ascii_db Sample.pages
            [Sample.alpha7; Sample.alpha7]).1 = 2%nat.
Proof.
  pose proof (enrichment_loop_outcomes ascii_db Sample.pages Sample.netloc
                [Sample.alpha; Cases.malformed] [Sample.alpha7; Sample.alpha7])
    as (_ & Hraised & Hmap).
  split.
  - apply Hraised. exists [Sample.alpha], Cases.malformed, []. split_and!.
    + reflexivity.
    + constructor; [|constructor]. right. eexists. vm_compute. reflexivity.
    + discriminate.
    + vm_compute. reflexivity.
  - rewrite Hmap. reflexivity.
Defined.

(** On the sample page the generic adapter of [main.py] names the host
    as the platform. *)
Lemma generic_adapter_witness_market :
  dict_lookup "platform_name"
    (Main._scrape_generic ascii_db Cases.market Sample.netloc (lit "https://example.org/plan")) =
    Some (Some (lit "example.org")) ∧
  first_found (g_target_amount Cases.plan_page) = Some (lit "500").
Proof.
  pose proof (generic_adapter_takes_first_alternative ascii_db Cases.market Sample.netloc
                Cases.plan_page)
    as (Hfirst & _ & _ & _ & _ & _ & Hmain & _).
  split.
  - eapply Hmain; [reflexivity|]. vm_compute. reflexivity.
  - apply Hfirst. exists 1%nat. split; [reflexivity|].
    intros j Hj. assert (j = 0%nat) as -> by lia. reflexivity.
Defined.


(** Two different rows with one key: the hyphen of the name moved into
    the company. *)
Lemma content_key_witness_shifted_hyphen :
  Cases.keyed_row "Solar" "Wind-Org" "1404/05/01" ≠ Cases.keyed_row "Solar-Wind" "Org" "1404/05/01" ∧
  Dedup.build_unique_key Cases.digest (Cases.keyed_row "Solar" "Wind-Org" "1404/05/01") =
    Dedup.build_unique_key Cases.digest (Cases.keyed_row "Solar-Wind" "Org" "1404/05/01").
Proof.
  split; [discriminate|].
  refine (proj1 (proj2 (content_key_collisions Cases.digest
                          (Cases.keyed_row "Solar-Wind" "Org" "1404/05/01")
                          (Cases.keyed_row "Solar" "Wind-Org" "1404/05/01")
                          (Some (lit "Solar-Wind")) (Some (lit "Org")) (Some (lit "1404/05/01"))
                          _ _ _))
            (lit "Solar") (lit "Wind") (lit "Org") _ _ _ _ _); reflexivity.
Defined.

(** A candidate that occurs twice in one batch is returned twice. *)
Lemma merge_filters_witness_repeated_candidate :
  Dedup.filter_new_projects
    [Sample.candidate "detail_url" "k9" "New"; Sample.candidate "detail_url" "k9" "New"]
    Sample.existing =
    [Sample.candidate "detail_url" "k9" "New"; Sample.candidate "detail_url" "k9" "New"].
Proof.
  pose proof (merge_filters_are_pointwise [] [] Sample.existing) as (_ & _ & _ & Htwice & _).
  apply Htwice. apply (bool_decide_unpack _). vm_compute. exact I.
Defined.


(** Two new items with one identifier give two rows; an item without an
    identifier gives a warning. *)
Lemma selection_witness_repeated_item :
  Main.select_new_rows "ifb_project_id" {[ lit "11" ]} [Cases.item "12" "B"; Cases.item "12" "B"] =
    ([dict_values (Cases.item "12" "B"); dict_values (Cases.item "12" "B")], []) ∧
  (Main.select_new_rows "ifb_project_id" {[ lit "11" ]} [Sample.unkeyed]).1 = [].
Proof.
  split.
  - pose proof (selection_for_append_is_a_filter "ifb_project_id" {[ lit "11" ]} [])
      as (_ & _ & Htwice).
    apply Htwice; [discriminate|]. apply (bool_decide_unpack _). vm_compute. exact I.
  - pose proof (selection_for_append_is_a_filter "ifb_project_id" {[ lit "11" ]} [Sample.unkeyed])
      as (Hrows & _).
    rewrite Hrows. reflexivity.
Defined.

